(* ===== verification/_CoqProject ===== *)
-Q . S2P
Prelude.v
JsString.v
Json.v
NumberFormat.v
Locale.v
JsSort.v
Portfolio.v
Farcaster.v
Base64.v
Config.v
Runtime.v
Request.v
PortfolioAction.v
FarcasterAction.v
