(* ===== verification/Prelude.v ===== *)
(** * A verification development for plugin-zapper (src/dist/index.js)

    (This header is the development's documentation; it is kept in step
    with the files listed in _CoqProject.)

    ** The program

    plugin-zapper is an elizaOS plugin with two actions.  The code is the
    single bundle src/dist/index.js:
    - [getZapperHeaders] (lines 37-43) builds the HTTP headers, with the
      API key base64-encoded by [btoa];
    - [formatPortfolioData] (lines 44-94) renders a Zapper portfolio as
      text: top five tokens by USD value, NFT balances, the two totals and
      the positive per-network totals, all through [toLocaleString];
    - [formatFarcasterData] (lines 95-102) collects the wallet addresses
      of a Farcaster profile;
    - [validateZapperConfig] (lines 104-123) reads the API key from the
      runtime settings or the environment and validates it with zod;
    - [portfolioAction.handler] (lines 134-233) asks the language model
      for addresses, splits them, fetches the portfolio, formats it,
      writes a memory and calls the callback;
    - [farcasterPortfolioAction.handler] (lines 280-359) asks the model
      for a username, fetches the profile, writes a memory tagged
      ZAPPER_PORTFOLIO and re-enters the runtime's [processActions].

    ** The library (files in dependency order)

    - [Prelude]: this header, the [zap_scope] notations ([<+>] for string
      concatenation), UTF-8 string literals ([utf8]), the JavaScript
      exceptions [exn] (Error, TypeError, InvalidCharacterError,
      NetworkError) and [result A = exn + A], the GraphQL response shape
      [gql_response] ([data] and [errors], both nullable), shared lemmas on
      strings and lists, the [zap] hint and rewrite databases and the
      tactics [inv], [dlia] (lia after eliminating div and mod).
    - [JsString] (Module [JsString]): [split] by one character, [join],
      and [trim] over the ECMAScript WhiteSpace and LineTerminator code
      points written as UTF-8 byte sequences.  Theorems: [join_split],
      [split_join], [trim_idem].
    - [Json] (Module [Json]): the JSON values the code sends ([json]:
      strings, arrays, objects) and [JSON.stringify] on them
      ([json_stringify]: QuoteJSONString's escapes, commas, no spaces), with
      an independent reader [parse_json] on fuel.  Theorems:
      [parse_json_stringify] (the reader recovers every value) and
      [stringify_printable] (the output has no control character, as the
      escapes promise).
    - [NumberFormat] (Module [NumberFormat]): [toLocaleString] in the
      en-US locale, as the code calls it: [format_currency] (USD style) and
      [format_decimal] (at most four fraction digits), on the exact decimal
      value of the double as a rational [Q]; rounding [round_abs] is
      ECMA-402 halfExpand, grouping [group3] puts a comma every three
      digits.  Theorems: [round_abs_half_expand] characterises the
      rounding; [parse_format_currency] and [parse_format_decimal] show the
      printed text determines the sign and the rounded amount (an
      independent reader [parse_currency] recovers them); [group3_groups].
    - [Locale] (Module [Locale]): the same two formats for any host
      locale with Latin digits, from the locale's data ([NumberLocale]:
      decimal and grouping separators, primary and secondary grouping,
      minimum grouping digits, minus sign, USD affixes and the sign's
      place); data for en-US, de-DE, en-IN, es-ES and nl-NL.  Theorems:
      [format_en_US] (the en-US instance is [NumberFormat]),
      [parse_format_currency_in] and [parse_format_decimal_in] (in every
      well-formed locale, [wf], the text gives back the sign and the
      rounded amount).
    - [JsSort] (Module [JsSort]): [Array.prototype.sort] with the
      comparator [(a, b) => key(b) - key(a)] (lines 46 and 75) as a stable
      insertion [sort].  [sort_spec]: a stable ordering by decreasing key;
      [sort_unique]: every ordering ECMAScript allows equals it, so the
      model is the sort of any conforming engine.
    - [Portfolio] (Module [Portfolio]): the response records, the
      sections and the template of [formatPortfolioData] ([render]) with
      its TypeErrors on missing data.  Theorems: [report_lines] (the
      report line by line), [top_tokens_greatest], [top_tokens_length],
      [network_entries_spec].
    - [Farcaster] (Module [Farcaster]): [formatFarcasterData] with
      [filter(Boolean)]; [formatFarcasterData_spec], [formatFarcasterData_In].
    - [Base64] (Module [Base64]): [btoa] (Latin-1 check of the UTF-8
      text, then base64 on bytes as [Z] with shifts and masks) and
      [getZapperHeaders].  A decoder [b64_decode] is written for the
      theorems: [b64_decode_encode], [b64_encode_length],
      [getZapperHeaders_spec] (the header decodes to the key, or btoa
      throws exactly on a character above U+00FF).
    - [Config] (Module [Config]): [validateZapperConfig] with the [||]
      fallback and zod's [min(1)] check and messages;
      [validate_setting_first], [validate_fallback], [validate_nonempty].
    - [Runtime] (Module [Runtime]): [Content] and [Memory]; the host as
      the type class [Runtime] ([getSetting], [process.env], the language
      model, the two GraphQL fetches, [createMemory]), each an oracle that
      may fail; the observable [event]s; and the handlers' monad [M], a
      state-and-error monad over the event trace in which a throw keeps
      the events already emitted.  Logging is observable too: every
      [elizaLogger] call is an event [EvLog] with its level and its
      arguments as the code passes them, and [try_catch] is JavaScript's
      [try]/[catch], running the handler after the events of the failed
      block.  Concrete hosts
      [example_host] for the witnesses.
    - [Request] (Module [Request]): the two GraphQL query texts
      (lines 136-170 and 282-297) line by line, the body
      [JSON.stringify({query, variables})] and the [fetch] request.
      [decode_request_body]: the body decodes back to the query and the
      exact addresses or username, so model output is sent as data only.
    - [PortfolioAction] (Module [PortfolioAction]): [parse_addresses]
      (line 205), [getZapperAssets] and [portfolio_handler], every await of
      the code a bind and every [try] a [try_catch] ([portfolio_try],
      [portfolio_catch]).  Theorems: the success run ([portfolio_success]),
      each error path (model, no address, configuration, upstream errors,
      missing data), [parse_addresses_wf], [parse_addresses_idem], and
      [portfolio_ignores_attached_addresses].  The specification's step
      sequence (section 4.5) is the inductive relation [portfolio_spec],
      one rule per way a run ends; [portfolio_handler_refines] shows every
      run on every host is one it allows, and [portfolio_handler_bounds]
      derives section 5's bounds from it by inversion;
      [portfolio_failure_logged] derives section 6: a failing run ends with
      the handler's error line naming the exception it rethrows.
    - [FarcasterAction] (Module [FarcasterAction]): [getFarcasterAddresses],
      [farcaster_handler], the plugin's actions, and the runtime's
      [processActions] (modelled from the specification, as it is not
      in this repository).  Theorems: each error path, [farcaster_fuel],
      and [farcaster_end_to_end]: the whole Farcaster-then-portfolio run,
      assuming the model, re-asked by the dispatched ZAPPER_PORTFOLIO on
      the written memory's text, answers with the resolved addresses;
      [farcaster_failure_logged]: a failure is logged before it is
      rethrown, by both handlers when the re-entered run failed.
      [farcaster_spec] is the step sequence of section 4.6, its last rule
      composing [portfolio_spec] for the re-entry;
      [farcaster_handler_refines] and [farcaster_handler_bounds] (a
      successful run makes two model calls and two requests);
      [farcaster_success_writes_report] (a successful run has written the
      portfolio report for the original user and room).

    ** Bounds and fuel

    [JsString.strip_all] trims with fuel; [trim] gives it the length of
    the byte list, and [strip_all_enough] shows that any fuel at least
    that length gives the same result (each step removes at least one
    byte).  [processActions]
    takes fuel for the mutual recursion between the dispatch and the
    Farcaster handler; [farcaster_fuel] shows that fuel 1 is enough: the
    memory the handler writes names ZAPPER_PORTFOLIO, whose handler
    dispatches nothing.  Integers ([Z], [Q]) are unbounded: JSON numbers
    are the decimal values the engine prints, and the base64 arithmetic
    stays below 2^24, so no width is exceeded.

    ** What is not modelled

    What the logger prints (its format, its transport) is the host's: the
    model records each call's level and arguments.  The handlers' events
    name requests by their variables; the
    bytes sent are [Request.fetch_request] of them.  The [JSON.parse] of
    the responses is the host's: the fetch oracles return the parsed
    records.  The network, the language model and the memory store are the host's
    oracles.  [toLocaleString] is modelled for finite values and for
    locales with Latin digits, given their data; the report theorems
    ([Portfolio]) are stated for the en-US data, which the specification's
    examples assume, and [Locale] shows what holds in every locale.  The
    CLDR data of a locale and other digit systems are the host's.  The
    in-place mutation of [tokenBalances] by [sort] is not observable after
    formatting and is not modelled.  The callback is an event: the code
    does not await it, and its type ([HandlerCallback]) returns a promise,
    so a failure inside it is a rejection the handler never observes.
    The action and plugin objects are modelled as data; the parts of the
    bundle left out are its imports, comments and [export] lines. *)

From Stdlib Require Import String Ascii List ZArith Lia Bool.
Import ListNotations.

(** ** Notations *)

Declare Scope zap_scope.
Delimit Scope zap_scope with zap.

(** String concatenation, as JavaScript's [+] and template literals. *)
Notation "a <+> b" := (String.append a b)
  (at level 60, right associativity) : zap_scope.

Local Open Scope zap_scope.
Local Open Scope string_scope.

(** ** String literals

    A JavaScript string is modelled by the UTF-8 encoding of its text, a
    Stdlib [string] of bytes.  Characters outside ASCII (the emoji of the
    templates) are written as their UTF-8 byte sequence. *)

Fixpoint utf8 (l : list nat) : string :=
  match l with
  | [] => EmptyString
  | n :: r => String (ascii_of_nat n) (utf8 r)
  end.

(** ["\n"] *)
Definition nl : string := utf8 [10].

(** ** JavaScript exceptions

    The code reports every failure by throwing; the model returns the
    thrown value.  [Error msg] is [new Error(msg)]; [TypeError prop] is
    the engine's error for reading property [prop] of [null] or
    [undefined]; [InvalidCharacterError] is the [DOMException] thrown by
    [btoa]; [NetworkError] is a rejected [fetch] or [response.json()]. *)

Inductive exn : Type :=
  | Error (msg : string)
  | TypeError (prop : string)
  | InvalidCharacterError
  | NetworkError.

Definition exn_eq_dec (e1 e2 : exn) : {e1 = e2} + {e1 <> e2}.
Proof. decide equality; apply string_dec. Defined.

(** A computation that returns or throws. *)
Definition result (A : Type) : Type := (exn + A)%type.

Definition throw {A} (e : exn) : result A := inl e.
Definition ok {A} (a : A) : result A := inr a.

Notation "'let?' x ':=' c 'in' k" :=
  (match c with inl e => inl e | inr x => k end)
  (at level 10, x name, c at level 100, k at level 200) : zap_scope.

(** ** GraphQL responses

    [response.json()] of the Zapper endpoint: [data] (absent or [null] is
    [None]) and [errors] (absent or [null] is [None]; any array, even an
    empty one, is truthy for [if (data.errors)]). *)

Record gql_response (D : Type) : Type := mk_gql_response {
  gql_data : option D;
  gql_errors : option (list string)
}.
Arguments mk_gql_response {D} _ _.
Arguments gql_data {D} _.
Arguments gql_errors {D} _.

(** ** Shared lemmas on strings *)

Lemma append_assoc_str (a b c : string) : (a <+> b) <+> c = a <+> (b <+> c).
Proof. induction a as [|x a IH]; simpl; [reflexivity | now rewrite IH]. Qed.

Lemma append_empty_r (a : string) : a <+> EmptyString = a.
Proof. induction a as [|x a IH]; simpl; [reflexivity | now rewrite IH]. Qed.

Lemma length_append_str (a b : string) :
  String.length (a <+> b) = String.length a + String.length b.
Proof. induction a as [|x a IH]; simpl; [reflexivity | now rewrite IH]. Qed.

Lemma append_cancel_l (a b c : string) : a <+> b = a <+> c -> b = c.
Proof. induction a as [|x a IH]; simpl; [auto | intros H; inversion H; auto]. Qed.

Lemma list_ascii_append (a b : string) :
  list_ascii_of_string (a <+> b) = (list_ascii_of_string a ++ list_ascii_of_string b)%list.
Proof. induction a as [|x a IH]; simpl; [reflexivity | now rewrite IH]. Qed.

Lemma string_of_list_app (a b : list ascii) :
  string_of_list_ascii (a ++ b)%list = string_of_list_ascii a <+> string_of_list_ascii b.
Proof. induction a as [|x a IH]; simpl; [reflexivity | now rewrite IH]. Qed.

Lemma length_string_of_list (l : list ascii) :
  String.length (string_of_list_ascii l) = length l.
Proof. induction l as [|x l IH]; simpl; [reflexivity | now rewrite IH]. Qed.

(** ** Lists *)

Lemma filter_all {A : Type} (f : A -> bool) (l : list A) :
  (forall x, In x l -> f x = true) -> filter f l = l.
Proof.
  induction l as [|x l IH]; intros H; simpl; [reflexivity|].
  rewrite H by (now left). f_equal. apply IH. intros y Hy. apply H. now right.
Qed.

(** ** Lists taken three at a time *)

Lemma list_ind3 {A : Type} (P : list A -> Prop) :
  P [] -> (forall a, P [a]) -> (forall a b, P [a; b]) ->
  (forall a b c r, P r -> P (a :: b :: c :: r)) -> forall l, P l.
Proof.
  intros H0 H1 H2 H3 l. remember (length l) as n eqn:E.
  revert l E. induction n as [n IH] using (well_founded_induction lt_wf).
  intros [|a [|b [|c r]]] E; auto. apply H3. eapply IH; [|reflexivity]. simpl in E. lia.
Qed.

(** ** Hint database and tactics *)

Create HintDb zap discriminated.
Create Rewrite HintDb zap.
#[export] Hint Rewrite append_assoc_str append_empty_r length_append_str
  list_ascii_append string_of_list_app length_string_of_list
  string_of_list_ascii_of_string list_ascii_of_string_of_list_ascii : zap.

(** Invert a hypothesis and clean up. *)
Ltac inv H := inversion H; subst; clear H.

(** Normalise strings and lists with the [zap] rewrite base. *)
Ltac zsimpl := repeat (autorewrite with zap in *; simpl in *).

(** [lia] after turning [Z.div] and [Z.modulo] into equations (this
    image's [lia] does not reason about them by itself). *)
Ltac dlia := Z.div_mod_to_equations; lia.

(** Case on the scrutinee of the first [if] or [match] in the goal. *)
Ltac case_goal :=
  match goal with
  | |- context [if ?b then _ else _] => destruct b eqn:?
  | |- context [match ?x with _ => _ end] => destruct x eqn:?
  end.
