(* ===== verification/JsString.v ===== *)
(** * JavaScript string built-ins called by the code

    [String.prototype.split] with a one-character separator (line 205),
    [Array.prototype.join] (lines 58, 66, 81, 343) and
    [String.prototype.trim] (line 205), on the UTF-8 model of strings of
    [Prelude].  [trim] removes the UTF-8 encodings of every ECMAScript
    WhiteSpace and LineTerminator code point at both ends; UTF-8 is
    self-synchronising, so matching an encoding at the start (or, on the
    reversed bytes, at the end) of a well-formed string is matching that
    code point. *)

From Stdlib Require Import String Ascii List Lia Bool.
From S2P Require Import Prelude.
Import ListNotations.
Local Open Scope zap_scope.

Module JsString.

(** ** split and join *)

(** [s.split(c)] for a separator of one character: the empty string splits into
    a list of one empty part, and every separator closes a part, empty or not. *)
Fixpoint split (c : ascii) (s : string) : list string :=
  match s with
  | EmptyString => [EmptyString]
  | String a r =>
      let parts := split c r in
      if Ascii.eqb a c then EmptyString :: parts
      else match parts with
           | p :: ps => String a p :: ps
           | [] => [String a EmptyString]
           end
  end.

(** [xs.join(sep)]. *)
Fixpoint join (sep : string) (xs : list string) : string :=
  match xs with
  | [] => EmptyString
  | [x] => x
  | x :: r => x <+> sep <+> join sep r
  end.

(** Whether [c] occurs in [s]. *)
Definition has_char (c : ascii) (s : string) : bool :=
  existsb (Ascii.eqb c) (list_ascii_of_string s).

(** ** trim *)

(** Code points of ECMAScript WhiteSpace (TAB, VT, FF, SP, NBSP, ZWNBSP
    and the Zs category) and LineTerminator (LF, CR, LS, PS), as UTF-8. *)
Definition ws_codes : list (list nat) :=
  [[9]; [11]; [12]; [32]; [194; 160]; [239; 187; 191];
   [225; 154; 128];
   [226; 128; 128]; [226; 128; 129]; [226; 128; 130]; [226; 128; 131];
   [226; 128; 132]; [226; 128; 133]; [226; 128; 134]; [226; 128; 135];
   [226; 128; 136]; [226; 128; 137]; [226; 128; 138];
   [226; 128; 175]; [226; 129; 159]; [227; 128; 128];
   [10]; [13]; [226; 128; 168]; [226; 128; 169]].

Definition ws_seqs : list (list ascii) := map (map ascii_of_nat) ws_codes.

(** [strip_prefix p l] is [Some r] when [l = p ++ r]. *)
Fixpoint strip_prefix (p l : list ascii) : option (list ascii) :=
  match p, l with
  | [], _ => Some l
  | a :: p', b :: l' => if Ascii.eqb a b then strip_prefix p' l' else None
  | _ :: _, [] => None
  end.

(** Remove one leading sequence of [ws], the first that matches. *)
Fixpoint strip_one (ws : list (list ascii)) (l : list ascii) : option (list ascii) :=
  match ws with
  | [] => None
  | w :: ws' =>
      match strip_prefix w l with
      | Some r => Some r
      | None => strip_one ws' l
      end
  end.

(** Remove leading sequences of [ws] while one matches; every removal
    shortens the list, so [length l] steps are enough (see
    [strip_all_enough]). *)
Fixpoint strip_all (ws : list (list ascii)) (fuel : nat) (l : list ascii) : list ascii :=
  match fuel with
  | O => l
  | S f =>
      match strip_one ws l with
      | Some r => strip_all ws f r
      | None => l
      end
  end.

Definition trim_start (l : list ascii) : list ascii :=
  strip_all ws_seqs (length l) l.

Definition trim_end (l : list ascii) : list ascii :=
  rev (strip_all (map (@rev ascii) ws_seqs) (length l) (rev l)).

(** [s.trim()]. *)
Definition trim (s : string) : string :=
  string_of_list_ascii (trim_end (trim_start (list_ascii_of_string s))).

Example trim_ex : trim (utf8 [32; 9; 97; 32; 98; 194; 160; 10]) = utf8 [97; 32; 98].
Proof. reflexivity. Qed.

Example split_ex : split "," "0x1, 0x2 ," = ["0x1"; " 0x2 "; EmptyString]%string.
Proof. reflexivity. Qed.


(** ** Lemmas on split and join *)

Lemma join_cons_string (sep : string) (a : ascii) (p : string) (ps : list string) :
  join sep (String a p :: ps) = String a (join sep (p :: ps)).
Proof. destruct ps; reflexivity. Qed.

Lemma split_not_nil (c : ascii) (s : string) : split c s <> [].
Proof.
  induction s as [|a r IH]; simpl; [discriminate|].
  destruct (Ascii.eqb a c); [discriminate|].
  destruct (split c r); discriminate.
Qed.

(** Joining the parts with the separator gives the string back. *)
Lemma join_split (c : ascii) (s : string) :
  join (String c EmptyString) (split c s) = s.
Proof.
  induction s as [|a r IH]; [reflexivity|]. simpl.
  destruct (Ascii.eqb a c) eqn:E.
  - apply Ascii.eqb_eq in E; subst.
    pose proof (split_not_nil c r) as Hn.
    destruct (split c r) as [|p ps] eqn:Hs; [congruence|].
    simpl. now rewrite <- IH.
  - pose proof (split_not_nil c r) as Hn.
    destruct (split c r) as [|p ps]; [congruence|].
    rewrite join_cons_string. now rewrite IH.
Qed.

Lemma has_char_cons (c a : ascii) (r : string) :
  has_char c (String a r) = Ascii.eqb c a || has_char c r.
Proof. reflexivity. Qed.

(** A separator-free prefix is one part. *)
Lemma split_app_sep (c : ascii) (x r : string) :
  has_char c x = false -> split c (x <+> String c r) = x :: split c r.
Proof.
  induction x as [|a x IH]; intros H; simpl.
  - now rewrite Ascii.eqb_refl.
  - rewrite has_char_cons, orb_false_iff in H. destruct H as [Ha Hx].
    rewrite Ascii.eqb_sym, Ha. now rewrite IH.
Qed.

Lemma split_no_sep (c : ascii) (x : string) :
  has_char c x = false -> split c x = [x].
Proof.
  induction x as [|a x IH]; intros H; simpl; [reflexivity|].
  rewrite has_char_cons, orb_false_iff in H. destruct H as [Ha Hx].
  rewrite Ascii.eqb_sym, Ha. now rewrite IH.
Qed.

(** Splitting a join of separator-free parts gives the parts back. *)
Lemma split_join (c : ascii) (xs : list string) :
  xs <> [] -> Forall (fun x => has_char c x = false) xs ->
  split c (join (String c EmptyString) xs) = xs.
Proof.
  induction xs as [|x xs IH]; intros Hne Hf; [congruence|].
  inv Hf. destruct xs as [|y ys].
  - now apply split_no_sep.
  - simpl join. rewrite (split_app_sep c x _ H1). f_equal.
    apply IH; [discriminate | assumption].
Qed.

(** No part contains the separator. *)
Lemma split_parts_no_sep (c : ascii) (s : string) :
  Forall (fun p => has_char c p = false) (split c s).
Proof.
  induction s as [|a r IH]; simpl; [repeat constructor|].
  destruct (Ascii.eqb a c) eqn:E; [constructor; [reflexivity | exact IH]|].
  pose proof (split_not_nil c r) as Hn.
  destruct (split c r) as [|p ps]; [congruence|].
  inv IH. constructor; [|assumption].
  rewrite has_char_cons, Ascii.eqb_sym, E. assumption.
Qed.


Lemma has_char_false_iff (c : ascii) (s : string) :
  has_char c s = false <-> ~ In c (list_ascii_of_string s).
Proof.
  unfold has_char. rewrite <- not_true_iff_false, existsb_exists.
  split; intros H; [intros Hin; apply H; exists c; now rewrite Ascii.eqb_refl|].
  intros (x & Hx & E). apply Ascii.eqb_eq in E. subst. contradiction.
Qed.


(** Splitting at a separator in the middle splits each side. *)
Lemma split_app_char (c : ascii) (a b : string) :
  split c (a <+> String c b) = split c a ++ split c b.
Proof.
  induction a as [|x a IH]; simpl; [now rewrite Ascii.eqb_refl|].
  rewrite IH. destruct (Ascii.eqb x c); [reflexivity|].
  pose proof (split_not_nil c a) as Hn.
  destruct (split c a) as [|p ps]; [congruence | reflexivity].
Qed.

(** The parts of a join are the parts of its pieces. *)
Lemma split_join_concat (c : ascii) (xs : list string) :
  split c (join (String c EmptyString) xs)
  = match xs with [] => [EmptyString] | _ => concat (map (split c) xs) end.
Proof.
  induction xs as [|x xs IH]; [reflexivity|].
  destruct xs as [|y ys]; simpl; [now rewrite app_nil_r|].
  change (split c (x <+> String c (join (String c EmptyString) (y :: ys)))
          = split c x ++ concat (map (split c) (y :: ys))).
  now rewrite split_app_char, IH.
Qed.

Lemma has_char_app (c : ascii) (a b : string) :
  has_char c (a <+> b) = has_char c a || has_char c b.
Proof. unfold has_char. now rewrite list_ascii_append, existsb_app. Qed.

#[export] Hint Rewrite has_char_app : zap.

(** ** Lemmas on trim *)

Lemma strip_prefix_app (w l r : list ascii) :
  strip_prefix w l = Some r <-> l = w ++ r.
Proof.
  revert l. induction w as [|a w IH]; intros l; simpl; [split; congruence|].
  destruct l as [|b l]; [split; discriminate|].
  destruct (Ascii.eqb a b) eqn:E.
  - apply Ascii.eqb_eq in E; subst. rewrite IH. split; [intros ->|intros H; inv H]; reflexivity.
  - split; [discriminate|]. intros H; inv H. now rewrite Ascii.eqb_refl in E.
Qed.

Lemma strip_one_app (ws : list (list ascii)) (l r : list ascii) :
  strip_one ws l = Some r -> exists w, In w ws /\ l = w ++ r.
Proof.
  induction ws as [|w ws IH]; simpl; [discriminate|].
  destruct (strip_prefix w l) eqn:E.
  - intros H; inv H. apply strip_prefix_app in E. eauto.
  - intros H. destruct (IH H) as (w' & Hin & ->). eauto.
Qed.

(** Matching a longer string still matches. *)
Lemma strip_one_extend (ws : list (list ascii)) (q m : list ascii) :
  strip_one ws q <> None -> strip_one ws (q ++ m) <> None.
Proof.
  induction ws as [|w ws IH]; simpl; [congruence|].
  destruct (strip_prefix w q) as [r|] eqn:E.
  - apply strip_prefix_app in E; subst q.
    assert (Hm : strip_prefix w ((w ++ r) ++ m) = Some (r ++ m))
      by (apply strip_prefix_app; rewrite <- app_assoc; reflexivity).
    now rewrite Hm.
  - intros H. destruct (strip_prefix w (q ++ m)); [discriminate | auto].
Qed.

Section StripAll.
Variable ws : list (list ascii).
Hypothesis ws_nonempty : Forall (fun w => w <> []) ws.

Lemma strip_one_shorter (l r : list ascii) :
  strip_one ws l = Some r -> length r < length l.
Proof.
  intros H. destruct (strip_one_app _ _ _ H) as (w & Hin & ->).
  rewrite Forall_forall in ws_nonempty. specialize (ws_nonempty _ Hin).
  rewrite length_app. destruct w; [congruence | simpl; lia].
Qed.

Lemma strip_one_nil : strip_one ws [] = None.
Proof.
  destruct (strip_one ws []) as [r|] eqn:E; [|reflexivity].
  apply strip_one_shorter in E. simpl in E. lia.
Qed.

(** Any fuel beyond the length gives the same result. *)
Lemma strip_all_enough (f1 f2 : nat) (l : list ascii) :
  length l <= f1 -> length l <= f2 -> strip_all ws f1 l = strip_all ws f2 l.
Proof.
  revert f2 l. induction f1 as [|f1 IH]; intros f2 l H1 H2.
  - destruct l; [|simpl in H1; lia].
    destruct f2; simpl; [reflexivity|]. now rewrite strip_one_nil.
  - destruct f2 as [|f2].
    + destruct l; [|simpl in H2; lia]. simpl. now rewrite strip_one_nil.
    + simpl. destruct (strip_one ws l) as [r|] eqn:E; [|reflexivity].
      apply strip_one_shorter in E. apply IH; lia.
Qed.

Lemma strip_all_none (f : nat) (l : list ascii) :
  strip_one ws l = None -> strip_all ws f l = l.
Proof. intros H. destruct f; simpl; [|rewrite H]; reflexivity. Qed.

Lemma strip_all_suffix (f : nat) (l : list ascii) :
  exists p, l = p ++ strip_all ws f l.
Proof.
  revert l. induction f as [|f IH]; intros l; simpl; [now exists []|].
  destruct (strip_one ws l) as [r|] eqn:E; [|now exists []].
  destruct (strip_one_app _ _ _ E) as (w & _ & ->).
  destruct (IH r) as [p Hp]. exists (w ++ p). rewrite <- app_assoc, <- Hp. reflexivity.
Qed.

(** With enough fuel nothing strippable is left. *)
Lemma strip_all_done (f : nat) (l : list ascii) :
  length l <= f -> strip_one ws (strip_all ws f l) = None.
Proof.
  revert l. induction f as [|f IH]; intros l H.
  - destruct l; [apply strip_one_nil | simpl in H; lia].
  - simpl. destruct (strip_one ws l) as [r|] eqn:E; [|exact E].
    apply IH. apply strip_one_shorter in E. lia.
Qed.
End StripAll.

Lemma ws_seqs_nonempty : Forall (fun w => w <> []) ws_seqs.
Proof. unfold ws_seqs; simpl; repeat constructor; discriminate. Qed.

Lemma rev_ws_seqs_nonempty : Forall (fun w => w <> []) (map (@rev ascii) ws_seqs).
Proof. unfold ws_seqs; simpl; repeat constructor; discriminate. Qed.

#[export] Hint Resolve ws_seqs_nonempty rev_ws_seqs_nonempty : zap.

Lemma trim_start_done (l : list ascii) : strip_one ws_seqs (trim_start l) = None.
Proof. apply strip_all_done; auto with zap. Qed.

Lemma trim_end_prefix (l : list ascii) : exists m, l = trim_end l ++ m.
Proof.
  unfold trim_end. destruct (strip_all_suffix (map (@rev ascii) ws_seqs) (length l) (rev l)) as [p Hp].
  exists (rev p). rewrite <- rev_app_distr, <- Hp, rev_involutive. reflexivity.
Qed.

Lemma trim_end_done (l : list ascii) :
  strip_one (map (@rev ascii) ws_seqs) (rev (trim_end l)) = None.
Proof.
  unfold trim_end. rewrite rev_involutive. apply strip_all_done; [auto with zap|].
  now rewrite length_rev.
Qed.

(** A prefix of a string with no leading white space has none either. *)
Lemma trim_start_prefix (q m : list ascii) :
  strip_one ws_seqs (q ++ m) = None -> trim_start q = q.
Proof.
  intros H. apply strip_all_none.
  destruct (strip_one ws_seqs q) eqn:E; [|reflexivity].
  exfalso. apply (strip_one_extend ws_seqs q m); [congruence | exact H].
Qed.

Lemma trim_end_idem (l : list ascii) : trim_end (trim_end l) = trim_end l.
Proof.
  unfold trim_end at 1. rewrite strip_all_none by apply trim_end_done.
  apply rev_involutive.
Qed.

(** [trim] is idempotent. *)
Lemma trim_idem (s : string) : trim (trim s) = trim s.
Proof.
  unfold trim. rewrite list_ascii_of_string_of_list_ascii. f_equal.
  set (t := trim_start (list_ascii_of_string s)).
  destruct (trim_end_prefix t) as [m Hm].
  rewrite (trim_start_prefix (trim_end t) m); [apply trim_end_idem|].
  rewrite <- Hm. apply trim_start_done.
Qed.

(** A leading space does not survive [trim]. *)
Lemma trim_space (x : string) : trim (String " " x) = trim x.
Proof. reflexivity. Qed.

(** [trim] keeps a middle part of the string. *)
Lemma trim_sub (s : string) :
  exists p q, list_ascii_of_string s = p ++ list_ascii_of_string (trim s) ++ q.
Proof.
  unfold trim. rewrite list_ascii_of_string_of_list_ascii.
  destruct (strip_all_suffix ws_seqs (length (list_ascii_of_string s)) (list_ascii_of_string s))
    as [p Hp].
  destruct (trim_end_prefix (trim_start (list_ascii_of_string s))) as [q Hq].
  exists p, q. rewrite Hp at 1. f_equal. exact Hq.
Qed.

Lemma has_char_trim (c : ascii) (s : string) :
  has_char c s = false -> has_char c (trim s) = false.
Proof.
  rewrite !has_char_false_iff. intros H Hin. apply H.
  destruct (trim_sub s) as (p & q & ->). apply in_or_app. right. apply in_or_app. now left.
Qed.

Lemma join_app_head (sep a y : string) (r : list string) :
  join sep ((a <+> y) :: r) = a <+> join sep (y :: r).
Proof. destruct r; simpl; [reflexivity | now rewrite append_assoc_str]. Qed.

(** Joining with [sep'] after a separator character is joining with the
    character after prefixing [sep'] to every later part. *)
Lemma join_sep_cons (c : ascii) (sep' x : string) (xs : list string) :
  join (String c sep') (x :: xs) = join (String c EmptyString) (x :: map (String.append sep') xs).
Proof.
  revert x. induction xs as [|y ys IH]; intros x; [reflexivity|].
  change (x <+> String c sep' <+> join (String c sep') (y :: ys)
          = x <+> String c EmptyString <+> join (String c EmptyString) ((sep' <+> y) :: map (String.append sep') ys)).
  rewrite IH, join_app_head. reflexivity.
Qed.

Lemma split_join_witness :
  (split "," (join "," ["0xabc"; "0xdef"]) = ["0xabc"; "0xdef"])%string.
Proof. apply split_join; [discriminate | repeat constructor]. Defined.

End JsString.
