(* ===== verification/Json.v ===== *)
(** * JSON.stringify for the request bodies (src/dist/index.js, lines 176-181, 303-308)

    Both handlers send [JSON.stringify({query, variables: {...}})] as the
    body of their request.  The values are strings, arrays of strings and
    objects, so [json] has these three shapes, and [stringify] is
    ECMAScript's SerializeJSONProperty on them: objects and arrays without
    white space, keys in insertion order, and strings quoted by
    QuoteJSONString ([quote_chars]): the quote, the backslash and the
    control characters are escaped, everything else (the bytes of the
    UTF-8 text above U+001F) is copied.

    [parse_value] is a reader of JSON text written for the theorems, with
    fuel.  [parse_stringify] shows that reading the text back gives the
    value and leaves what follows untouched: whatever the strings hold
    (quotes, backslashes, newlines), the text is one well-delimited JSON
    value.  [stringify_no_control] shows the text holds no raw control
    character, as the JSON grammar requires. *)

From Stdlib Require Import String Ascii List Arith Lia Bool.
From S2P Require Import Prelude.
Import ListNotations.
Local Open Scope zap_scope.

Module Json.

(** The quote and the backslash, by their codes. *)
Definition dq : ascii := ascii_of_nat 34.
Definition bslash : ascii := ascii_of_nat 92.

(** ** Values *)

Inductive json : Type :=
  | JStr (s : string)
  | JArr (l : list json)
  | JObj (kvs : list (string * json)).

(** Induction with the hypotheses on the elements, as the nested lists
    need. *)
Definition json_ind' (P : json -> Prop)
    (fstr : forall s, P (JStr s))
    (farr : forall l, Forall P l -> P (JArr l))
    (fobj : forall kvs, Forall (fun kv => P (snd kv)) kvs -> P (JObj kvs)) : forall j, P j :=
  fix F (j : json) : P j :=
    match j with
    | JStr s => fstr s
    | JArr l => farr l ((fix G (l : list json) : Forall P l :=
                          match l with
                          | [] => Forall_nil _
                          | v :: r => Forall_cons _ (F v) (G r)
                          end) l)
    | JObj kvs => fobj kvs ((fix G (l : list (string * json)) : Forall (fun kv => P (snd kv)) l :=
                              match l with
                              | [] => Forall_nil _
                              | kv :: r => Forall_cons _ (F (snd kv)) (G r)
                              end) kvs)
    end.

(** ** Serialisation *)

Definition hex_digit (d : nat) : ascii :=
  match String.get d "0123456789abcdef" with Some c => c | None => "0"%char end.

(** QuoteJSONString on one UTF-8 byte: the short escapes of its table,
    [\u00xx] (lowercase hex) for the other code units below 0x20, and the
    character itself otherwise. *)
Definition escape_char (c : ascii) : list ascii :=
  let n := nat_of_ascii c in
  if Ascii.eqb c dq then [bslash; dq]
  else if Ascii.eqb c bslash then [bslash; bslash]
  else if n =? 8 then [bslash; "b"%char]
  else if n =? 9 then [bslash; "t"%char]
  else if n =? 10 then [bslash; "n"%char]
  else if n =? 12 then [bslash; "f"%char]
  else if n =? 13 then [bslash; "r"%char]
  else if n <? 32 then [bslash; "u"%char; "0"%char; "0"%char; hex_digit (n / 16); hex_digit (n mod 16)]
  else [c].

Fixpoint quote_chars (l : list ascii) : list ascii :=
  match l with
  | [] => []
  | c :: r => escape_char c ++ quote_chars r
  end.

(** A quoted string: the quotes around the escaped characters. *)
Definition quote (s : string) : list ascii := dq :: quote_chars (list_ascii_of_string s) ++ [dq].

(** The elements of an array or members of an object, separated by
    commas. *)
Fixpoint join_commas (ls : list (list ascii)) : list ascii :=
  match ls with
  | [] => []
  | [x] => x
  | x :: r => x ++ ","%char :: join_commas r
  end.

Fixpoint stringify (j : json) : list ascii :=
  match j with
  | JStr s => quote s
  | JArr l => "["%char :: join_commas (map stringify l) ++ ["]"%char]
  | JObj kvs =>
      "{"%char :: join_commas (map (fun kv => quote (fst kv) ++ ":"%char :: stringify (snd kv)) kvs)
      ++ ["}"%char]
  end.

(** [JSON.stringify(value)] *)
Definition json_stringify (j : json) : string := string_of_list_ascii (stringify j).

(** ** Reading JSON text back *)

Definition hex_val (c : ascii) : option nat :=
  let n := nat_of_ascii c in
  if (48 <=? n) && (n <=? 57) then Some (n - 48)
  else if (97 <=? n) && (n <=? 102) then Some (n - 87)
  else if (65 <=? n) && (n <=? 70) then Some (n - 55)
  else None.

Definition prepend {A} (c : ascii) (o : option (list ascii * A)) : option (list ascii * A) :=
  match o with Some (s, rest) => Some (c :: s, rest) | None => None end.

(** The characters of a string literal after its opening quote, up to
    the closing quote, and the rest of the text.  A [\u] escape is read
    for the ASCII range, which is all [quote_chars] writes. *)
Fixpoint read_str (n : nat) (l : list ascii) : option (list ascii * list ascii) :=
  match n with
  | O => None
  | S n' =>
      match l with
      | [] => None
      | c :: r =>
          if Ascii.eqb c dq then Some ([], r)
          else if Ascii.eqb c bslash then
            match r with
            | [] => None
            | e :: r' =>
                if Ascii.eqb e dq then prepend dq (read_str n' r')
                else if Ascii.eqb e bslash then prepend bslash (read_str n' r')
                else if Ascii.eqb e "/" then prepend "/" (read_str n' r')
                else if Ascii.eqb e "b" then prepend (ascii_of_nat 8) (read_str n' r')
                else if Ascii.eqb e "t" then prepend (ascii_of_nat 9) (read_str n' r')
                else if Ascii.eqb e "n" then prepend (ascii_of_nat 10) (read_str n' r')
                else if Ascii.eqb e "f" then prepend (ascii_of_nat 12) (read_str n' r')
                else if Ascii.eqb e "r" then prepend (ascii_of_nat 13) (read_str n' r')
                else if Ascii.eqb e "u" then
                  match r' with
                  | h1 :: h2 :: h3 :: h4 :: r'' =>
                      match hex_val h1, hex_val h2, hex_val h3, hex_val h4 with
                      | Some a, Some b, Some c', Some d =>
                          let v := ((a * 16 + b) * 16 + c') * 16 + d in
                          if v <? 128 then prepend (ascii_of_nat v) (read_str n' r'') else None
                      | _, _, _, _ => None
                      end
                  | _ => None
                  end
                else None
            end
          else if nat_of_ascii c <? 32 then None
          else prepend c (read_str n' r)
      end
  end.

(** A quoted string at the head of the text. *)
Definition read_quoted (l : list ascii) : option (string * list ascii) :=
  match l with
  | c :: r =>
      if Ascii.eqb c dq then
        match read_str (length r) r with
        | Some (s, rest) => Some (string_of_list_ascii s, rest)
        | None => None
        end
      else None
  | [] => None
  end.

Fixpoint parse_value (n : nat) (l : list ascii) : option (json * list ascii) :=
  match n with
  | O => None
  | S n' =>
      match l with
      | c :: r =>
          if Ascii.eqb c dq then
            match read_quoted l with Some (s, rest) => Some (JStr s, rest) | None => None end
          else if Ascii.eqb c "[" then
            match r with
            | c' :: r' =>
                if Ascii.eqb c' "]" then Some (JArr [], r')
                else match parse_elems n' r with
                     | Some (vs, rest) => Some (JArr vs, rest)
                     | None => None
                     end
            | [] => None
            end
          else if Ascii.eqb c "{" then
            match r with
            | c' :: r' =>
                if Ascii.eqb c' "}" then Some (JObj [], r')
                else match parse_members n' r with
                     | Some (kvs, rest) => Some (JObj kvs, rest)
                     | None => None
                     end
            | [] => None
            end
          else None
      | [] => None
      end
  end
with parse_elems (n : nat) (l : list ascii) : option (list json * list ascii) :=
  match n with
  | O => None
  | S n' =>
      match parse_value n' l with
      | Some (v, c :: r) =>
          if Ascii.eqb c "," then
            match parse_elems n' r with Some (vs, rest) => Some (v :: vs, rest) | None => None end
          else if Ascii.eqb c "]" then Some ([v], r)
          else None
      | _ => None
      end
  end
with parse_members (n : nat) (l : list ascii) : option (list (string * json) * list ascii) :=
  match n with
  | O => None
  | S n' =>
      match read_quoted l with
      | Some (k, c0 :: r0) =>
          if Ascii.eqb c0 ":" then
            match parse_value n' r0 with
            | Some (v, c :: r) =>
                if Ascii.eqb c "," then
                  match parse_members n' r with
                  | Some (kvs, rest) => Some ((k, v) :: kvs, rest)
                  | None => None
                  end
                else if Ascii.eqb c "}" then Some ([(k, v)], r)
                else None
            | _ => None
            end
          else None
      | _ => None
      end
  end.

(** Fuel enough to read a value back: one unit per value, per element
    and per member. *)
Fixpoint size (j : json) : nat :=
  match j with
  | JStr _ => 1
  | JArr l => 1 + list_sum (map (fun v => S (size v)) l)
  | JObj kvs => 1 + list_sum (map (fun kv => S (size (snd kv))) kvs)
  end.

(** [JSON.parse(text)]: one value and nothing after it. *)
Definition parse_json (text : string) : option json :=
  let l := list_ascii_of_string text in
  match parse_value (length l) l with
  | Some (j, []) => Some j
  | _ => None
  end.

(** A character the JSON grammar allows in text: not a control
    character. *)
Definition printable (c : ascii) : bool := 32 <=? nat_of_ascii c.

(** ** Reading back what was written *)

(** Every byte's escape is read back as the byte, in one step. *)
Lemma read_escape_char (c : ascii) (n : nat) (r : list ascii) :
  read_str (S n) (escape_char c ++ r) = prepend c (read_str n r).
Proof. destruct c as [[] [] [] [] [] [] [] []]; reflexivity. Qed.

Lemma length_escape_char (c : ascii) : 1 <= length (escape_char c).
Proof. destruct c as [[] [] [] [] [] [] [] []]; apply Nat.leb_le; reflexivity. Qed.

Lemma length_quote_chars (l : list ascii) : length l <= length (quote_chars l).
Proof.
  induction l as [|c l IH]; cbn; [lia|].
  rewrite length_app. pose proof (length_escape_char c). lia.
Qed.

Lemma read_quote_chars (l rest : list ascii) (n : nat) :
  length l < n -> read_str n (quote_chars l ++ dq :: rest) = Some (l, rest).
Proof.
  revert n. induction l as [|c l IH]; intros [|n] Hn; cbn [length] in Hn; try lia.
  - reflexivity.
  - cbn [quote_chars]. rewrite <- app_assoc, read_escape_char, IH by lia. reflexivity.
Qed.

Lemma read_quoted_quote (s : string) (rest : list ascii) :
  read_quoted (quote s ++ rest) = Some (s, rest).
Proof.
  unfold quote, read_quoted. cbn [app]. rewrite Ascii.eqb_refl, <- app_assoc. cbn [app].
  rewrite read_quote_chars.
  - now rewrite string_of_list_ascii_of_string.
  - rewrite length_app. pose proof (length_quote_chars (list_ascii_of_string s)). cbn. lia.
Qed.

(** Reading a value back, for all fuel at least its size. *)
Definition reads_back (j : json) : Prop :=
  forall n rest, size j <= n -> parse_value n (stringify j ++ rest) = Some (j, rest).

Lemma parse_value_quote (n : nat) (s : string) (rest : list ascii) :
  parse_value (S n) (quote s ++ rest) = Some (JStr s, rest).
Proof.
  pose proof (read_quoted_quote s rest) as H.
  unfold quote in H |- *. cbn [app] in H |- *. cbn [parse_value].
  rewrite Ascii.eqb_refl, H. reflexivity.
Qed.

(** A value's text starts with a quote, a bracket or a brace. *)
Lemma stringify_head (j : json) :
  exists c t, stringify j = c :: t /\ Ascii.eqb c "]" = false /\ Ascii.eqb c "}" = false.
Proof. destruct j; (cbn; do 2 eexists; split; [reflexivity | split; reflexivity]). Qed.

Lemma join_commas_head (l : list json) :
  l <> [] -> exists c t, join_commas (map stringify l) = c :: t
                    /\ Ascii.eqb c "]" = false /\ Ascii.eqb c "}" = false.
Proof.
  destruct l as [|v [|w r]]; intros Hne; [congruence| |];
    destruct (stringify_head v) as (c & t & E & H1 & H2); exists c;
    cbn [map join_commas]; rewrite E; [exists t | eexists]; (split; [reflexivity | auto]).
Qed.

Lemma join_commas_head' (kvs : list (string * json)) :
  kvs <> [] -> exists c t,
    join_commas (map (fun kv => quote (fst kv) ++ ":"%char :: stringify (snd kv)) kvs) = c :: t
    /\ Ascii.eqb c "}" = false.
Proof.
  destruct kvs as [|kv [|kv' r]]; intros Hne; [congruence| |]; exists dq;
    cbn [map join_commas]; unfold quote; cbn [app]; eexists; split; reflexivity.
Qed.

Lemma parse_elems_join (l : list json) (n : nat) (rest : list ascii) :
  l <> [] -> Forall reads_back l -> list_sum (map (fun v => S (size v)) l) <= n ->
  parse_elems n (join_commas (map stringify l) ++ "]"%char :: rest) = Some (l, rest).
Proof.
  revert n. induction l as [|v [|w r] IH]; intros n Hne Hf Hn; [congruence| |];
    inversion Hf as [|? ? Hv Hr]; subst; unfold reads_back in Hv; destruct n as [|n]; cbn [map list_sum fold_right] in Hn; try lia.
  - cbn [map join_commas parse_elems]. rewrite Hv by lia. reflexivity.
  - cbn [map join_commas parse_elems]. rewrite <- app_assoc. cbn [app].
    rewrite Hv by lia. cbn - [parse_elems join_commas map].
    rewrite IH; [reflexivity | discriminate | exact Hr | cbn [map list_sum fold_right] in *; lia].
Qed.

Lemma join_map_cons {A : Type} (f : A -> list ascii) (a b : A) (l : list A) :
  join_commas (map f (a :: b :: l)) = f a ++ ","%char :: join_commas (map f (b :: l)).
Proof. reflexivity. Qed.

Lemma parse_members_join (kvs : list (string * json)) (n : nat) (rest : list ascii) :
  kvs <> [] -> Forall (fun kv => reads_back (snd kv)) kvs ->
  list_sum (map (fun kv => S (size (snd kv))) kvs) <= n ->
  parse_members n (join_commas (map (fun kv => quote (fst kv) ++ ":"%char :: stringify (snd kv)) kvs)
                   ++ "}"%char :: rest) = Some (kvs, rest).
Proof.
  revert n. induction kvs as [|[k v] [|w r] IH]; intros n Hne Hf Hn; [congruence| |];
    inversion Hf as [|? ? Hv Hr]; subst; unfold reads_back in Hv; cbn [snd] in Hv;
    destruct n as [|n]; cbn [map list_sum fold_right snd] in Hn; try lia.
  - cbn [map join_commas parse_members fst snd]. rewrite <- app_assoc, read_quoted_quote.
    cbn [app]. cbn - [parse_value]. rewrite Hv by lia. reflexivity.
  - rewrite join_map_cons. cbn [parse_members fst snd].
    rewrite <- !app_assoc, read_quoted_quote. cbn [app].
    cbn - [parse_value parse_members join_commas map quote].
    rewrite Hv by lia.
    cbn - [parse_members join_commas map quote].
    rewrite IH; [reflexivity | discriminate | exact Hr | cbn [map list_sum fold_right snd] in *; lia].
Qed.

Lemma parse_value_open (n : nat) (o cl c : ascii) (t : list ascii) :
  (o = "["%char /\ cl = "]"%char \/ o = "{"%char /\ cl = "}"%char) -> Ascii.eqb c cl = false ->
  parse_value (S n) (o :: c :: t)
  = if Ascii.eqb o "[" then
      match parse_elems n (c :: t) with Some (vs, rest) => Some (JArr vs, rest) | None => None end
    else
      match parse_members n (c :: t) with Some (kvs, rest) => Some (JObj kvs, rest) | None => None end.
Proof. intros [[-> ->]|[-> ->]] H; cbn - [parse_elems parse_members]; rewrite H; reflexivity. Qed.

Lemma stringify_reads_back (j : json) : reads_back j.
Proof.
  induction j as [s|l Hf|kvs Hf] using json_ind'; intros [|n] rest Hn; cbn [size] in Hn; try lia.
  - apply parse_value_quote.
  - destruct l as [|v l]; [reflexivity|].
    destruct (join_commas_head (v :: l) ltac:(discriminate)) as (c & t & E & H1 & _).
    cbn [stringify]. cbn [app]. rewrite <- app_assoc. cbn [app]. rewrite E. cbn [app].
    rewrite (parse_value_open n "[" "]") by (auto || exact H1). cbn - [parse_elems].
    rewrite app_comm_cons, <- E, parse_elems_join; [reflexivity | discriminate | exact Hf | lia].
  - destruct kvs as [|kv kvs]; [reflexivity|].
    assert (Hne : kv :: kvs <> []) by discriminate.
    destruct (join_commas_head' _ Hne) as (c & t & E & H2).
    cbn [stringify]. cbn [app]. rewrite <- app_assoc. cbn [app]. rewrite E. cbn [app].
    rewrite (parse_value_open n "{" "}") by (auto || exact H2). cbn - [parse_members].
    rewrite app_comm_cons, <- E, parse_members_join; [reflexivity | exact Hne | exact Hf | lia].
Qed.

Lemma join_commas_length (ls : list (list ascii)) :
  list_sum (map (@length ascii) ls) + length ls <= length (join_commas ls) + 1.
Proof.
  induction ls as [|x [|y r] IH]; cbn [join_commas map list_sum fold_right length] in *; [lia|lia|].
  rewrite length_app. cbn [length]. lia.
Qed.

(** The fuel [parse_json] gives, the length of the text, is enough. *)
Lemma size_le_length (j : json) : size j <= length (stringify j).
Proof.
  induction j as [s|l Hf|kvs Hf] using json_ind'; cbn [size stringify].
  - unfold quote. cbn [length]. lia.
  - cbn [length]. rewrite length_app. cbn [length].
    pose proof (join_commas_length (map stringify l)) as Hj. rewrite map_map, length_map in Hj.
    enough (list_sum (map (fun v => S (size v)) l)
            <= list_sum (map (fun x => length (stringify x)) l) + length l) by lia.
    clear Hj. induction l as [|v l IH]; [cbn; lia|].
    inversion Hf as [|? ? Hv Hl]; subst. specialize (IH Hl). unfold list_sum in *. cbn [map fold_right length] in *. lia.
  - cbn [length]. rewrite length_app. cbn [length].
    pose proof (join_commas_length (map (fun kv => quote (fst kv) ++ ":"%char :: stringify (snd kv)) kvs)) as Hj.
    rewrite map_map, length_map in Hj.
    enough (list_sum (map (fun kv => S (size (snd kv))) kvs)
            <= list_sum (map (fun kv => length (quote (fst kv) ++ ":"%char :: stringify (snd kv))) kvs)
               + length kvs) by lia.
    clear Hj. induction kvs as [|kv kvs IH]; [cbn; lia|].
    inversion Hf as [|? ? Hv Hl]; subst. specialize (IH Hl). unfold list_sum in *. cbn [map fold_right length] in *.
    rewrite length_app. unfold quote at 1. cbn [length]. lia.
Qed.

Lemma escape_char_printable (c : ascii) : forallb printable (escape_char c) = true.
Proof. destruct c as [[] [] [] [] [] [] [] []]; reflexivity. Qed.

Lemma quote_printable (s : string) : forallb printable (quote s) = true.
Proof.
  unfold quote. cbn [forallb]. rewrite forallb_app. cbn.
  induction (list_ascii_of_string s) as [|c l IH]; [reflexivity|].
  cbn [quote_chars]. rewrite forallb_app, escape_char_printable. exact IH.
Qed.

Lemma join_commas_printable (ls : list (list ascii)) :
  Forall (fun x => forallb printable x = true) ls -> forallb printable (join_commas ls) = true.
Proof.
  induction ls as [|x [|y r] IH]; intros Hf; [reflexivity| inversion Hf; assumption |].
  inversion Hf as [|? ? Hx Hr]; subst. cbn [join_commas].
  rewrite forallb_app, Hx. cbn. exact (IH Hr).
Qed.

Lemma json_roundtrip (j : json) : parse_json (json_stringify j) = Some j.
Proof.
  unfold parse_json, json_stringify. rewrite list_ascii_of_string_of_list_ascii.
  rewrite <- (app_nil_r (stringify j)) at 2.
  rewrite stringify_reads_back; [reflexivity | apply size_le_length].
Qed.

(** C34: [JSON.parse(JSON.stringify(v))] gives [v] back: the text of every
    value, whatever its strings contain, is exactly one JSON value. *)
Theorem parse_json_stringify (j : json) : parse_json (json_stringify j) = Some j.
Proof. exact (json_roundtrip j). Qed.

(** C35: The text holds no raw control character: every string's control
    characters, quotes and backslashes are escaped. *)
Theorem stringify_printable (j : json) : forallb printable (stringify j) = true.
Proof.
  induction j as [s|l Hf|kvs Hf] using json_ind'; cbn [stringify forallb].
  - apply quote_printable.
  - rewrite forallb_app, join_commas_printable; [reflexivity|]. now apply Forall_map.
  - rewrite forallb_app, join_commas_printable; [reflexivity|]. apply Forall_map.
    eapply Forall_impl; [|exact Hf]. intros [k v] Hv. cbn [fst snd] in *.
    rewrite forallb_app, quote_printable. exact Hv.
Qed.

Example stringify_example :
  json_stringify (JObj [("query", JStr "q"); ("variables", JObj [("addresses", JArr [JStr "0xA"])])]%string)
  = string_of_list_ascii (["{"; dq; "q"; "u"; "e"; "r"; "y"; dq; ":"; dq; "q"; dq; ",";
                           dq; "v"; "a"; "r"; "i"; "a"; "b"; "l"; "e"; "s"; dq; ":";
                           "{"; dq; "a"; "d"; "d"; "r"; "e"; "s"; "s"; "e"; "s"; dq; ":";
                           "["; dq; "0"; "x"; "A"; dq; "]"; "}"; "}"]%char).
Proof. reflexivity. Qed.

(** A quote, a backslash and a newline in a string are escaped. *)
Example quote_escapes :
  quote (string_of_list_ascii [dq; bslash; ascii_of_nat 10; ascii_of_nat 1])
  = [dq; bslash; dq; bslash; bslash; bslash; "n"; bslash; "u"; "0"; "0"; "0"; "1"; dq]%char.
Proof. reflexivity. Qed.

End Json.
