(* ===== verification/NumberFormat.v ===== *)
(** * Number.prototype.toLocaleString, as called by formatPortfolioData

    The code formats numbers in two ways (src/dist/index.js):
    - [toLocaleString(void 0, {style: "currency", currency: "USD"})]
      (lines 50-53, 60-63, 67-74, 76-79): [format_currency];
    - [Number(x).toLocaleString(void 0, {maximumFractionDigits: 4})]
      (lines 47-49): [format_decimal].
    Both are modelled here for the en-US locale (the locale argument is
    [undefined], so the host's default applies; [Locale] models the
    formatting for any locale's data and shows this file is its en-US
    instance).  A number is its decimal value as a [Q]: ICU formats the
    shortest round-trip decimal of the double, which for Zapper's JSON is
    the literal itself.  Rounding is ECMA-402's "halfExpand": the nearest
    multiple of 10^-k, away from zero on a tie.  The sign is decided
    before rounding, so a negative amount that rounds to zero prints as
    ["-$0.00"] (and ["-0"]). *)

From Stdlib Require Import String Ascii List ZArith QArith Lia.
From S2P Require Import Prelude JsString.
Import ListNotations.
Local Open Scope zap_scope.

Module NumberFormat.

(** ** Rounding *)

(** |q| rounded to [k] fraction digits, as an integer count of 10^-k:
    floor((2·|num|·10^k + den) / (2·den)). *)
Definition round_abs (k : nat) (q : Q) : Z :=
  (2 * Z.abs (Qnum q) * 10 ^ Z.of_nat k + Zpos (Qden q)) / (2 * Zpos (Qden q)).

Definition is_negative (q : Q) : bool := (Qnum q <? 0)%Z.

(** ** Digits *)

(** Leading zeros of a list of characters removed. *)
Fixpoint drop_zeros (l : list ascii) : list ascii :=
  match l with
  | "0"%char :: r => drop_zeros r
  | _ => l
  end.


Definition digit_char (d : Z) : ascii := ascii_of_nat (48 + Z.to_nat d).

Definition is_digit (c : ascii) : bool :=
  (48 <=? nat_of_ascii c)%nat && (nat_of_ascii c <=? 57)%nat.

Definition digit_val (c : ascii) : Z := (Z.of_nat (nat_of_ascii c) - 48)%Z.

(** The last [w] decimal digits of [m], most significant first. *)
Fixpoint fixed_digits (w : nat) (m : Z) : list ascii :=
  match w with
  | O => []
  | S w' => fixed_digits w' (m / 10) ++ [digit_char (m mod 10)]
  end.

(** Number of digits printed for [n]: enough, as 10^(log2 n + 1) > n. *)
Definition ndigits (n : Z) : nat := S (Z.to_nat (Z.log2 n)).

(** Decimal digits of [n >= 0], without leading zeros. *)
Definition show_Z (n : Z) : string :=
  match drop_zeros (fixed_digits (ndigits n) n) with
  | [] => "0"
  | l => string_of_list_ascii l
  end.

(** Exactly [w] fraction digits of [m]. *)
Definition frac_digits (w : nat) (m : Z) : string :=
  string_of_list_ascii (fixed_digits w m).

(** The value of a non-empty string of decimal digits. *)
Definition read_digits (s : string) : option Z :=
  let l := list_ascii_of_string s in
  match l with
  | [] => None
  | _ => if forallb is_digit l
         then Some (fold_left (fun acc c => acc * 10 + digit_val c)%Z l 0%Z)
         else None
  end.

(** [n] zeros. *)
Fixpoint zeros (n : nat) : string :=
  match n with O => EmptyString | S n => String "0" (zeros n) end.

(** [s] without its trailing zeros. *)
Definition strip_zeros_right (s : string) : string :=
  string_of_list_ascii (rev (drop_zeros (rev (list_ascii_of_string s)))).

(** ** Grouping (en-US: a comma every three integer digits) *)

Fixpoint triples (l : list ascii) : list (list ascii) :=
  match l with
  | a :: b :: c :: r => [a; b; c] :: triples r
  | [] => []
  | _ => [l]
  end.

(** Length of the leading group of [n] digits: 1, 2 or 3. *)
Definition lead_len (n : nat) : nat := (n + 2) mod 3 + 1.

Definition groups (s : string) : list string :=
  let l := list_ascii_of_string s in
  let k := lead_len (length l) in
  map string_of_list_ascii (firstn k l :: triples (skipn k l)).

Definition group3 (s : string) : string := JsString.join "," (groups s).

(** ** The two formats *)

Definition sign_prefix (q : Q) : string :=
  if is_negative q then "-" else EmptyString.

(** [x.toLocaleString(void 0, {style: "currency", currency: "USD"})] *)
Definition format_currency (q : Q) : string :=
  let n := round_abs 2 q in
  sign_prefix q <+> "$" <+> group3 (show_Z (n / 100))
    <+> "." <+> frac_digits 2 (n mod 100).

(** [Number(x).toLocaleString(void 0, {maximumFractionDigits: 4})] *)
Definition format_decimal (q : Q) : string :=
  let n := round_abs 4 q in
  let f := strip_zeros_right (frac_digits 4 (n mod 10000)) in
  sign_prefix q <+> group3 (show_Z (n / 10000))
    <+> match f with EmptyString => EmptyString | _ => "." <+> f end.

(** ** Reading formatted numbers back *)

Definition ungroup (s : string) : string :=
  string_of_list_ascii
    (List.filter (fun c => negb (Ascii.eqb c ",")) (list_ascii_of_string s)).

Definition parse_sign (s : string) : bool * string :=
  match s with
  | String "-"%char r => (true, r)
  | _ => (false, s)
  end.

(** A currency string: sign, count of cents. *)
Definition parse_currency (s : string) : option (bool * Z) :=
  let (neg, r) := parse_sign s in
  match r with
  | String "$"%char body =>
      match JsString.split "." body with
      | [ip; fp] =>
          match read_digits (ungroup ip), read_digits fp with
          | Some a, Some b =>
              if String.length fp =? 2
              then Some (neg, (a * 100 + b)%Z) else None
          | _, _ => None
          end
      | _ => None
      end
  | _ => None
  end.

(** A decimal string: sign, count of 10^-4. *)
Definition parse_decimal (s : string) : option (bool * Z) :=
  let (neg, r) := parse_sign s in
  match JsString.split "." r with
  | [ip] => option_map (fun a => (neg, (a * 10000)%Z)) (read_digits (ungroup ip))
  | [ip; fp] =>
      if (1 <=? String.length fp) && (String.length fp <=? 4) then
        match read_digits (ungroup ip), read_digits (fp <+> zeros (4 - String.length fp)) with
        | Some a, Some b => Some (neg, (a * 10000 + b)%Z)
        | _, _ => None
        end
      else None
  | _ => None
  end.


(** ** Rounding lemmas *)

Lemma pow10_pos (k : nat) : (0 < 10 ^ Z.of_nat k)%Z.
Proof. apply Z.pow_pos_nonneg; lia. Qed.

#[export] Hint Resolve pow10_pos : zap.

(** The remainder form of the rounding. *)
Lemma round_abs_rem (k : nat) (q : Q) :
  let d := Zpos (Qden q) in
  let n := round_abs k q in
  (2 * (n * d - Z.abs (Qnum q) * 10 ^ Z.of_nat k) = d - (2 * Z.abs (Qnum q) * 10 ^ Z.of_nat k + d) mod (2 * d)
   /\ 0 <= (2 * Z.abs (Qnum q) * 10 ^ Z.of_nat k + d) mod (2 * d) < 2 * d)%Z.
Proof.
  intros d n. unfold n, round_abs. fold d.
  assert (Hd : (0 < d)%Z) by (unfold d; lia).
  set (A := (2 * Z.abs (Qnum q) * 10 ^ Z.of_nat k + d)%Z).
  pose proof (Z.div_mod A (2 * d) ltac:(lia)) as Hdm.
  pose proof (Z.mod_pos_bound A (2 * d) ltac:(lia)) as Hb.
  split; [|exact Hb]. unfold A in *. lia.
Qed.

Lemma round_abs_nonneg (k : nat) (q : Q) : (0 <= round_abs k q)%Z.
Proof.
  unfold round_abs. apply Z.div_pos; [|lia].
  pose proof (pow10_pos k). pose proof (Z.abs_nonneg (Qnum q)). nia.
Qed.

#[export] Hint Resolve round_abs_nonneg : zap.


(** ** Digit lemmas *)

Lemma mod_mul_10 (a p : Z) :
  (0 < p)%Z -> (a mod (10 * p) = a mod 10 + 10 * ((a / 10) mod p))%Z.
Proof.
  intros Hp. rewrite (Z.mod_eq a (10 * p)), (Z.mod_eq a 10), (Z.mod_eq (a / 10) p) by lia.
  rewrite <- Z.div_div by lia. ring.
Qed.

Lemma digit_char_ok (d : Z) :
  (0 <= d < 10)%Z -> is_digit (digit_char d) = true /\ digit_val (digit_char d) = d.
Proof.
  intros Hd. unfold is_digit, digit_val, digit_char.
  rewrite nat_ascii_embedding by lia. split; [apply andb_true_iff; split; apply Nat.leb_le|]; lia.
Qed.

Lemma fixed_digits_are_digits (w : nat) (m : Z) :
  Forall (fun c => is_digit c = true) (fixed_digits w m).
Proof.
  revert m. induction w as [|w IH]; intros m; simpl; [constructor|].
  apply Forall_app. split; [apply IH|]. constructor; [|constructor].
  apply digit_char_ok. apply Z.mod_pos_bound. lia.
Qed.

Lemma length_fixed_digits (w : nat) (m : Z) : length (fixed_digits w m) = w.
Proof.
  revert m. induction w as [|w IH]; intros m; simpl; [reflexivity|].
  rewrite length_app, IH. simpl. lia.
Qed.

Definition digits_step (acc : Z) (c : ascii) : Z := (acc * 10 + digit_val c)%Z.

(** Reading [w] digits of [m] after [acc] appends [m mod 10^w] to [acc]. *)
Lemma fold_fixed_digits (w : nat) (m acc : Z) :
  fold_left digits_step (fixed_digits w m) acc
  = (acc * 10 ^ Z.of_nat w + m mod 10 ^ Z.of_nat w)%Z.
Proof.
  revert m acc. induction w as [|w IH]; intros m acc; simpl fixed_digits.
  - simpl. rewrite Z.mod_1_r. ring.
  - rewrite fold_left_app, IH. cbn [fold_left]. unfold digits_step.
    rewrite (proj2 (digit_char_ok _ (Z.mod_pos_bound m 10 ltac:(lia)))).
    rewrite Nat2Z.inj_succ, Z.pow_succ_r by lia.
    rewrite mod_mul_10 by auto with zap. ring.
Qed.

Lemma fold_zeros_prefix (l : list ascii) :
  fold_left digits_step (drop_zeros l) 0%Z = fold_left digits_step l 0%Z.
Proof.
  induction l as [|c l IH]; [reflexivity|].
  destruct c as [[] [] [] [] [] [] [] []]; try reflexivity. simpl. exact IH.
Qed.

Lemma drop_zeros_suffix (l : list ascii) :
  exists k, l = repeat "0"%char k ++ drop_zeros l.
Proof.
  induction l as [|c l IH]; [now exists O|].
  destruct c as [[] [] [] [] [] [] [] []]; try (now exists O).
  destruct IH as [k Hk]. exists (S k). simpl. now rewrite <- Hk.
Qed.

Lemma show_Z_bound (n : Z) : (0 <= n)%Z -> (n < 10 ^ Z.of_nat (ndigits n))%Z.
Proof.
  intros Hn. unfold ndigits. rewrite Nat2Z.inj_succ, Z2Nat.id by apply Z.log2_nonneg.
  destruct (Z.eq_dec n 0) as [->|Hnz]; [reflexivity|].
  destruct (Z.log2_spec n ltac:(lia)) as [_ H].
  eapply Z.lt_le_trans; [exact H|].
  apply Z.pow_le_mono_l. lia.
Qed.

Lemma read_digits_string (l : list ascii) :
  l <> [] -> Forall (fun c => is_digit c = true) l ->
  read_digits (string_of_list_ascii l) = Some (fold_left digits_step l 0%Z).
Proof.
  intros Hne Hd. unfold read_digits. rewrite list_ascii_of_string_of_list_ascii.
  destruct l as [|c l]; [congruence|].
  replace (forallb is_digit (c :: l)) with true; [reflexivity|].
  symmetry. apply forallb_forall. intros x Hx. rewrite Forall_forall in Hd. auto.
Qed.

(** Reading the [w > 0] fraction digits of [m] gives [m mod 10^w]. *)
Lemma read_frac_digits (w : nat) (m : Z) :
  (0 < w)%nat -> read_digits (frac_digits w m) = Some (m mod 10 ^ Z.of_nat w)%Z.
Proof.
  intros Hw. unfold frac_digits. rewrite read_digits_string.
  - now rewrite fold_fixed_digits.
  - intros E. apply (f_equal (@length _)) in E. rewrite length_fixed_digits in E. simpl in E. lia.
  - apply fixed_digits_are_digits.
Qed.

Lemma show_Z_digits (n : Z) :
  list_ascii_of_string (show_Z n) <> [] /\
  Forall (fun c => is_digit c = true) (list_ascii_of_string (show_Z n)).
Proof.
  unfold show_Z. destruct (drop_zeros_suffix (fixed_digits (ndigits n) n)) as [k Hp].
  pose proof (fixed_digits_are_digits (ndigits n) n) as Hd.
  destruct (drop_zeros (fixed_digits (ndigits n) n)) as [|c l] eqn:E.
  - split; [discriminate | repeat constructor].
  - rewrite list_ascii_of_string_of_list_ascii. split; [discriminate|].
    rewrite Hp in Hd. apply Forall_app in Hd. apply Hd.
Qed.

(** Printing then reading a natural number gives it back. *)
Lemma read_show_Z (n : Z) : (0 <= n)%Z -> read_digits (show_Z n) = Some n.
Proof.
  intros Hn. destruct (show_Z_digits n) as [Hne Hd].
  rewrite <- (string_of_list_ascii_of_string (show_Z n)), read_digits_string by assumption.
  f_equal. unfold show_Z in *.
  assert (Hv : fold_left digits_step (drop_zeros (fixed_digits (ndigits n) n)) 0%Z = n).
  { rewrite fold_zeros_prefix, fold_fixed_digits, Z.mod_small; [ring|].
    split; [exact Hn | now apply show_Z_bound]. }
  destruct (drop_zeros (fixed_digits (ndigits n) n)) as [|c l];
    [simpl in *; exact Hv | rewrite list_ascii_of_string_of_list_ascii; exact Hv].
Qed.


(** ** Grouping lemmas *)

Lemma concat_triples (l : list ascii) : concat (triples l) = l.
Proof. induction l using list_ind3; simpl; congruence. Qed.

Lemma triples_length (l : list ascii) :
  (length l mod 3 = 0)%nat -> Forall (fun g => length g = 3%nat) (triples l).
Proof.
  induction l using list_ind3; intros H; cbn [length] in H;
    try (vm_compute in H; discriminate); [constructor|].
  cbn [triples]. constructor; [reflexivity|]. apply IHl.
  replace (S (S (S (length l)))) with (length l + 1 * 3)%nat in H by lia.
  now rewrite Nat.Div0.mod_add in H.
Qed.

Lemma lead_len_spec (n : nat) :
  (1 <= n -> 1 <= lead_len n <= 3 /\ lead_len n <= n /\ (n - lead_len n) mod 3 = 0)%nat.
Proof.
  intros H. unfold lead_len.
  pose proof (Nat.div_mod_eq (n + 2) 3) as Hdm.
  pose proof (Nat.mod_upper_bound (n + 2) 3 ltac:(lia)) as Hr.
  set (r := ((n + 2) mod 3)%nat) in *. set (d := ((n + 2) / 3)%nat) in *.
  assert (Hsub : (n - (r + 1) = (d - 1) * 3)%nat) by lia.
  split; [lia | split; [lia|]]. rewrite Hsub. apply Nat.Div0.mod_mul.
Qed.

Lemma concat_groups (l : list ascii) (k : nat) :
  concat (firstn k l :: triples (skipn k l)) = l.
Proof. simpl. rewrite concat_triples. apply firstn_skipn. Qed.

Lemma ungroup_app (a b : string) : ungroup (a <+> b) = ungroup a <+> ungroup b.
Proof. unfold ungroup. now rewrite list_ascii_append, filter_app, string_of_list_app. Qed.

Lemma ungroup_no_comma (l : list ascii) :
  ~ In ","%char l -> ungroup (string_of_list_ascii l) = string_of_list_ascii l.
Proof.
  unfold ungroup. rewrite list_ascii_of_string_of_list_ascii. intros H. f_equal.
  induction l as [|c l IH]; [reflexivity|]. simpl.
  destruct (Ascii.eqb c ",") eqn:E.
  - apply Ascii.eqb_eq in E. subst. exfalso. apply H. now left.
  - simpl. f_equal. apply IH. intros Hin. apply H. now right.
Qed.

Lemma ungroup_join (xs : list string) :
  ungroup (JsString.join "," xs) = fold_right String.append EmptyString (map ungroup xs).
Proof.
  induction xs as [|x xs IH]; [reflexivity|].
  destruct xs as [|y ys]; [simpl; now rewrite append_empty_r|].
  change (JsString.join "," (x :: y :: ys)) with (x <+> "," <+> JsString.join "," (y :: ys)).
  rewrite !ungroup_app, IH. reflexivity.
Qed.

Lemma fold_append_strings (ls : list (list ascii)) :
  fold_right String.append EmptyString (map string_of_list_ascii ls)
  = string_of_list_ascii (concat ls).
Proof. induction ls as [|l ls IH]; simpl; [reflexivity|]. now rewrite IH, string_of_list_app. Qed.

(** Removing the commas of a grouped comma-free string gives it back. *)
Lemma ungroup_group3 (s : string) :
  ~ In ","%char (list_ascii_of_string s) -> ungroup (group3 s) = s.
Proof.
  intros H. unfold group3, groups. rewrite ungroup_join, map_map.
  set (l := list_ascii_of_string s). set (k := lead_len (length l)).
  rewrite (map_ext_in _ string_of_list_ascii).
  - rewrite fold_append_strings, concat_groups. apply string_of_list_ascii_of_string.
  - intros g Hg. apply ungroup_no_comma. intros Hc. apply H. fold l.
    rewrite <- (concat_groups l k). apply in_concat. eauto.
Qed.

Lemma has_char_ungroup (c : ascii) (t : string) :
  c <> ","%char -> JsString.has_char c (ungroup t) = JsString.has_char c t.
Proof.
  intros Hc. unfold JsString.has_char, ungroup. rewrite list_ascii_of_string_of_list_ascii.
  induction (list_ascii_of_string t) as [|a l IH]; [reflexivity|]. simpl.
  destruct (Ascii.eqb a ",") eqn:E; simpl; rewrite IH; [|reflexivity].
  apply Ascii.eqb_eq in E. subst. destruct (Ascii.eqb c ",") eqn:E'; [|reflexivity].
  apply Ascii.eqb_eq in E'. contradiction.
Qed.

Lemma digits_no_char (c : ascii) (l : list ascii) :
  is_digit c = false -> Forall (fun x => is_digit x = true) l -> ~ In c l.
Proof. intros Hc Hl Hin. rewrite Forall_forall in Hl. specialize (Hl c Hin). congruence. Qed.

(** A grouped number contains no [c] but digits and commas. *)
Lemma group3_show_no_char (c : ascii) (n : Z) :
  is_digit c = false -> c <> ","%char ->
  JsString.has_char c (group3 (show_Z n)) = false.
Proof.
  intros Hd Hc. destruct (show_Z_digits n) as [_ Hl].
  rewrite <- has_char_ungroup, ungroup_group3 by (auto; apply digits_no_char; auto; reflexivity).
  apply JsString.has_char_false_iff. now apply digits_no_char.
Qed.


(** ** Properties of the formats *)

Lemma zeros_repeat (k : nat) : zeros k = string_of_list_ascii (repeat "0"%char k).
Proof. induction k as [|k IH]; simpl; [reflexivity | now rewrite IH]. Qed.

(** A string is its zero-stripped prefix followed by zeros. *)
Lemma strip_zeros_right_spec (s : string) :
  exists k, s = strip_zeros_right s <+> zeros k.
Proof.
  unfold strip_zeros_right. set (l := list_ascii_of_string s).
  destruct (drop_zeros_suffix (rev l)) as [k Hk]. exists k.
  assert (Hl : l = rev (drop_zeros (rev l)) ++ repeat "0"%char k).
  { rewrite <- (rev_involutive l) at 1. rewrite Hk at 1.
    now rewrite rev_app_distr, rev_repeat. }
  rewrite zeros_repeat, <- string_of_list_app, <- Hl. symmetry. apply string_of_list_ascii_of_string.
Qed.

Lemma parse_sign_cons (c : ascii) (s : string) :
  parse_sign (String c s) = if Ascii.eqb c "-" then (true, s) else (false, String c s).
Proof. destruct c as [[] [] [] [] [] [] [] []]; reflexivity. Qed.

(** The sign is read back when the rest does not start with a minus. *)
Lemma parse_sign_prefix (q : Q) (g t : string) :
  g <> EmptyString -> JsString.has_char "-" g = false ->
  parse_sign (sign_prefix q <+> g <+> t) = (is_negative q, g <+> t).
Proof.
  intros Hg Hm. destruct g as [|c g]; [congruence|].
  rewrite JsString.has_char_cons, orb_false_iff in Hm. destruct Hm as [Hc _].
  unfold sign_prefix. destruct (is_negative q); [reflexivity|].
  change (parse_sign (String c (g <+> t)) = (false, String c (g <+> t))).
  rewrite parse_sign_cons, Ascii.eqb_sym, Hc. reflexivity.
Qed.

Lemma show_Z_no_char (c : ascii) (n : Z) :
  is_digit c = false -> ~ In c (list_ascii_of_string (show_Z n)).
Proof. intros Hc. apply digits_no_char; [exact Hc | apply show_Z_digits]. Qed.

Lemma group3_show_nonempty (n : Z) : group3 (show_Z n) <> EmptyString.
Proof.
  intros E. destruct (show_Z_digits n) as [Hne _]. apply Hne.
  rewrite <- (ungroup_group3 (show_Z n)), E by (apply show_Z_no_char; reflexivity).
  reflexivity.
Qed.

Lemma frac_digits_no_char (c : ascii) (w : nat) (m : Z) :
  is_digit c = false -> JsString.has_char c (frac_digits w m) = false.
Proof.
  intros Hc. apply JsString.has_char_false_iff. unfold frac_digits.
  rewrite list_ascii_of_string_of_list_ascii.
  apply digits_no_char; [exact Hc | apply fixed_digits_are_digits].
Qed.

#[export] Hint Resolve group3_show_nonempty show_Z_no_char frac_digits_no_char : zap.

(** The integer part read back. *)
Lemma read_ungroup_show (n : Z) :
  (0 <= n)%Z -> read_digits (ungroup (group3 (show_Z n))) = Some n.
Proof.
  intros Hn. rewrite ungroup_group3 by (apply show_Z_no_char; reflexivity).
  now apply read_show_Z.
Qed.


(** ** Main theorems of the number formats *)

(** C14: ECMA-402's "halfExpand" rounding to [k] fraction digits: [n] is the
    rounded |q| exactly when [n/10^k] is within half a unit of |q|, the
    upper candidate winning a tie. *)
Theorem round_abs_half_expand (k : nat) (q : Q) (n : Z) :
  n = round_abs k q <->
  (- Zpos (Qden q) < 2 * (n * Zpos (Qden q) - Z.abs (Qnum q) * 10 ^ Z.of_nat k)
     <= Zpos (Qden q))%Z.
Proof.
  destruct (round_abs_rem k q) as [Heq Hb]. split.
  - intros ->. rewrite Heq. lia.
  - intros Hn. set (n0 := round_abs k q) in *.
    assert (Hd : (0 < Zpos (Qden q))%Z) by lia.
    destruct (Z.lt_trichotomy n n0) as [Hlt|[Heq'|Hgt]]; [exfalso|exact Heq'|exfalso]; nia.
Qed.

(** C11: Reading a formatted currency amount gives its sign and the rounded
    number of cents. *)
Theorem parse_format_currency (q : Q) :
  parse_currency (format_currency q) = Some (is_negative q, round_abs 2 q).
Proof.
  unfold format_currency, parse_currency.
  set (n := round_abs 2 q). assert (Hn : (0 <= n)%Z) by apply round_abs_nonneg.
  set (G := group3 (show_Z (n / 100))). set (F := frac_digits 2 (n mod 100)).
  rewrite (parse_sign_prefix q "$" (G <+> "." <+> F)) by (discriminate || reflexivity).
  change ("$" <+> G <+> "." <+> F) with (String "$" (G <+> String "." F)).
  cbv beta iota.
  rewrite (JsString.split_app_sep "." G F)
    by (apply group3_show_no_char; [reflexivity | discriminate]).
  rewrite (JsString.split_no_sep "." F) by (apply frac_digits_no_char; reflexivity).
  unfold G, F. rewrite read_ungroup_show by (apply Z.div_pos; lia).
  rewrite read_frac_digits by lia.
  unfold frac_digits. rewrite length_string_of_list, length_fixed_digits.
  cbn -[Z.mul Z.add Z.div Z.modulo]. change (10 * (10 * 1))%Z with 100%Z.
  rewrite Z.mod_mod by lia. clearbody n. do 2 f_equal. dlia.
Qed.


(** Reading a formatted token balance gives its sign and the balance
    rounded to four fraction digits. *)
Theorem parse_format_decimal (q : Q) :
  parse_decimal (format_decimal q) = Some (is_negative q, round_abs 4 q).
Proof.
  unfold format_decimal, parse_decimal.
  set (n := round_abs 4 q). assert (Hn : (0 <= n)%Z) by apply round_abs_nonneg.
  set (G := group3 (show_Z (n / 10000))).
  set (S := frac_digits 4 (n mod 10000)).
  assert (HS : read_digits S = Some (n mod 10000)%Z)
    by (unfold S; rewrite read_frac_digits by lia; now rewrite Z.mod_mod by lia).
  assert (HlS : String.length S = 4%nat)
    by (unfold S, frac_digits; now rewrite length_string_of_list, length_fixed_digits).
  destruct (strip_zeros_right_spec S) as [k Hk].
  remember (strip_zeros_right S) as f eqn:Ef.
  assert (Hk4 : (String.length f + k = 4)%nat).
  { rewrite <- HlS, Hk, length_append_str, zeros_repeat, length_string_of_list, repeat_length.
    reflexivity. }
  assert (HG : read_digits (ungroup G) = Some (n / 10000)%Z)
    by (apply read_ungroup_show; apply Z.div_pos; lia).
  assert (HGd : JsString.has_char "." G = false)
    by (apply group3_show_no_char; [reflexivity | discriminate]).
  rewrite (parse_sign_prefix q G) by (unfold G; first
    [apply group3_show_nonempty | apply group3_show_no_char; [reflexivity | discriminate]]).
  destruct f as [|c f'].
  - (* no fraction digits: the rounded value is a whole number *)
    rewrite append_empty_r, (JsString.split_no_sep "." G HGd), HG.
    simpl in Hk4. subst k. rewrite Hk in HS.
    change (read_digits (EmptyString <+> zeros 4)) with (Some 0%Z) in HS.
    cbn -[Z.mul Z.div Z.modulo]. clearbody n. do 2 f_equal.
    injection HS as HS. dlia.
  - change ("." <+> String c f') with (String "." (String c f')).
    rewrite (JsString.split_app_sep "." G _ HGd).
    assert (Hfd : JsString.has_char "." (String c f') = false).
    { apply JsString.has_char_false_iff. intros Hin.
      assert (Hd : JsString.has_char "." S = false) by (apply frac_digits_no_char; reflexivity).
      apply JsString.has_char_false_iff in Hd. apply Hd. rewrite Hk, list_ascii_append.
      apply in_or_app. now left. }
    rewrite (JsString.split_no_sep "." _ Hfd).
    replace (4 - String.length (String c f'))%nat with k by lia.
    rewrite <- Hk, HG, HS.
    replace ((1 <=? String.length (String c f'))%nat && (String.length (String c f') <=? 4)%nat)
      with true by (symmetry; apply andb_true_iff; split; apply Nat.leb_le; simpl in *; lia).
    clearbody n. do 2 f_equal. dlia.
Qed.

(** C31: en-US grouping: the comma-separated groups of a non-empty digit
    string concatenate to it, the first has one to three digits and every
    other exactly three. *)
Theorem group3_groups (s : string) :
  s <> EmptyString -> ~ In ","%char (list_ascii_of_string s) ->
  exists g gs, JsString.split "," (group3 s) = g :: gs
    /\ (1 <= String.length g <= 3)%nat
    /\ Forall (fun x => String.length x = 3%nat) gs
    /\ fold_right String.append EmptyString (g :: gs) = s.
Proof.
  intros Hne Hc. unfold group3, groups.
  set (l := list_ascii_of_string s). set (k := lead_len (length l)).
  assert (Hl : l <> []) by (unfold l; destruct s; [congruence | discriminate]).
  assert (Hk : (1 <= k <= 3 /\ k <= length l /\ (length l - k) mod 3 = 0)%nat).
  { apply lead_len_spec. destruct l; [congruence | simpl; lia]. }
  exists (string_of_list_ascii (firstn k l)),
         (map string_of_list_ascii (triples (skipn k l))).
  assert (Hsub : forall g, In g (firstn k l :: triples (skipn k l)) -> ~ In ","%char g).
  { intros g Hg Hin. apply Hc. fold l. rewrite <- (concat_groups l k). apply in_concat. eauto. }
  split; [|split; [|split]].
  - apply JsString.split_join; [discriminate|].
    apply Forall_forall. intros x Hx. apply JsString.has_char_false_iff.
    assert (Hx' : In x (map string_of_list_ascii (firstn k l :: triples (skipn k l))))
      by exact Hx.
    apply in_map_iff in Hx'. destruct Hx' as (g & <- & Hg).
    rewrite list_ascii_of_string_of_list_ascii. now apply Hsub.
  - rewrite length_string_of_list, length_firstn. lia.
  - apply Forall_map. eapply Forall_impl; [|apply triples_length; rewrite length_skipn; lia].
    intros g Hg. now rewrite length_string_of_list.
  - change (fold_right String.append EmptyString
              (map string_of_list_ascii (firstn k l :: triples (skipn k l))) = s).
    rewrite fold_append_strings, concat_groups. apply string_of_list_ascii_of_string.
Qed.


Lemma has_char_lit (c a : ascii) : JsString.has_char c (String a EmptyString) = Ascii.eqb c a.
Proof. unfold JsString.has_char. simpl. now rewrite orb_false_r. Qed.

(** The characters a formatted amount is made of: digits, [,], [.],
    [$] and [-]. *)
Lemma format_currency_no_char (c : ascii) (q : Q) :
  is_digit c = false -> c <> ","%char -> c <> "."%char -> c <> "$"%char -> c <> "-"%char ->
  JsString.has_char c (format_currency q) = false.
Proof.
  intros Hd Hc Hp Hs Hm. unfold format_currency, sign_prefix.
  rewrite !JsString.has_char_app, group3_show_no_char, frac_digits_no_char by auto.
  change "$"%string with (String "$" EmptyString). change "."%string with (String "." EmptyString).
  rewrite !has_char_lit, (proj2 (Ascii.eqb_neq c "$") Hs), (proj2 (Ascii.eqb_neq c ".") Hp).
  destruct (is_negative q); [rewrite has_char_lit, (proj2 (Ascii.eqb_neq c "-") Hm)|]; reflexivity.
Qed.

Lemma format_decimal_no_char (c : ascii) (q : Q) :
  is_digit c = false -> c <> ","%char -> c <> "."%char -> c <> "-"%char ->
  JsString.has_char c (format_decimal q) = false.
Proof.
  intros Hd Hc Hp Hm. unfold format_decimal, sign_prefix.
  set (S := frac_digits 4 (round_abs 4 q mod 10000)).
  assert (HS : JsString.has_char c S = false) by (apply frac_digits_no_char; exact Hd).
  destruct (strip_zeros_right_spec S) as [k Hk].
  rewrite Hk, JsString.has_char_app, orb_false_iff in HS. destruct HS as [Hf _].
  assert (Hfr : JsString.has_char c (match strip_zeros_right S with
                                      | EmptyString => EmptyString
                                      | _ => "." <+> strip_zeros_right S end) = false).
  { destruct (strip_zeros_right S) as [|a f]; [reflexivity|].
    change ("." <+> String a f) with (String "." (String a f)).
    rewrite JsString.has_char_cons, (proj2 (Ascii.eqb_neq c ".") Hp). exact Hf. }
  rewrite !JsString.has_char_app, group3_show_no_char, Hfr by auto.
  destruct (is_negative q); [rewrite has_char_lit, (proj2 (Ascii.eqb_neq c "-") Hm)|]; reflexivity.
Qed.

Example format_currency_100 : format_currency 100 = "$100.00"%string.
Proof. reflexivity. Qed.

Example format_currency_grouped : format_currency (12345678 # 10) = "$1,234,567.80"%string.
Proof. reflexivity. Qed.

Example format_currency_tie : format_currency (2675 # 1000) = "$2.68"%string.
Proof. reflexivity. Qed.

Example format_currency_neg_zero : format_currency (-1 # 1000) = "-$0.00"%string.
Proof. reflexivity. Qed.

Example format_decimal_ex : format_decimal (123456789 # 10000) = "12,345.6789"%string.
Proof. reflexivity. Qed.

Example format_decimal_int : format_decimal (25 # 10) = "2.5"%string /\ format_decimal 7 = "7"%string.
Proof. split; reflexivity. Qed.

Lemma group3_groups_witness :
  exists g gs, JsString.split "," (group3 "1234567"%string) = g :: gs
    /\ (1 <= String.length g <= 3)%nat
    /\ Forall (fun x => String.length x = 3%nat) gs
    /\ fold_right String.append EmptyString (g :: gs) = "1234567"%string.
Proof. apply group3_groups; [discriminate | simpl; intuition discriminate]. Defined.

End NumberFormat.
