(* ===== verification/Locale.v ===== *)
(** * toLocaleString in the host's default locale

    Every number of the report is printed by [toLocaleString(void 0, ...)]
    (src/dist/index.js, lines 47-53, 60-63, 67-74 and 76-79): the locale
    argument is [undefined], so ECMA-402 formats with the host's default
    locale.  [NumberFormat] models the en-US result.  This file models
    the formatting for any locale with Latin digits, as ICU does it from
    the locale's data ([NumberLocale]): the decimal and grouping
    separators, the primary and secondary grouping sizes, the minimum
    grouping digits, the minus sign, the affixes of the currency pattern
    for USD and whether the minus sign goes before or after the currency
    prefix.

    [format_en_US] shows that [NumberFormat] is this formatting
    at the en-US data; [parse_format_currency_in] and
    [parse_format_decimal_in] show that in every well-formed locale
    ([wf]) the printed text still determines the sign and the rounded
    amount. *)

From Stdlib Require Import String Ascii List ZArith QArith Lia Bool.
From S2P Require Import Prelude JsString NumberFormat.
Import ListNotations.
Local Open Scope string_scope.
Local Open Scope zap_scope.

Module Locale.

Import NumberFormat.

(** ** Locale data *)

(** Where the minus sign of a negative currency amount goes:
    ["-$1.00"] (en-US) or ["US$ -1,00"] (nl-NL). *)
Inductive SignPosition : Type := SignBeforePrefix | SignAfterPrefix.

Record NumberLocale := mkNumberLocale {
  decimal_sep : ascii;
  group_sep : string;
  primary_group : nat;
  secondary_group : nat;
  min_grouping : nat;
  minus_sign : string;
  currency_prefix : string;
  currency_suffix : string;
  currency_sign_position : SignPosition }.

(** ** Grouping *)

Section Chunks.
Context {A : Type}.

(** [l] cut into pieces of [s] elements, from the left; [fuel] bounds the
    number of pieces. *)
Fixpoint chunks_fuel (fuel s : nat) (l : list A) : list (list A) :=
  match fuel, l with
  | O, _ => []
  | _, [] => []
  | S f, _ => firstn s l :: chunks_fuel f s (skipn s l)
  end.

Definition chunks (s : nat) (l : list A) : list (list A) := chunks_fuel (length l) s l.

End Chunks.

(** The size of the leading group of [n] digits grouped by [s]: between 1
    and [s], and [n] minus it is a multiple of [s]. *)
Definition lead_size (s n : nat) : nat := (n + s - 1) mod s + 1.

(** The integer digits in groups: the last [primary_group] digits form a
    group and the digits before it groups of [secondary_group], unless
    there are fewer than [primary_group + min_grouping] digits. *)
Definition group_digits (loc : NumberLocale) (l : list ascii) : list (list ascii) :=
  let p := primary_group loc in
  let n := length l in
  if Nat.ltb n (p + min_grouping loc) then [l]
  else
    let hi := firstn (n - p) l in
    let k := lead_size (secondary_group loc) (length hi) in
    (firstn k hi :: chunks (secondary_group loc) (skipn k hi)) ++ [skipn (n - p) l].

(** The digits of [s], grouped with the locale's separator. *)
Definition grouped (loc : NumberLocale) (s : string) : string :=
  JsString.join (group_sep loc)
    (map string_of_list_ascii (group_digits loc (list_ascii_of_string s))).

(** ** The two formats *)

(** [x.toLocaleString(void 0, {style: "currency", currency: "USD"})] *)
Definition format_currency_in (loc : NumberLocale) (q : Q) : string :=
  let n := round_abs 2 q in
  let sign := if is_negative q then minus_sign loc else EmptyString in
  let body := grouped loc (show_Z (n / 100)) <+> String (decimal_sep loc) (frac_digits 2 (n mod 100))
              <+> currency_suffix loc in
  match currency_sign_position loc with
  | SignBeforePrefix => sign <+> currency_prefix loc <+> body
  | SignAfterPrefix => currency_prefix loc <+> sign <+> body
  end.

(** [Number(x).toLocaleString(void 0, {maximumFractionDigits: 4})] *)
Definition format_decimal_in (loc : NumberLocale) (q : Q) : string :=
  let n := round_abs 4 q in
  let f := strip_zeros_right (frac_digits 4 (n mod 10000)) in
  (if is_negative q then minus_sign loc else EmptyString)
    <+> grouped loc (show_Z (n / 10000))
    <+> match f with EmptyString => EmptyString | _ => String (decimal_sep loc) f end.

(** ** Reading formatted numbers back, in any locale *)

Fixpoint strip_affix (p t : string) : option string :=
  match p, t with
  | EmptyString, _ => Some t
  | String a p', String b t' => if Ascii.eqb a b then strip_affix p' t' else None
  | _, _ => None
  end.

Fixpoint take_str (n : nat) (s : string) : string :=
  match n, s with
  | S n', String c s' => String c (take_str n' s')
  | _, _ => EmptyString
  end.

(** The decimal digits of [s], whatever separates them. *)
Definition digits_of (s : string) : string :=
  string_of_list_ascii (List.filter is_digit (list_ascii_of_string s)).

Definition read_sign (minus t : string) : bool * string :=
  match strip_affix minus t with Some r => (true, r) | None => (false, t) end.

(** A currency amount without its sign and prefix: grouped integer
    digits, the decimal separator, two digits, then the suffix. *)
Definition read_currency_body (loc : NumberLocale) (r : string) : option Z :=
  match JsString.split (decimal_sep loc) r with
  | [ip; fs] =>
      match read_digits (digits_of ip), read_digits (take_str 2 fs) with
      | Some a, Some b => Some (a * 100 + b)%Z
      | _, _ => None
      end
  | _ => None
  end.

Definition parse_currency_in (loc : NumberLocale) (t : string) : option (bool * Z) :=
  match currency_sign_position loc with
  | SignBeforePrefix =>
      let (neg, r) := read_sign (minus_sign loc) t in
      match strip_affix (currency_prefix loc) r with
      | Some r' => option_map (pair neg) (read_currency_body loc r')
      | None => None
      end
  | SignAfterPrefix =>
      match strip_affix (currency_prefix loc) t with
      | Some r => let (neg, r') := read_sign (minus_sign loc) r in
                  option_map (pair neg) (read_currency_body loc r')
      | None => None
      end
  end.

(** A balance: sign, grouped integer digits, and one to four fraction
    digits after the decimal separator when there are any. *)
Definition parse_decimal_in (loc : NumberLocale) (t : string) : option (bool * Z) :=
  let (neg, r) := read_sign (minus_sign loc) t in
  match JsString.split (decimal_sep loc) r with
  | [ip] => option_map (fun a => (neg, (a * 10000)%Z)) (read_digits (digits_of ip))
  | [ip; fp] =>
      if Nat.leb 1 (String.length fp) && Nat.leb (String.length fp) 4 then
        match read_digits (digits_of ip), read_digits (fp <+> zeros (4 - String.length fp)) with
        | Some a, Some b => Some (neg, (a * 10000 + b)%Z)
        | _, _ => None
        end
      else None
  | _ => None
  end.

(** A locale whose texts can be read back: non-empty groups, separators
    that are not digits, a decimal separator found nowhere else, and a
    minus sign that starts with neither a digit nor, when it comes first,
    the currency prefix. *)
Definition wf (loc : NumberLocale) : bool :=
  Nat.ltb 0 (secondary_group loc) && Nat.ltb 0 (min_grouping loc)
  && negb (is_digit (decimal_sep loc))
  && forallb (fun c => negb (is_digit c) && negb (Ascii.eqb c (decimal_sep loc)))
       (list_ascii_of_string (group_sep loc))
  && negb (JsString.has_char (decimal_sep loc) (currency_suffix loc))
  && match minus_sign loc with
     | String c _ =>
         negb (is_digit c)
         && match currency_sign_position loc, currency_prefix loc with
            | SignBeforePrefix, String d _ => negb (Ascii.eqb c d)
            | _, _ => true
            end
     | EmptyString => false
     end.

(** ** Locales *)

Definition nbsp : string := utf8 [194; 160]%nat.

(** The data of en-US, the locale [NumberFormat] is written for. *)
Definition en_US : NumberLocale := {|
  decimal_sep := "."; group_sep := ","; primary_group := 3; secondary_group := 3;
  min_grouping := 1; minus_sign := "-"; currency_prefix := "$"; currency_suffix := EmptyString;
  currency_sign_position := SignBeforePrefix |}.

Definition de_DE : NumberLocale := {|
  decimal_sep := ","; group_sep := "."; primary_group := 3; secondary_group := 3;
  min_grouping := 1; minus_sign := "-"; currency_prefix := EmptyString;
  currency_suffix := nbsp <+> "$"; currency_sign_position := SignBeforePrefix |}.

Definition en_IN : NumberLocale := {|
  decimal_sep := "."; group_sep := ","; primary_group := 3; secondary_group := 2;
  min_grouping := 1; minus_sign := "-"; currency_prefix := "$"; currency_suffix := EmptyString;
  currency_sign_position := SignBeforePrefix |}.

Definition es_ES : NumberLocale := {|
  decimal_sep := ","; group_sep := "."; primary_group := 3; secondary_group := 3;
  min_grouping := 2; minus_sign := "-"; currency_prefix := EmptyString;
  currency_suffix := nbsp <+> "US$"; currency_sign_position := SignBeforePrefix |}.

Definition nl_NL : NumberLocale := {|
  decimal_sep := ","; group_sep := "."; primary_group := 3; secondary_group := 3;
  min_grouping := 1; minus_sign := "-"; currency_prefix := "US$" <+> nbsp;
  currency_suffix := EmptyString; currency_sign_position := SignAfterPrefix |}.

Example locales_wf : wf en_US = true /\ wf de_DE = true /\ wf en_IN = true
  /\ wf es_ES = true /\ wf nl_NL = true.
Proof. vm_compute. repeat split. Qed.

Example format_currency_locales :
  format_currency_in de_DE (12345678 # 10) = "1.234.567,80" <+> nbsp <+> "$"
  /\ format_currency_in en_IN (12345678 # 10) = "$12,34,567.80"
  /\ format_currency_in es_ES (12345 # 10) = "1234,50" <+> nbsp <+> "US$"
  /\ format_currency_in es_ES (123456 # 10) = "12.345,60" <+> nbsp <+> "US$"
  /\ format_currency_in nl_NL (-12345 # 10) = "US$" <+> nbsp <+> "-1.234,50".
Proof. vm_compute. repeat split. Qed.

(** ** Grouping keeps the digits *)

Local Open Scope nat_scope.
Local Open Scope list_scope.

Lemma chunks_fuel_concat {A : Type} (fuel s : nat) (l : list A) :
  0 < s -> length l <= fuel * s -> concat (chunks_fuel fuel s l) = l.
Proof.
  revert l. induction fuel as [|f IH]; intros l Hs Hl.
  - destruct l; [reflexivity | cbn in Hl; lia].
  - destruct l as [|a r]; [reflexivity|].
    cbn [chunks_fuel concat]. rewrite IH by (try rewrite length_skipn; cbn [length] in *; nia).
    apply firstn_skipn.
Qed.

Lemma chunks_concat {A : Type} (s : nat) (l : list A) : 0 < s -> concat (chunks s l) = l.
Proof. intros Hs. apply chunks_fuel_concat; [exact Hs | nia]. Qed.

(** The groups, put back together, are the digits. *)
Lemma group_digits_concat (loc : NumberLocale) (l : list ascii) :
  0 < secondary_group loc -> concat (group_digits loc l) = l.
Proof.
  intros Hs. unfold group_digits. destruct (Nat.ltb _ _); [apply app_nil_r|].
  rewrite concat_app. cbn [concat]. rewrite chunks_concat by exact Hs.
  rewrite app_assoc, firstn_skipn, app_nil_r. apply firstn_skipn.
Qed.

(** ** At the en-US data, the grouping of [NumberFormat] *)

Lemma chunks_fuel_triples (fuel : nat) (l : list ascii) :
  length l mod 3 = 0 -> length l <= fuel * 3 -> chunks_fuel fuel 3 l = triples l.
Proof.
  revert l. induction fuel as [|f IH]; intros l Hm Hl.
  - destruct l; [reflexivity | cbn in Hl; lia].
  - destruct l as [|a [|b [|c r]]]; try reflexivity; try (vm_compute in Hm; discriminate).
    cbn [chunks_fuel firstn skipn triples]. f_equal. apply IH.
    + cbn [length] in Hm. replace (S (S (S (length r)))) with (length r + 1 * 3) in Hm by lia.
      now rewrite Nat.Div0.mod_add in Hm.
    + cbn [length] in Hl. lia.
Qed.

Lemma triples_app (a b : list ascii) :
  length a mod 3 = 0 -> triples (a ++ b) = triples a ++ triples b.
Proof.
  induction a as [| |x y|x y z r IH] using list_ind3; intros Hm;
    try (vm_compute in Hm; discriminate); [reflexivity|].
  cbn [app triples]. f_equal. apply IH.
  cbn [length] in Hm. replace (S (S (S (length r)))) with (length r + 1 * 3) in Hm by lia.
  now rewrite Nat.Div0.mod_add in Hm.
Qed.

Lemma lead_size_3 (n : nat) : 4 <= n -> lead_size 3 (n - 3) = lead_len n.
Proof.
  intros Hn. unfold lead_size, lead_len. f_equal.
  replace (n - 3 + 3 - 1) with (n - 1) by lia.
  replace (n + 2) with (n - 1 + 1 * 3) by lia. now rewrite Nat.Div0.mod_add.
Qed.

Lemma group_digits_en_US (l : list ascii) :
  group_digits en_US l = firstn (lead_len (length l)) l :: triples (skipn (lead_len (length l)) l).
Proof.
  unfold group_digits. cbn [primary_group secondary_group min_grouping en_US].
  destruct (Nat.ltb (length l) (3 + 1)) eqn:E.
  - apply Nat.ltb_lt in E. destruct l as [|a [|b [|c [|d r]]]]; try reflexivity. cbn in E; lia.
  - apply Nat.ltb_ge in E. set (n := length l) in *.
    assert (Hhi : length (firstn (n - 3) l) = n - 3) by (rewrite length_firstn; lia).
    rewrite Hhi, lead_size_3 by lia.
    destruct (lead_len_spec n ltac:(lia)) as (Hk1 & Hkn & Hkm).
    set (k := lead_len n) in *.
    assert (Hk : k <= n - 3).
    { unfold k, lead_len. pose proof (Nat.div_mod_eq (n + 2) 3).
      pose proof (Nat.mod_upper_bound (n + 2) 3 ltac:(lia)). lia. }
    rewrite firstn_firstn, Nat.min_l by lia.
    assert (Hsplit : skipn k l = skipn k (firstn (n - 3) l) ++ skipn (n - 3) l).
    { rewrite <- (firstn_skipn (n - 3) l) at 1. rewrite skipn_app, Hhi.
      now replace (k - (n - 3)) with 0 by lia. }
    rewrite Hsplit.
    assert (Hm : length (skipn k (firstn (n - 3) l)) mod 3 = 0).
    { rewrite length_skipn, Hhi. replace (n - 3 - k) with (n - k - 1 * 3) by lia.
      replace (n - k) with (n - k - 1 * 3 + 1 * 3) in Hkm by lia.
      now rewrite Nat.Div0.mod_add in Hkm. }
    rewrite triples_app by exact Hm. unfold chunks. rewrite chunks_fuel_triples by (exact Hm || lia).
    assert (H3 : length (skipn (n - 3) l) = 3) by (rewrite length_skipn; lia).
    destruct (skipn (n - 3) l) as [|x [|y [|z [|w t]]]]; try (cbn in H3; lia). reflexivity.
Qed.

Lemma grouped_en_US (s : string) : grouped en_US s = group3 s.
Proof. unfold grouped, group3, groups. now rewrite group_digits_en_US. Qed.

(** ** Reading back, in every well-formed locale *)

Lemma strip_affix_app (p t : string) : strip_affix p (p <+> t) = Some t.
Proof. induction p as [|a p IH]; [reflexivity|]. cbn. now rewrite Ascii.eqb_refl. Qed.

Lemma strip_affix_neq (c d : ascii) (p t : string) :
  c <> d -> strip_affix (String c p) (String d t) = None.
Proof. intros H. cbn. apply Ascii.eqb_neq in H. now rewrite H. Qed.

Lemma take_str_app (n : nat) (a b : string) : String.length a = n -> take_str n (a <+> b) = a.
Proof.
  intros <-. induction a as [|c a IH]; [reflexivity|]. cbn [String.length take_str String.append].
  now rewrite IH.
Qed.

Lemma filter_none {A : Type} (f : A -> bool) (l : list A) :
  (forall x, In x l -> f x = false) -> List.filter f l = [].
Proof.
  induction l as [|x l IH]; intros H; [reflexivity|]. cbn. rewrite H by now left.
  apply IH. intros y Hy. apply H. now right.
Qed.

Lemma digits_of_app (a b : string) : digits_of (a <+> b) = digits_of a <+> digits_of b.
Proof. unfold digits_of. now rewrite list_ascii_append, filter_app, string_of_list_app. Qed.

Lemma digits_of_join (sep : string) (xs : list string) :
  digits_of sep = EmptyString ->
  digits_of (JsString.join sep xs) = fold_right String.append EmptyString (map digits_of xs).
Proof.
  intros Hs. induction xs as [|x xs IH]; [reflexivity|].
  destruct xs as [|y ys]; [cbn; now rewrite append_empty_r|].
  change (JsString.join sep (x :: y :: ys)) with (x <+> sep <+> JsString.join sep (y :: ys)).
  rewrite !digits_of_app, Hs, IH. reflexivity.
Qed.

Lemma has_char_join (c : ascii) (sep : string) (xs : list string) :
  JsString.has_char c sep = false -> Forall (fun x => JsString.has_char c x = false) xs ->
  JsString.has_char c (JsString.join sep xs) = false.
Proof.
  intros Hs Hx. induction Hx as [|x xs Hx Hxs IH]; [reflexivity|].
  destruct xs as [|y ys]; [exact Hx|].
  change (JsString.join sep (x :: y :: ys)) with (x <+> sep <+> JsString.join sep (y :: ys)).
  now rewrite !JsString.has_char_app, Hx, Hs, IH.
Qed.

Lemma group_digits_In (loc : NumberLocale) (l g : list ascii) (c : ascii) :
  0 < secondary_group loc -> In g (group_digits loc l) -> In c g -> In c l.
Proof.
  intros Hs Hg Hc. rewrite <- (group_digits_concat loc l Hs). apply in_concat. eauto.
Qed.

(** The digits of a grouped number are the number's. *)
Lemma digits_of_grouped (loc : NumberLocale) (n : Z) :
  0 < secondary_group loc -> digits_of (group_sep loc) = EmptyString ->
  digits_of (grouped loc (show_Z n)) = show_Z n.
Proof.
  intros Hs Hsep. destruct (show_Z_digits n) as [_ Hd].
  unfold grouped. rewrite digits_of_join by exact Hsep. rewrite map_map.
  rewrite (map_ext_in _ string_of_list_ascii).
  - rewrite fold_append_strings, group_digits_concat by exact Hs.
    apply string_of_list_ascii_of_string.
  - intros g Hg. unfold digits_of. rewrite list_ascii_of_string_of_list_ascii. f_equal.
    apply filter_all. intros c Hc. rewrite Forall_forall in Hd. apply Hd.
    eapply group_digits_In; eauto.
Qed.

(** A grouped number contains no character but digits and separators. *)
Lemma grouped_no_char (loc : NumberLocale) (c : ascii) (n : Z) :
  0 < secondary_group loc -> is_digit c = false -> JsString.has_char c (group_sep loc) = false ->
  JsString.has_char c (grouped loc (show_Z n)) = false.
Proof.
  intros Hs Hc Hsep. destruct (show_Z_digits n) as [_ Hd]. unfold grouped.
  apply has_char_join; [exact Hsep|]. apply Forall_forall. intros x Hx.
  apply in_map_iff in Hx as (g & <- & Hg). apply JsString.has_char_false_iff.
  rewrite list_ascii_of_string_of_list_ascii. intros Hin. rewrite Forall_forall in Hd.
  pose proof (Hd c (group_digits_In _ _ _ _ Hs Hg Hin)). congruence.
Qed.

Lemma group_digits_head (loc : NumberLocale) (c : ascii) (l : list ascii) :
  0 < min_grouping loc -> exists g gs, group_digits loc (c :: l) = (c :: g) :: gs.
Proof.
  intros Hm. unfold group_digits. cbv zeta. destruct (Nat.ltb _ _) eqn:E; [eauto|].
  apply Nat.ltb_ge in E. cbn [length] in *.
  destruct (S (length l) - primary_group loc) as [|m] eqn:Em; [lia|].
  cbn [firstn length]. unfold lead_size. rewrite Nat.add_1_r. cbn [firstn app]. eauto.
Qed.

(** A grouped number starts with a digit. *)
Lemma grouped_head (loc : NumberLocale) (n : Z) :
  0 < min_grouping loc -> exists d r, grouped loc (show_Z n) = String d r /\ is_digit d = true.
Proof.
  intros Hm. destruct (show_Z_digits n) as [Hne Hd]. unfold grouped.
  destruct (list_ascii_of_string (show_Z n)) as [|c l]; [congruence|].
  destruct (group_digits_head loc c l Hm) as (g & gs & ->).
  cbn [map string_of_list_ascii]. rewrite JsString.join_cons_string.
  do 2 eexists. split; [reflexivity|]. now inversion Hd.
Qed.

Lemma read_sign_spec (minus X : string) (b : bool) :
  (exists c m d r, minus = String c m /\ X = String d r /\ c <> d) ->
  read_sign minus ((if b then minus else EmptyString) <+> X) = (b, X).
Proof.
  intros (c & m & d & r & -> & -> & Hcd). unfold read_sign. destruct b.
  - now rewrite strip_affix_app.
  - change (EmptyString <+> String d r) with (String d r). now rewrite strip_affix_neq.
Qed.

Lemma wf_props (loc : NumberLocale) :
  wf loc = true ->
  0 < secondary_group loc /\ 0 < min_grouping loc /\ is_digit (decimal_sep loc) = false
  /\ digits_of (group_sep loc) = EmptyString
  /\ JsString.has_char (decimal_sep loc) (group_sep loc) = false
  /\ JsString.has_char (decimal_sep loc) (currency_suffix loc) = false
  /\ exists c m, minus_sign loc = String c m /\ is_digit c = false
     /\ (currency_sign_position loc = SignBeforePrefix ->
         forall d p, currency_prefix loc = String d p -> c <> d).
Proof.
  unfold wf. intros H. rewrite !andb_true_iff in H.
  destruct H as (((((H1 & H2) & H3) & H4) & H5) & H6).
  apply Nat.ltb_lt in H1, H2. apply negb_true_iff in H3, H5. rewrite forallb_forall in H4.
  split; [exact H1|]. split; [exact H2|]. split; [exact H3|]. split.
  { unfold digits_of. rewrite filter_none; [reflexivity|]. intros x Hx.
    specialize (H4 x Hx). apply andb_true_iff in H4 as [Hx1 _]. now apply negb_true_iff in Hx1. }
  split.
  { apply JsString.has_char_false_iff. intros Hin. specialize (H4 _ Hin).
    rewrite Ascii.eqb_refl in H4. now rewrite andb_false_r in H4. }
  split; [exact H5|].
  destruct (minus_sign loc) as [|c m]; [discriminate|]. exists c, m.
  apply andb_true_iff in H6 as [Hc Hp]. apply negb_true_iff in Hc.
  split; [reflexivity|]. split; [exact Hc|]. intros Hpos d p Hpre.
  rewrite Hpos, Hpre in Hp. apply negb_true_iff, Ascii.eqb_neq in Hp. exact Hp.
Qed.

(** The body of a currency text is read back. *)
Lemma read_currency_body_spec (loc : NumberLocale) (n : Z) :
  wf loc = true -> (0 <= n)%Z ->
  read_currency_body loc
    (grouped loc (show_Z (n / 100)) <+> String (decimal_sep loc) (frac_digits 2 (n mod 100))
       <+> currency_suffix loc) = Some n.
Proof.
  intros Hwf Hn. destruct (wf_props loc Hwf) as (Hs & _ & Hdec & Hsep & Hsepd & Hsuf & _).
  unfold read_currency_body.
  change (String (decimal_sep loc) (frac_digits 2 (n mod 100)) <+> currency_suffix loc)
    with (String (decimal_sep loc) (frac_digits 2 (n mod 100) <+> currency_suffix loc)).
  rewrite JsString.split_app_sep by (apply grouped_no_char; assumption).
  rewrite JsString.split_no_sep
    by (rewrite JsString.has_char_app, frac_digits_no_char, Hsuf by exact Hdec; reflexivity).
  rewrite digits_of_grouped, read_show_Z by (assumption || (apply Z.div_pos; lia)).
  rewrite take_str_app
    by (unfold frac_digits; now rewrite length_string_of_list, length_fixed_digits).
  rewrite read_frac_digits by lia. f_equal. change (10 ^ Z.of_nat 2)%Z with 100%Z.
  rewrite Z.mod_mod by lia. pose proof (Z.div_mod n 100). lia.
Qed.

(** C12: In every well-formed locale, the currency text of an amount gives
    back its sign and the amount rounded to cents: whatever the host's
    default locale, the report loses no information on the amounts. *)
Theorem parse_format_currency_in (loc : NumberLocale) (q : Q) :
  wf loc = true ->
  parse_currency_in loc (format_currency_in loc q) = Some (is_negative q, round_abs 2 q).
Proof.
  intros Hwf. destruct (wf_props loc Hwf) as (Hs & Hm & Hdec & _ & _ & _ & c & m & Hmin & Hc & Hpre).
  unfold format_currency_in, parse_currency_in. cbv zeta.
  set (n := round_abs 2 q). assert (Hn : (0 <= n)%Z) by apply round_abs_nonneg.
  pose proof (read_currency_body_spec loc n Hwf Hn) as Hbody.
  destruct (grouped_head loc (n / 100) Hm) as (d & r & HG & Hd).
  set (body := grouped loc (show_Z (n / 100)) <+> _) in *.
  assert (Hbd : exists r', body = String d r') by (exists (r <+> String (decimal_sep loc) (frac_digits 2 (n mod 100)) <+> currency_suffix loc); unfold body; now rewrite HG).
  destruct Hbd as (r' & Hbd). assert (Hcd : c <> d) by congruence.
  destruct (currency_sign_position loc) eqn:Ep.
  - rewrite (read_sign_spec (minus_sign loc) (currency_prefix loc <+> body)).
    + rewrite strip_affix_app. cbn [option_map]. now rewrite Hbody.
    + exists c, m. destruct (currency_prefix loc) as [|d' p'] eqn:Epre.
      * exists d, r'. split; [exact Hmin | split; [exact Hbd | exact Hcd]].
      * exists d', (p' <+> body). split; [exact Hmin | split; [reflexivity|]].
        exact (Hpre eq_refl d' p' eq_refl).
  - rewrite strip_affix_app, (read_sign_spec (minus_sign loc) body).
    + cbn [option_map]. now rewrite Hbody.
    + exists c, m, d, r'. auto.
Qed.

(** C13: In every well-formed locale, the text of a token balance gives back
    its sign and the balance rounded to four fraction digits. *)
Theorem parse_format_decimal_in (loc : NumberLocale) (q : Q) :
  wf loc = true ->
  parse_decimal_in loc (format_decimal_in loc q) = Some (is_negative q, round_abs 4 q).
Proof.
  intros Hwf. destruct (wf_props loc Hwf) as (Hs & Hm & Hdec & Hsep & Hsepd & _ & c & m & Hmin & Hc & _).
  unfold format_decimal_in, parse_decimal_in. cbv zeta.
  set (n := round_abs 4 q). assert (Hn : (0 <= n)%Z) by apply round_abs_nonneg.
  destruct (grouped_head loc (n / 10000) Hm) as (d & r & HG0 & Hd).
  set (G := grouped loc (show_Z (n / 10000))) in *.
  set (S := frac_digits 4 (n mod 10000)).
  assert (HS : read_digits S = Some (n mod 10000)%Z)
    by (unfold S; rewrite read_frac_digits by lia; now rewrite Z.mod_mod by lia).
  assert (HlS : String.length S = 4)
    by (unfold S, frac_digits; now rewrite length_string_of_list, length_fixed_digits).
  destruct (strip_zeros_right_spec S) as [k Hk].
  remember (strip_zeros_right S) as f eqn:Ef.
  assert (Hk4 : String.length f + k = 4).
  { rewrite <- HlS, Hk, length_append_str, zeros_repeat, length_string_of_list, repeat_length.
    reflexivity. }
  assert (HG : read_digits (digits_of G) = Some (n / 10000)%Z)
    by (unfold G; rewrite digits_of_grouped by assumption; apply read_show_Z, Z.div_pos; lia).
  assert (HGd : JsString.has_char (decimal_sep loc) G = false) by (apply grouped_no_char; assumption).
  rewrite (read_sign_spec (minus_sign loc))
    by (exists c, m, d; eexists; split; [exact Hmin | split; [rewrite HG0; reflexivity | congruence]]).
  destruct f as [|c' f'].
  - rewrite append_empty_r, (JsString.split_no_sep _ G HGd). cbn [option_map]. rewrite HG.
    simpl in Hk4. subst k. rewrite Hk in HS.
    change (read_digits (EmptyString <+> zeros 4)) with (Some 0%Z) in HS.
    cbn [option_map]. clearbody n. do 2 f_equal. injection HS as HS. dlia.
  - rewrite (JsString.split_app_sep _ G _ HGd).
    assert (Hfd : JsString.has_char (decimal_sep loc) (String c' f') = false).
    { apply JsString.has_char_false_iff. intros Hin.
      assert (HSd : JsString.has_char (decimal_sep loc) S = false) by now apply frac_digits_no_char.
      apply JsString.has_char_false_iff in HSd. apply HSd. rewrite Hk, list_ascii_append.
      apply in_or_app. now left. }
    rewrite (JsString.split_no_sep _ _ Hfd).
    replace (4 - String.length (String c' f')) with k by lia.
    rewrite <- Hk, HG, HS.
    replace (Nat.leb 1 (String.length (String c' f')) && Nat.leb (String.length (String c' f')) 4)
      with true by (symmetry; apply andb_true_iff; split; apply Nat.leb_le; simpl in *; lia).
    clearbody n. do 2 f_equal. dlia.
Qed.

(** [NumberFormat] is the locale formatting at the en-US data: both
    formats of [toLocaleString] coincide with [format_currency_in en_US]
    and [format_decimal_in en_US] on every number. *)
Theorem format_en_US (q : Q) :
  format_currency_in en_US q = format_currency q
  /\ format_decimal_in en_US q = format_decimal q.
Proof.
  unfold format_currency_in, format_currency, format_decimal_in, format_decimal, sign_prefix.
  cbn [currency_sign_position minus_sign currency_prefix currency_suffix decimal_sep en_US].
  rewrite !grouped_en_US, append_empty_r. split; [reflexivity|].
  now destruct (strip_zeros_right _).
Qed.

Lemma parse_format_currency_in_witness :
  wf nl_NL = true
  /\ parse_currency_in nl_NL (format_currency_in nl_NL (-12345 # 10))
     = Some (is_negative (-12345 # 10), round_abs 2 (-12345 # 10)).
Proof. split; [reflexivity|]. apply parse_format_currency_in. reflexivity. Defined.

Lemma parse_format_decimal_in_witness :
  wf de_DE = true
  /\ parse_decimal_in de_DE (format_decimal_in de_DE (-123456789 # 10000))
     = Some (is_negative (-123456789 # 10000), round_abs 4 (-123456789 # 10000)).
Proof. split; [reflexivity|]. apply parse_format_decimal_in. reflexivity. Defined.

End Locale.
