(* ===== verification/JsSort.v ===== *)
(** * Array.prototype.sort with the comparator [(a, b) => key(b) - key(a)]

    formatPortfolioData sorts twice with a comparator of this shape:
    token balances by [token.balanceUSD] (line 46) and network totals by
    [total] (line 75).  ECMAScript (since ES2019) requires the sort to be
    stable, and the comparator is consistent: for finite doubles the sign
    of [key(b) - key(a)] is the sign of the exact difference (the
    subtraction never rounds a non-zero difference to zero, and an
    overflow keeps its sign).  So the result is determined: it is the
    unique stable ordering by decreasing key.  [sort] computes it by
    insertion; [sort_unique] shows that every result the specification
    allows (V8's TimSort included) is equal to it. *)

From Stdlib Require Import List QArith Lia Permutation Sorted Bool.
From S2P Require Import Prelude.
Import ListNotations.
Local Open Scope zap_scope.

Module JsSort.

Section WithKey.
Context {A : Type} (key : A -> Q).

(** The sign of [comparefn(a, b) = key(b) - key(a)]. *)
Definition comparefn (a b : A) : comparison := Qcompare (key b) (key a).

(** Insert [x], which came before every element of [l], into the
    sorted [l]: it stays before [y] unless [comparefn(x, y) > 0]. *)
Fixpoint insert (x : A) (l : list A) : list A :=
  match l with
  | [] => [x]
  | y :: r =>
      match comparefn x y with
      | Gt => y :: insert x r
      | _ => x :: y :: r
      end
  end.

(** [l.sort(comparefn)]. *)
Fixpoint sort (l : list A) : list A :=
  match l with
  | [] => []
  | x :: r => insert x (sort r)
  end.

(** The order the specification asks for: non-increasing keys. *)
Definition desc (a b : A) : Prop := key b <= key a.

(** The elements whose key equals [k], in order. *)
Definition key_class (k : Q) (l : list A) : list A :=
  filter (fun x => Qeq_bool (key x) k) l.

(** What ECMAScript allows [l.sort(comparefn)] to return: an ordering by
    decreasing key that keeps elements with equal keys in their
    original order. *)
Definition stable_sorted (l l' : list A) : Prop :=
  Sorted desc l' /\ forall k, key_class k l' = key_class k l.

End WithKey.


Section Properties.
Context {A : Type} (key : A -> Q).

Lemma comparefn_Gt (x y : A) : comparefn key x y = Gt <-> key x < key y.
Proof. unfold comparefn. now rewrite <- Qgt_alt. Qed.

Lemma key_class_cons (k : Q) (x : A) (l : list A) :
  key_class key k (x :: l)
  = if Qeq_bool (key x) k then x :: key_class key k l else key_class key k l.
Proof. reflexivity. Qed.

Lemma key_class_In (k : Q) (x : A) (l : list A) :
  In x (key_class key k l) <-> In x l /\ key x == k.
Proof. unfold key_class. now rewrite filter_In, Qeq_bool_iff. Qed.

(** *** Permutation *)

Lemma insert_perm (x : A) (l : list A) : Permutation (insert key x l) (x :: l).
Proof.
  induction l as [|y r IH]; simpl; [reflexivity|].
  destruct (comparefn key x y); try reflexivity.
  rewrite IH. apply perm_swap.
Qed.

Lemma sort_perm (l : list A) : Permutation (sort key l) l.
Proof.
  induction l as [|x r IH]; simpl; [reflexivity|].
  now rewrite insert_perm, IH.
Qed.

(** *** Order *)

Lemma desc_trans : Relations_1.Transitive (desc key).
Proof. intros a b c Hab Hbc. unfold desc in *. eapply Qle_trans; eauto. Qed.

Lemma insert_HdRel (x y : A) (l : list A) :
  HdRel (desc key) y l -> key x <= key y -> HdRel (desc key) y (insert key x l).
Proof.
  intros Hl Hxy. destruct l as [|z r]; simpl; [now constructor|].
  destruct (comparefn key x z); constructor; auto. now inversion Hl.
Qed.

Lemma insert_sorted (x : A) (l : list A) :
  Sorted (desc key) l -> Sorted (desc key) (insert key x l).
Proof.
  induction l as [|y r IH]; intros Hs; simpl; [repeat constructor|].
  apply Sorted_inv in Hs as [Hr Hh].
  destruct (comparefn key x y) eqn:E.
  - constructor; [constructor; auto | constructor].
    unfold desc. apply Qnot_lt_le. rewrite <- comparefn_Gt. congruence.
  - constructor; [constructor; auto | constructor].
    unfold desc. apply Qnot_lt_le. rewrite <- comparefn_Gt. congruence.
  - apply comparefn_Gt in E. constructor; [now apply IH|].
    apply insert_HdRel; [exact Hh | now apply Qlt_le_weak].
Qed.

Lemma sort_sorted (l : list A) : Sorted (desc key) (sort key l).
Proof. induction l as [|x r IH]; simpl; [constructor | now apply insert_sorted]. Qed.

(** *** Stability *)

Lemma Qeq_bool_both_lt (a b k : Q) :
  a < b -> Qeq_bool a k = true -> Qeq_bool b k = true -> False.
Proof.
  intros Hlt Ha Hb. apply Qeq_bool_iff in Ha, Hb.
  rewrite Ha, Hb in Hlt. exact (Qlt_irrefl k Hlt).
Qed.

(** The inserted element goes before the elements of its own key. *)
Lemma insert_class (k : Q) (x : A) (l : list A) :
  key_class key k (insert key x l)
  = if Qeq_bool (key x) k then x :: key_class key k l else key_class key k l.
Proof.
  induction l as [|y r IH]; cbn [insert]; [reflexivity|].
  destruct (comparefn key x y) eqn:E; try reflexivity.
  apply comparefn_Gt in E. rewrite key_class_cons, IH, key_class_cons.
  destruct (Qeq_bool (key x) k) eqn:Ex, (Qeq_bool (key y) k) eqn:Ey; try reflexivity.
  exfalso. exact (Qeq_bool_both_lt _ _ _ E Ex Ey).
Qed.

Lemma sort_stable (k : Q) (l : list A) : key_class key k (sort key l) = key_class key k l.
Proof.
  induction l as [|x r IH]; cbn [sort]; [reflexivity|].
  now rewrite insert_class, IH, key_class_cons.
Qed.

(** *** Uniqueness *)

Lemma sorted_head_max (x z : A) (l : list A) :
  Sorted (desc key) (x :: l) -> In z (x :: l) -> key z <= key x.
Proof.
  intros Hs Hz. apply Sorted_StronglySorted in Hs; [|exact desc_trans].
  apply StronglySorted_inv in Hs as [_ Hf].
  destruct Hz as [<-|Hz]; [apply Qle_refl|].
  rewrite Forall_forall in Hf. exact (Hf z Hz).
Qed.

Lemma class_head (x : A) (l : list A) : key_class key (key x) (x :: l) <> [].
Proof. rewrite key_class_cons, Qeq_bool_refl. discriminate. Qed.

(** Two lists sorted by decreasing key with the same key classes are
    equal. *)
Lemma classes_eq_sorted (l1 l2 : list A) :
  Sorted (desc key) l1 -> Sorted (desc key) l2 ->
  (forall k, key_class key k l1 = key_class key k l2) -> l1 = l2.
Proof.
  revert l2. induction l1 as [|x r1 IH]; intros l2 H1 H2 Hc.
  - destruct l2 as [|y r2]; [reflexivity|].
    exfalso. apply (class_head y r2). now rewrite <- Hc.
  - destruct l2 as [|y r2]; [exfalso; apply (class_head x r1); now rewrite Hc|].
    assert (Hxy : key x == key y).
    { apply Qle_antisym.
      - apply (sorted_head_max y x r2 H2).
        apply (proj1 (key_class_In (key x) x (y :: r2))). rewrite <- Hc.
        apply key_class_In. split; [now left | apply Qeq_refl].
      - apply (sorted_head_max x y r1 H1).
        apply (proj1 (key_class_In (key y) y (x :: r1))). rewrite Hc.
        apply key_class_In. split; [now left | apply Qeq_refl]. }
    pose proof (Hc (key x)) as Hx.
    rewrite !key_class_cons, Qeq_bool_refl in Hx.
    replace (Qeq_bool (key y) (key x)) with true in Hx
      by (symmetry; apply Qeq_bool_iff, Qeq_sym, Hxy).
    injection Hx as <- _. f_equal.
    apply IH; [now apply Sorted_inv in H1 | now apply Sorted_inv in H2|].
    intros k. specialize (Hc k). rewrite !key_class_cons in Hc.
    destruct (Qeq_bool (key x) k); [now injection Hc | exact Hc].
Qed.


Lemma StronglySorted_app_rel {B : Type} (R : B -> B -> Prop) (l1 l2 : list B) (t u : B) :
  StronglySorted R (l1 ++ l2) -> In t l1 -> In u l2 -> R t u.
Proof.
  induction l1 as [|x r IH]; simpl; [tauto|].
  intros Hs [<-|Ht] Hu; apply StronglySorted_inv in Hs as [Hs Hf]; [|now apply IH].
  rewrite Forall_forall in Hf. apply Hf, in_or_app. now right.
Qed.

(** Cutting the sorted list anywhere leaves no larger key behind. *)
Lemma sort_cut_bound (n : nat) (l : list A) (t u : A) :
  In t (firstn n (sort key l)) -> In u (skipn n (sort key l)) -> key u <= key t.
Proof.
  intros Ht Hu. pose proof (sort_sorted l) as Hs.
  apply Sorted_StronglySorted in Hs; [|exact desc_trans].
  rewrite <- (firstn_skipn n (sort key l)) in Hs.
  exact (StronglySorted_app_rel _ _ _ _ _ Hs Ht Hu).
Qed.

End Properties.

(** ** The sort meets the specification, and nothing else does *)

(** C18: [sort] returns an ordering by decreasing key that keeps equal keys
    in their original order, a permutation of its input. *)
Theorem sort_spec {A : Type} (key : A -> Q) (l : list A) :
  stable_sorted key l (sort key l) /\ Permutation (sort key l) l.
Proof.
  split; [split; [apply (sort_sorted key) | intros k; apply (sort_stable key)] | apply (sort_perm key)].
Qed.

(** C17: Every result ECMAScript allows for [l.sort((a, b) => key(b) - key(a))]
    is [sort key l]: the insertion sort refines any stable sort. *)
Theorem sort_unique {A : Type} (key : A -> Q) (l l' : list A) :
  stable_sorted key l l' -> l' = sort key l.
Proof.
  intros [Hs Hc]. apply (classes_eq_sorted key); [exact Hs | apply (sort_sorted key)|].
  intros k. now rewrite Hc, (sort_stable key).
Qed.

(** Tokens by (id, value): the two of value 1 keep their order. *)
Lemma sort_unique_witness :
  [(2%nat, 3 # 1); (1%nat, 1 # 1); (3%nat, 1 # 1)]
  = sort snd [(1%nat, 1 # 1); (2%nat, 3 # 1); (3%nat, 1 # 1)].
Proof.
  apply sort_unique. split.
  - repeat constructor; unfold desc; cbn [snd]; vm_compute; discriminate.
  - intros k. unfold key_class. cbn [filter snd].
    destruct (Qeq_bool (1 # 1) k) eqn:E1, (Qeq_bool (3 # 1) k) eqn:E3; try reflexivity.
    apply Qeq_bool_iff in E1, E3. rewrite <- E3 in E1. discriminate E1.
Defined.

End JsSort.
