(* ===== verification/Portfolio.v ===== *)
(** * formatPortfolioData (src/dist/index.js, lines 44-94)

    The Zapper portfolio payload as records with the fields the GraphQL
    query of lines 136-170 selects, and [formatPortfolioData] as a
    function from the parsed response to the report text or the
    [TypeError] the code raises when [data.data] or [data.portfolio] is
    [null].  The token and network sorts are [JsSort.sort]; numbers are
    printed by [NumberFormat]. *)

From Stdlib Require Import String Ascii List QArith Lia Permutation Sorted Bool.
From S2P Require Import Prelude JsString NumberFormat JsSort.
Import ListNotations.
Local Open Scope zap_scope.

Module Portfolio.

(** ** The payload *)

Record BaseToken := mkBaseToken { name : string; symbol : string }.

Record Token := mkToken { balance : Q; balanceUSD : Q; baseToken : BaseToken }.

(** [tokenBalances[i]]: [address], [network], [token]. *)
Record TokenBalance := mkTokenBalance {
  tb_address : string; tb_network : string; token : Token }.

(** [nftBalances[i]]: [network], [balanceUSD]. *)
Record NftBalance := mkNftBalance { nft_network : string; nft_balanceUSD : Q }.

(** [totals.totalByNetwork[i]]: [network], [total]. *)
Record NetworkTotal := mkNetworkTotal { net_network : string; net_total : Q }.

(** [totals.holdings[i]]: queried, not used by the formatter. *)
Record Holding := mkHolding { label : string; h_balanceUSD : Q; pct : Q }.

Record Totals := mkTotals {
  total : Q; totalWithNFT : Q;
  totalByNetwork : list NetworkTotal; holdings : list Holding }.

Record Portfolio := mkPortfolio {
  tokenBalances : list TokenBalance;
  nftBalances : list NftBalance;
  totals : Totals }.

(** [data.data]: the [portfolio] field, [null] when absent. *)
Record PortfolioData := mkPortfolioData { portfolio : option Portfolio }.

Definition response := gql_response PortfolioData.

(** ** The formatter *)

Definition token_usd (b : TokenBalance) : Q := balanceUSD (token b).

(** [tokenBalances.sort((a, b) => b.token.balanceUSD - a.token.balanceUSD).slice(0, 5)] *)
Definition top_tokens (p : Portfolio) : list TokenBalance :=
  firstn 5 (JsSort.sort token_usd (tokenBalances p)).

(** One entry of the token section (lines 47-57). *)
Definition token_line (b : TokenBalance) : string :=
  name (baseToken (token b)) <+> " (" <+> symbol (baseToken (token b)) <+> ")"
  <+> nl <+> "Network: " <+> tb_network b
  <+> nl <+> "Balance: " <+> NumberFormat.format_decimal (balance (token b))
  <+> nl <+> "Value: " <+> NumberFormat.format_currency (balanceUSD (token b)).

Definition token_section (p : Portfolio) : string :=
  JsString.join nl (map token_line (top_tokens p)).

(** One entry of the NFT section (lines 59-66). *)
Definition nft_line (n : NftBalance) : string :=
  nft_network n <+> nl <+> "NFT Value: " <+> NumberFormat.format_currency (nft_balanceUSD n).

Definition nft_section (p : Portfolio) : string :=
  JsString.join nl (map nft_line (nftBalances p)).

(** [net.total > 0] *)
Definition positive_total (n : NetworkTotal) : bool := negb (Qle_bool (net_total n) 0).

(** [totalByNetwork.filter(net => net.total > 0).sort((a, b) => b.total - a.total)] *)
Definition network_entries (p : Portfolio) : list NetworkTotal :=
  JsSort.sort net_total (filter positive_total (totalByNetwork (totals p))).

Definition network_line (n : NetworkTotal) : string :=
  net_network n <+> ": " <+> NumberFormat.format_currency (net_total n).

Definition network_section (p : Portfolio) : string :=
  JsString.join nl (map network_line (network_entries p)).

Definition emoji_money_bag : string := utf8 [240; 159; 146; 176]%nat.
Definition emoji_globe : string := utf8 [240; 159; 140; 144]%nat.
Definition emoji_coin : string := utf8 [240; 159; 170; 153]%nat.
Definition emoji_palette : string := utf8 [240; 159; 142; 168]%nat.

(** Eight spaces: the blank-looking lines of the template. *)
Definition pad8 : string := "        ".

(** The template literal of lines 82-93. *)
Definition render (p : Portfolio) : string :=
  emoji_money_bag <+> " Portfolio Summary:"
  <+> nl <+> "Total Value (excluding NFTs): " <+> NumberFormat.format_currency (total (totals p))
  <+> nl <+> "Total Value (including NFTs): " <+> NumberFormat.format_currency (totalWithNFT (totals p))
  <+> nl <+> pad8
  <+> nl <+> emoji_globe <+> " Network Breakdown:"
  <+> nl <+> network_section p
  <+> nl <+> pad8
  <+> nl <+> emoji_coin <+> " Top Token Holdings:"
  <+> nl <+> token_section p
  <+> nl <+> pad8
  <+> nl <+> emoji_palette <+> " NFT Holdings:"
  <+> nl <+> nft_section p.

(** [formatPortfolioData(data)]: [data.data.portfolio] throws when
    [data.data] is null, and [portfolio.tokenBalances] when the portfolio
    is. *)
Definition formatPortfolioData (data : response) : result string :=
  match gql_data data with
  | None => throw (TypeError "portfolio")
  | Some d =>
      match portfolio d with
      | None => throw (TypeError "tokenBalances")
      | Some p => ok (render p)
      end
  end.

(** ** Reading the report by lines *)

Definition nl_char : ascii := ascii_of_nat 10.

(** [s.split("\n")] *)
Definition lines (s : string) : list string := JsString.split nl_char s.

Definition no_nl (s : string) : bool := negb (JsString.has_char nl_char s).

(** The payload's texts that the report prints verbatim are single lines. *)
Definition single_line_texts (p : Portfolio) : bool :=
  forallb (fun b => no_nl (name (baseToken (token b))) && no_nl (symbol (baseToken (token b)))
                    && no_nl (tb_network b)) (tokenBalances p)
  && forallb (fun n => no_nl (nft_network n)) (nftBalances p)
  && forallb (fun n => no_nl (net_network n)) (totalByNetwork (totals p)).

(** The four lines of a token entry. *)
Definition token_lines (b : TokenBalance) : list string :=
  [name (baseToken (token b)) <+> " (" <+> symbol (baseToken (token b)) <+> ")";
   "Network: " <+> tb_network b;
   "Balance: " <+> NumberFormat.format_decimal (balance (token b));
   "Value: " <+> NumberFormat.format_currency (balanceUSD (token b))].

(** The two lines of an NFT entry. *)
Definition nft_lines (n : NftBalance) : list string :=
  [nft_network n; "NFT Value: " <+> NumberFormat.format_currency (nft_balanceUSD n)].

(** The lines of a section: one empty line when it has no entry. *)
Definition section_lines (entries : list (list string)) : list string :=
  match entries with [] => [EmptyString] | _ => concat entries end.

(** ** Lemmas *)

Lemma nl_is_char : nl = String nl_char EmptyString.
Proof. reflexivity. Qed.

Lemma no_nl_app (a b : string) : no_nl (a <+> b) = no_nl a && no_nl b.
Proof. unfold no_nl. now rewrite JsString.has_char_app, negb_orb. Qed.

Lemma currency_no_nl (q : Q) : no_nl (NumberFormat.format_currency q) = true.
Proof. unfold no_nl. now rewrite NumberFormat.format_currency_no_char. Qed.

Lemma decimal_no_nl (q : Q) : no_nl (NumberFormat.format_decimal q) = true.
Proof. unfold no_nl. now rewrite NumberFormat.format_decimal_no_char. Qed.

#[export] Hint Rewrite no_nl_app currency_no_nl decimal_no_nl : zap.

(** Close a goal [no_nl s = true] from the single-line facts at hand. *)
Ltac no_nl_solve :=
  autorewrite with zap;
  repeat match goal with H : no_nl ?x = true |- context [no_nl ?x] => rewrite H end;
  reflexivity.

Lemma lines_single (x : string) : no_nl x = true -> lines x = [x].
Proof. unfold no_nl, lines. intros H. apply JsString.split_no_sep. now apply negb_true_iff. Qed.

Lemma lines_join (xs : list string) :
  lines (JsString.join nl xs) = match xs with [] => [EmptyString] | _ => concat (map lines xs) end.
Proof. unfold lines. rewrite nl_is_char. apply JsString.split_join_concat. Qed.

(** The lines of a section built by [map(...).join("\n")]. *)
Lemma lines_section {E : Type} (f : E -> string) (g : E -> list string) (es : list E) :
  (forall e, In e es -> lines (f e) = g e) ->
  lines (JsString.join nl (map f es)) = section_lines (map g es).
Proof.
  intros H. rewrite lines_join. destruct es as [|e es]; [reflexivity|].
  change (concat (map lines (map f (e :: es))) = concat (map g (e :: es))).
  rewrite map_map. f_equal. apply map_ext_in. intros x Hx. now apply H.
Qed.

Lemma token_line_join (b : TokenBalance) : token_line b = JsString.join nl (token_lines b).
Proof. unfold token_line, token_lines. cbn [JsString.join]. rewrite ?append_assoc_str; reflexivity. Qed.

Lemma nft_line_join (n : NftBalance) : nft_line n = JsString.join nl (nft_lines n).
Proof. unfold nft_line, nft_lines. cbn [JsString.join]. rewrite ?append_assoc_str; reflexivity. Qed.

Lemma token_line_lines (b : TokenBalance) :
  no_nl (name (baseToken (token b))) && no_nl (symbol (baseToken (token b))) && no_nl (tb_network b) = true ->
  lines (token_line b) = token_lines b.
Proof.
  intros H. apply andb_true_iff in H as [H H3]. apply andb_true_iff in H as [H1 H2].
  rewrite token_line_join, lines_join. unfold token_lines. cbn [map concat app].
  rewrite !lines_single by no_nl_solve. reflexivity.
Qed.

Lemma nft_line_lines (n : NftBalance) :
  no_nl (nft_network n) = true -> lines (nft_line n) = nft_lines n.
Proof.
  intros H. rewrite nft_line_join, lines_join. unfold nft_lines. cbn [map concat app].
  rewrite !lines_single by no_nl_solve. reflexivity.
Qed.

Lemma in_firstn_in {E : Type} (n : nat) (x : E) (l : list E) : In x (firstn n l) -> In x l.
Proof. intros H. rewrite <- (firstn_skipn n l). apply in_or_app. now left. Qed.

Lemma top_tokens_incl (p : Portfolio) (b : TokenBalance) :
  In b (top_tokens p) -> In b (tokenBalances p).
Proof.
  intros H. apply in_firstn_in in H.
  exact (Permutation_in _ (JsSort.sort_perm token_usd _) H).
Qed.

Lemma network_entries_incl (p : Portfolio) (n : NetworkTotal) :
  In n (network_entries p) -> In n (totalByNetwork (totals p)) /\ positive_total n = true.
Proof.
  intros H. apply (Permutation_in _ (JsSort.sort_perm net_total _)) in H.
  now apply filter_In in H.
Qed.

Lemma render_join (p : Portfolio) :
  render p = JsString.join nl
    [emoji_money_bag <+> " Portfolio Summary:";
     "Total Value (excluding NFTs): " <+> NumberFormat.format_currency (total (totals p));
     "Total Value (including NFTs): " <+> NumberFormat.format_currency (totalWithNFT (totals p));
     pad8; emoji_globe <+> " Network Breakdown:"; network_section p;
     pad8; emoji_coin <+> " Top Token Holdings:"; token_section p;
     pad8; emoji_palette <+> " NFT Holdings:"; nft_section p].
Proof. unfold render. cbn [JsString.join]. rewrite ?append_assoc_str; reflexivity. Qed.

Lemma StronglySorted_app_l {E : Type} (R : E -> E -> Prop) (l1 l2 : list E) :
  StronglySorted R (l1 ++ l2) -> StronglySorted R l1.
Proof.
  induction l1 as [|x r IH]; simpl; intros H; [constructor|].
  apply StronglySorted_inv in H as [H Hf]. constructor; [now apply IH|].
  rewrite Forall_forall in *. intros y Hy. apply Hf, in_or_app. now left.
Qed.

Lemma positive_total_iff (n : NetworkTotal) : positive_total n = true <-> 0 < net_total n.
Proof.
  unfold positive_total. rewrite negb_true_iff. split; intros H.
  - apply Qnot_le_lt. intros Hle. apply Qle_bool_iff in Hle. congruence.
  - destruct (Qle_bool (net_total n) 0) eqn:E; [|reflexivity].
    apply Qle_bool_iff in E. exfalso. exact (Qlt_not_le _ _ H E).
Qed.

(** ** Theorems *)

(** C15: The report, read line by line: the fixed header and totals, one
    line per positive network total, four lines per top token, two lines
    per NFT balance, in this order; an empty section is one empty line. *)
Theorem report_lines (p : Portfolio) :
  single_line_texts p = true ->
  lines (render p) =
    [emoji_money_bag <+> " Portfolio Summary:";
     "Total Value (excluding NFTs): " <+> NumberFormat.format_currency (total (totals p));
     "Total Value (including NFTs): " <+> NumberFormat.format_currency (totalWithNFT (totals p));
     pad8; emoji_globe <+> " Network Breakdown:"]
    ++ section_lines (map (fun n => [network_line n]) (network_entries p))
    ++ [pad8; emoji_coin <+> " Top Token Holdings:"]
    ++ section_lines (map token_lines (top_tokens p))
    ++ [pad8; emoji_palette <+> " NFT Holdings:"]
    ++ section_lines (map nft_lines (nftBalances p)).
Proof.
  intros H. unfold single_line_texts in H. rewrite !andb_true_iff in H.
  destruct H as [[Ht Hn] Hw]. rewrite forallb_forall in Ht, Hn, Hw.
  rewrite render_join, lines_join. cbn [map concat app].
  unfold network_section, token_section, nft_section.
  rewrite (lines_section network_line (fun n => [network_line n])).
  2: { intros e He. apply lines_single. destruct (network_entries_incl p e He) as [Hin _].
       specialize (Hw e Hin). unfold network_line. no_nl_solve. }
  rewrite (lines_section token_line token_lines)
    by (intros e He; apply token_line_lines, Ht, top_tokens_incl, He).
  rewrite (lines_section nft_line nft_lines)
    by (intros e He; apply nft_line_lines, Hn, He).
  rewrite !lines_single by no_nl_solve. now rewrite app_nil_r.
Qed.

(** C32: The token section has five entries, or all of them when there are
    fewer. *)
Theorem top_tokens_length (p : Portfolio) :
  length (top_tokens p) = Nat.min 5 (length (tokenBalances p)).
Proof.
  unfold top_tokens. rewrite length_firstn, (Permutation_length (JsSort.sort_perm token_usd _)).
  reflexivity.
Qed.

(** C16: The top tokens are in decreasing USD order, and no token left out
    is worth more than one shown. *)
Theorem top_tokens_greatest (p : Portfolio) :
  let rest := skipn 5 (JsSort.sort token_usd (tokenBalances p)) in
  Sorted (JsSort.desc token_usd) (top_tokens p)
  /\ Permutation (top_tokens p ++ rest) (tokenBalances p)
  /\ (forall t u, In t (top_tokens p) -> In u rest -> token_usd u <= token_usd t).
Proof.
  intros rest. split; [|split].
  - apply StronglySorted_Sorted. apply (StronglySorted_app_l _ _ rest).
    unfold top_tokens, rest. rewrite firstn_skipn.
    apply Sorted_StronglySorted; [apply JsSort.desc_trans | apply JsSort.sort_sorted].
  - unfold top_tokens, rest. rewrite firstn_skipn. apply JsSort.sort_perm.
  - intros t u Ht Hu. exact (JsSort.sort_cut_bound token_usd 5 _ t u Ht Hu).
Qed.

(** C33: The network breakdown lists exactly the networks with a positive
    total, in decreasing order of total. *)
Theorem network_entries_spec (p : Portfolio) :
  Sorted (JsSort.desc net_total) (network_entries p)
  /\ Permutation (network_entries p) (filter positive_total (totalByNetwork (totals p)))
  /\ (forall n, In n (network_entries p) <-> In n (totalByNetwork (totals p)) /\ 0 < net_total n).
Proof.
  split; [apply JsSort.sort_sorted | split; [apply JsSort.sort_perm|]].
  intros n. unfold network_entries.
  rewrite <- positive_total_iff, <- filter_In.
  split; apply Permutation_in; [|symmetry]; apply JsSort.sort_perm.
Qed.

(** ** The example of the specification *)

Definition example_portfolio : Portfolio :=
  {| tokenBalances :=
       [{| tb_address := "0xabc"; tb_network := "ETHEREUM_MAINNET";
           token := {| balance := 2 # 5; balanceUSD := 100;
                       baseToken := {| name := "Ether"; symbol := "ETH" |} |} |}];
     nftBalances := [];
     totals := {| total := 100; totalWithNFT := 100;
                  totalByNetwork := [{| net_network := "ETHEREUM_MAINNET"; net_total := 100 |}];
                  holdings := [] |} |}.

(** The end-to-end example of the specification: one token worth $100
    and a total of $100; the report has the total line and the token's
    value line. *)
Lemma report_lines_example :
  In "Total Value (excluding NFTs): $100.00"%string (lines (render example_portfolio))
  /\ In "Value: $100.00"%string (lines (render example_portfolio)).
Proof.
  rewrite (report_lines example_portfolio eq_refl).
  split; vm_compute; repeat (first [left; reflexivity | right]).
Defined.

End Portfolio.
