(* ===== verification/Farcaster.v ===== *)
(** * formatFarcasterData (src/dist/index.js, lines 95-102)

    The Farcaster profile payload of the query of lines 282-297, and the
    formatter that collects its wallet addresses:
    [[...profile?.connectedAddresses || [], profile?.custodyAddress].filter(Boolean)].
    JSON [null] and an absent field are both [None]; [filter(Boolean)]
    drops them and the empty string. *)

From Stdlib Require Import String List Bool ZArith.
From S2P Require Import Prelude.
Import ListNotations.
Local Open Scope zap_scope.

Module Farcaster.

Record Metadata := mkMetadata {
  displayName : option string; description : option string;
  imageUrl : option string; warpcast : option string }.

Record FarcasterProfile := mkFarcasterProfile {
  username : option string;
  fid : option Z;
  metadata : option Metadata;
  connectedAddresses : option (list (option string));
  custodyAddress : option string }.

(** [data.data]: the [farcasterProfile] field. *)
Record FarcasterData := mkFarcasterData { farcasterProfile : option FarcasterProfile }.

Definition response := gql_response FarcasterData.

(** [Boolean(x)] for a string or [null]. *)
Definition truthy (o : option string) : bool :=
  match o with
  | Some s => negb (String.eqb s EmptyString)
  | None => false
  end.

(** [xs.filter(Boolean)]: the truthy elements, as strings. *)
Fixpoint filter_boolean (xs : list (option string)) : list string :=
  match xs with
  | [] => []
  | Some s :: r => if String.eqb s EmptyString then filter_boolean r else s :: filter_boolean r
  | None :: r => filter_boolean r
  end.

(** The value returned: [{ addresses: allAddresses }]. *)
Record FarcasterAddresses := mkFarcasterAddresses { addresses : list string }.

(** [formatFarcasterData(data)] *)
Definition formatFarcasterData (data : response) : FarcasterAddresses :=
  let profile := match gql_data data with
                 | Some d => farcasterProfile d
                 | None => None
                 end in
  let connected := match profile with
                   | Some pr => match connectedAddresses pr with Some l => l | None => [] end
                   | None => []
                   end in
  let custody := match profile with Some pr => custodyAddress pr | None => None end in
  {| addresses := filter_boolean (connected ++ [custody]) |}.

(** ** Theorems *)

Lemma filter_boolean_app (xs ys : list (option string)) :
  filter_boolean (xs ++ ys) = filter_boolean xs ++ filter_boolean ys.
Proof.
  induction xs as [|[s|] xs IH]; simpl; [reflexivity | | exact IH].
  destruct (String.eqb s EmptyString); [exact IH | now rewrite IH].
Qed.

Lemma filter_boolean_In (a : string) (xs : list (option string)) :
  In a (filter_boolean xs) <-> In (Some a) xs /\ a <> EmptyString.
Proof.
  induction xs as [|[s|] xs IH]; simpl; [tauto| |].
  - destruct (String.eqb s EmptyString) eqn:E.
    + apply String.eqb_eq in E. subst. rewrite IH.
      split; [tauto|]. intros [[H|H] Hne]; [congruence | tauto].
    + apply String.eqb_neq in E. simpl. rewrite IH.
      split; [intros [<-|[H1 H2]]; split; auto | intros [[H|H] Hne]; [left; congruence | right; auto]].
  - rewrite IH. split; [tauto|]. intros [[H|H] Hne]; [discriminate | tauto].
Qed.

(** C30: The addresses are the non-empty connected addresses, in order,
    followed by the custody address when it is present and non-empty;
    with no data or no profile the list is empty and nothing is thrown. *)
Theorem formatFarcasterData_spec (data : response) :
  addresses (formatFarcasterData data) =
  match gql_data data with
  | Some {| farcasterProfile := Some pr |} =>
      filter_boolean (match connectedAddresses pr with Some l => l | None => [] end)
      ++ (if truthy (custodyAddress pr) then
            match custodyAddress pr with Some c => [c] | None => [] end else [])
  | _ => []
  end.
Proof.
  unfold formatFarcasterData. destruct (gql_data data) as [[[pr|]]|]; simpl; try reflexivity.
  rewrite filter_boolean_app. f_equal.
  destruct (custodyAddress pr) as [c|]; simpl; [|reflexivity].
  destruct (String.eqb c EmptyString); reflexivity.
Qed.

(** Every returned address is a non-empty string of the profile. *)
Theorem formatFarcasterData_In (data : response) (a : string) :
  In a (addresses (formatFarcasterData data)) <->
  a <> EmptyString /\
  exists pr, gql_data data = Some {| farcasterProfile := Some pr |}
    /\ (In (Some a) (match connectedAddresses pr with Some l => l | None => [] end)
        \/ custodyAddress pr = Some a).
Proof.
  unfold formatFarcasterData. cbv zeta. cbn [addresses].
  rewrite filter_boolean_In, in_app_iff.
  destruct (gql_data data) as [[[pr|]]|]; simpl.
  - split.
    + intros [H Hne]. split; [exact Hne|]. exists pr. split; [reflexivity|]. intuition congruence.
    + intros [Hne (pr' & E & H)]. injection E as <-. intuition congruence.
  - split; [intuition discriminate|]. intros [_ (pr & E & _)]. discriminate.
  - split; [intuition discriminate|]. intros [_ (pr & E & _)]. discriminate.
Qed.

(** The examples of the specification. *)
Example formatFarcasterData_example :
  addresses (formatFarcasterData
    {| gql_data := Some {| farcasterProfile := Some
         {| username := Some "vitalik.eth"%string; fid := None; metadata := None;
            connectedAddresses := Some [Some "0xA"; Some "0xB"]%string;
            custodyAddress := Some "0xC"%string |} |};
       gql_errors := None |}) = ["0xA"; "0xB"; "0xC"]%string
  /\ addresses (formatFarcasterData {| gql_data := Some {| farcasterProfile := None |};
                                       gql_errors := None |}) = [].
Proof. split; reflexivity. Qed.

End Farcaster.
