(* ===== verification/Base64.v ===== *)
(** * getZapperHeaders and btoa (src/dist/index.js, lines 37-43)

    [getZapperHeaders(config)] returns the two request headers; the API key
    is encoded by the host's [btoa].  [btoa] reads its argument as a
    sequence of UTF-16 code units and throws an [InvalidCharacterError]
    [DOMException] when one exceeds 0xFF; otherwise it base64-encodes
    those units as bytes (RFC 4648, with [=] padding).  On the UTF-8 model
    of strings this is [latin1_of_utf8] (which fails exactly on the code
    points above U+00FF of a well-formed string) followed by
    [b64_encode], written with the shifts and masks of the usual
    implementation.  [b64_decode] ([atob]) is the inverse used to state
    what the header carries. *)

From Stdlib Require Import String Ascii List ZArith Lia Bool.
From S2P Require Import Prelude.
Import ListNotations.
Local Open Scope zap_scope.

Module Base64.

(** ** Latin-1 code units of a UTF-8 string *)

(** One byte below 0x80 is U+0000..U+007F; a lead byte 0xC2 or 0xC3 with
    one continuation byte is U+0080..U+00FF; anything else is a code
    point above U+00FF, which [btoa] rejects. *)
Fixpoint latin1_of_utf8 (l : list ascii) : option (list Z) :=
  match l with
  | [] => Some []
  | c :: r =>
      let n := nat_of_ascii c in
      if n <? 128 then option_map (cons (Z.of_nat n)) (latin1_of_utf8 r)
      else if (n =? 194) || (n =? 195) then
        match r with
        | c2 :: r' =>
            let m := nat_of_ascii c2 in
            if (128 <=? m) && (m <? 192)
            then option_map (cons (Z.of_nat ((n - 192) * 64 + (m - 128)))) (latin1_of_utf8 r')
            else None
        | [] => None
        end
      else None
  end.

(** The UTF-8 encoding of Latin-1 code units. *)
Fixpoint utf8_of_latin1 (bs : list Z) : list ascii :=
  match bs with
  | [] => []
  | b :: r =>
      if (b <? 128)%Z then ascii_of_nat (Z.to_nat b) :: utf8_of_latin1 r
      else ascii_of_nat (192 + Z.to_nat (b / 64)) :: ascii_of_nat (128 + Z.to_nat (b mod 64))
           :: utf8_of_latin1 r
  end.

(** ** Base64 *)

Definition alphabet : string :=
  "ABCDEFGHIJKLMNOPQRSTUVWXYZabcdefghijklmnopqrstuvwxyz0123456789+/".

(** The character of a six-bit value. *)
Definition b64_char (i : Z) : ascii :=
  match String.get (Z.to_nat i) alphabet with Some c => c | None => "="%char end.

(** Three bytes to four characters, a final pair or single byte padded. *)
Fixpoint b64_encode (bs : list Z) : list ascii :=
  match bs with
  | a :: b :: c :: r =>
      let n := Z.lor (Z.shiftl a 16) (Z.lor (Z.shiftl b 8) c) in
      b64_char (Z.shiftr n 18) :: b64_char (Z.land (Z.shiftr n 12) 63)
      :: b64_char (Z.land (Z.shiftr n 6) 63) :: b64_char (Z.land n 63) :: b64_encode r
  | [a; b] =>
      let n := Z.lor (Z.shiftl a 16) (Z.shiftl b 8) in
      [b64_char (Z.shiftr n 18); b64_char (Z.land (Z.shiftr n 12) 63);
       b64_char (Z.land (Z.shiftr n 6) 63); "="%char]
  | [a] =>
      let n := Z.shiftl a 16 in
      [b64_char (Z.shiftr n 18); b64_char (Z.land (Z.shiftr n 12) 63); "="%char; "="%char]
  | [] => []
  end.

(** [btoa(s)] *)
Definition btoa (s : string) : result string :=
  match latin1_of_utf8 (list_ascii_of_string s) with
  | Some bs => ok (string_of_list_ascii (b64_encode bs))
  | None => throw InvalidCharacterError
  end.

(** The six-bit value of a character of the alphabet. *)
Fixpoint index_of (c : ascii) (s : string) (i : Z) : option Z :=
  match s with
  | EmptyString => None
  | String d r => if Ascii.eqb c d then Some i else index_of c r (i + 1)
  end.

Definition b64_index (c : ascii) : option Z := index_of c alphabet 0.

(** The three bytes of a group of four characters. *)
Definition decode_group (i0 i1 i2 i3 : Z) : list Z :=
  [Z.lor (Z.shiftl i0 2) (Z.shiftr i1 4);
   Z.lor (Z.shiftl (Z.land i1 15) 4) (Z.shiftr i2 2);
   Z.lor (Z.shiftl (Z.land i2 3) 6) i3].

(** [atob] on well-formed input: groups of four characters, the last one
    padded with one or two [=]. *)
Fixpoint b64_decode (l : list ascii) : option (list Z) :=
  match l with
  | [] => Some []
  | c0 :: c1 :: c2 :: c3 :: r =>
      match b64_index c0, b64_index c1 with
      | Some i0, Some i1 =>
          if Ascii.eqb c3 "=" && match r with [] => true | _ => false end then
            if Ascii.eqb c2 "=" then Some (firstn 1 (decode_group i0 i1 0 0))
            else match b64_index c2 with
                 | Some i2 => Some (firstn 2 (decode_group i0 i1 i2 0))
                 | None => None
                 end
          else match b64_index c2, b64_index c3, b64_decode r with
               | Some i2, Some i3, Some rest => Some (decode_group i0 i1 i2 i3 ++ rest)
               | _, _, _ => None
               end
      | _, _ => None
      end
  | _ => None
  end.

(** ** getZapperHeaders *)

Record ZapperConfig := mkZapperConfig { ZAPPER_API_KEY : string }.

(** The object literal of lines 39-42, in insertion order. *)
Definition getZapperHeaders (config : ZapperConfig) : result (list (string * string)) :=
  let? encodedKey := btoa (ZAPPER_API_KEY config) in
  ok [("Content-Type", "application/json"); ("Authorization", "Basic " <+> encodedKey)]%string.


(** ** Lemmas *)

Definition is_byte (b : Z) : Prop := (0 <= b < 256)%Z.

(** Or-ing a value into the zero low bits of a shifted one adds it. *)
Lemma lor_shiftl_add (a b k : Z) :
  (0 <= k)%Z -> (0 <= b < 2 ^ k)%Z -> Z.lor (Z.shiftl a k) b = (a * 2 ^ k + b)%Z.
Proof.
  intros Hk Hb. rewrite Z.shiftl_mul_pow2 by exact Hk.
  assert (H0 : Z.land (a * 2 ^ k) b = 0%Z).
  { apply Z.bits_inj'. intros i Hi. rewrite Z.land_spec, Z.testbit_0_l.
    destruct (Z.lt_ge_cases i k) as [Hlt|Hge].
    - rewrite <- Z.shiftl_mul_pow2 by exact Hk. now rewrite Z.shiftl_spec_low.
    - destruct (Z.eq_dec b 0) as [->|Hnz]; [now rewrite Z.testbit_0_l, andb_false_r|].
      assert (Hl : (Z.log2 b < k)%Z) by (apply Z.log2_lt_pow2; lia).
      rewrite (Z.bits_above_log2 b i) by lia. now rewrite andb_false_r. }
  rewrite <- Z.lxor_lor, <- Z.add_nocarry_lxor by exact H0. reflexivity.
Qed.

Lemma b64_char_index (i : Z) :
  (0 <= i < 64)%Z -> b64_index (b64_char i) = Some i /\ Ascii.eqb (b64_char i) "=" = false.
Proof.
  intros Hi. rewrite <- (Z2Nat.id i) by lia.
  assert (Hk : (Z.to_nat i < 64)%nat) by lia. generalize (Z.to_nat i) Hk. clear.
  intros k Hk. do 64 (destruct k as [|k]; [split; reflexivity|]). lia.
Qed.

Lemma land63 (x : Z) : Z.land x 63 = (x mod 64)%Z.
Proof. exact (Z.land_ones x 6 ltac:(lia)). Qed.

Lemma land15 (x : Z) : Z.land x 15 = (x mod 16)%Z.
Proof. exact (Z.land_ones x 4 ltac:(lia)). Qed.

Lemma land3 (x : Z) : Z.land x 3 = (x mod 4)%Z.
Proof. exact (Z.land_ones x 2 ltac:(lia)). Qed.

(** The 24-bit value the shifts and ors build from three bytes. *)
Lemma group_value (a b c : Z) :
  is_byte a -> is_byte b -> is_byte c ->
  Z.lor (Z.shiftl a 16) (Z.lor (Z.shiftl b 8) c) = (a * 65536 + b * 256 + c)%Z.
Proof.
  unfold is_byte. intros Ha Hb Hc.
  rewrite (lor_shiftl_add b c 8), (lor_shiftl_add a (b * 2 ^ 8 + c) 16); cbn; lia.
Qed.

(** The four characters of three bytes decode to the bytes. *)
Lemma group_roundtrip (a b c : Z) :
  is_byte a -> is_byte b -> is_byte c ->
  let n := Z.lor (Z.shiftl a 16) (Z.lor (Z.shiftl b 8) c) in
  decode_group (Z.shiftr n 18) (Z.land (Z.shiftr n 12) 63)
               (Z.land (Z.shiftr n 6) 63) (Z.land n 63) = [a; b; c]
  /\ (0 <= Z.shiftr n 18 < 64 /\ 0 <= Z.land (Z.shiftr n 12) 63 < 64
      /\ 0 <= Z.land (Z.shiftr n 6) 63 < 64 /\ 0 <= Z.land n 63 < 64)%Z.
Proof.
  intros Ha Hb Hc n. pose proof (group_value a b c Ha Hb Hc) as Hn. fold n in Hn.
  unfold is_byte in Ha, Hb, Hc.
  rewrite !Z.shiftr_div_pow2 by lia.
  unfold decode_group. rewrite !land63, land15, land3.
  rewrite !Z.shiftr_div_pow2 by lia. cbn [Z.pow Z.pow_pos Pos.iter Z.mul Pos.mul].
  rewrite !lor_shiftl_add by (cbn; dlia). cbn. rewrite Hn. clear n Hn.
  split; [repeat f_equal; dlia | dlia].
Qed.


Lemma decode_full (i0 i1 i2 i3 : Z) (r : list ascii) :
  (0 <= i0 < 64)%Z -> (0 <= i1 < 64)%Z -> (0 <= i2 < 64)%Z -> (0 <= i3 < 64)%Z ->
  b64_decode (b64_char i0 :: b64_char i1 :: b64_char i2 :: b64_char i3 :: r)
  = option_map (app (decode_group i0 i1 i2 i3)) (b64_decode r).
Proof.
  intros H0 H1 H2 H3. cbn [b64_decode].
  destruct (b64_char_index i0 H0) as [-> _]. destruct (b64_char_index i1 H1) as [-> _].
  destruct (b64_char_index i2 H2) as [-> _]. destruct (b64_char_index i3 H3) as [-> ->].
  simpl andb. destruct (b64_decode r); reflexivity.
Qed.

Lemma decode_pad2 (i0 i1 : Z) :
  (0 <= i0 < 64)%Z -> (0 <= i1 < 64)%Z ->
  b64_decode [b64_char i0; b64_char i1; "="; "="]%char = Some (firstn 1 (decode_group i0 i1 0 0)).
Proof.
  intros H0 H1. cbn [b64_decode].
  destruct (b64_char_index i0 H0) as [-> _]. destruct (b64_char_index i1 H1) as [-> _].
  reflexivity.
Qed.

Lemma decode_pad1 (i0 i1 i2 : Z) :
  (0 <= i0 < 64)%Z -> (0 <= i1 < 64)%Z -> (0 <= i2 < 64)%Z ->
  b64_decode [b64_char i0; b64_char i1; b64_char i2; "="]%char
  = Some (firstn 2 (decode_group i0 i1 i2 0)).
Proof.
  intros H0 H1 H2. cbn [b64_decode].
  destruct (b64_char_index i0 H0) as [-> _]. destruct (b64_char_index i1 H1) as [-> _].
  destruct (b64_char_index i2 H2) as [-> ->]. reflexivity.
Qed.

Lemma is_byte_0 : is_byte 0.
Proof. unfold is_byte. lia. Qed.

#[export] Hint Resolve is_byte_0 : zap.

Lemma decode_encode_bytes (bs : list Z) :
  Forall is_byte bs -> b64_decode (b64_encode bs) = Some bs.
Proof.
  induction bs as [|a|a b|a b c r IH] using list_ind3; intros H; [reflexivity| | |].
  - inv H. destruct (group_roundtrip a 0 0 H2 is_byte_0 is_byte_0) as [Hg (B0 & B1 & _)].
    cbv zeta in *. rewrite Z.shiftl_0_l, !Z.lor_0_r in *. cbn [b64_encode].
    rewrite decode_pad2 by assumption.
    change (firstn 1 (decode_group (Z.shiftr (Z.shiftl a 16) 18)
              (Z.land (Z.shiftr (Z.shiftl a 16) 12) 63) 0 0))
      with (firstn 1 (decode_group (Z.shiftr (Z.shiftl a 16) 18)
              (Z.land (Z.shiftr (Z.shiftl a 16) 12) 63)
              (Z.land (Z.shiftr (Z.shiftl a 16) 6) 63) (Z.land (Z.shiftl a 16) 63))).
    now rewrite Hg.
  - inv H. inv H3. destruct (group_roundtrip a b 0 H2 H1 is_byte_0) as [Hg (B0 & B1 & B2 & _)].
    cbv zeta in *. rewrite !Z.lor_0_r in *. cbn [b64_encode].
    rewrite decode_pad1 by assumption.
    set (n := Z.lor (Z.shiftl a 16) (Z.shiftl b 8)) in *.
    change (firstn 2 (decode_group (Z.shiftr n 18) (Z.land (Z.shiftr n 12) 63)
                        (Z.land (Z.shiftr n 6) 63) 0))
      with (firstn 2 (decode_group (Z.shiftr n 18) (Z.land (Z.shiftr n 12) 63)
                        (Z.land (Z.shiftr n 6) 63) (Z.land n 63))).
    now rewrite Hg.
  - inv H. inv H3. inv H4. destruct (group_roundtrip a b c H2 H1 H3) as [Hg (B0 & B1 & B2 & B3)].
    cbv zeta in *. cbn [b64_encode]. rewrite decode_full by assumption.
    now rewrite IH, Hg.
Qed.

(** C20: [atob(btoa(x))]: decoding the encoding of bytes gives them back. *)
Theorem b64_decode_encode (bs : list Z) :
  Forall is_byte bs -> b64_decode (b64_encode bs) = Some bs.
Proof. exact (decode_encode_bytes bs). Qed.

Lemma b64_decode_encode_witness :
  b64_decode (b64_encode [77; 97; 110; 255; 0]%Z) = Some [77; 97; 110; 255; 0]%Z.
Proof. apply b64_decode_encode. repeat constructor; unfold is_byte; lia. Defined.

(** Four characters for every started group of three bytes. *)
Theorem b64_encode_length (bs : list Z) :
  length (b64_encode bs) = (4 * ((length bs + 2) / 3))%nat.
Proof.
  induction bs as [|a|a b|a b c r IH] using list_ind3; try reflexivity.
  cbn [b64_encode length]. rewrite IH.
  replace (S (S (S (length r))) + 2)%nat with (length r + 2 + 1 * 3)%nat by lia.
  rewrite Nat.div_add by lia. lia.
Qed.

(** [latin1_of_utf8] succeeds only on the encoding of bytes. *)
Lemma latin1_of_utf8_inv (l : list ascii) (bs : list Z) :
  latin1_of_utf8 l = Some bs -> utf8_of_latin1 bs = l /\ Forall is_byte bs.
Proof.
  remember (length l) as len eqn:E. revert l bs E.
  induction len as [len IH] using (well_founded_induction lt_wf).
  intros [|c r] bs E H; [inv H; split; constructor|].
  cbn [latin1_of_utf8] in H. set (n := nat_of_ascii c) in *.
  assert (Hn : (n < 256)%nat) by apply nat_ascii_bounded.
  destruct (n <? 128)%nat eqn:Hlt.
  - destruct (latin1_of_utf8 r) as [bs'|] eqn:Er; [|discriminate]. inv H.
    destruct (IH (length r) ltac:(subst; simpl; lia) r bs' eq_refl Er) as [Hu Hf].
    apply Nat.ltb_lt in Hlt. cbn [utf8_of_latin1].
    replace (Z.of_nat n <? 128)%Z with true by (symmetry; apply Z.ltb_lt; lia).
    rewrite Nat2Z.id, Hu. unfold n. rewrite ascii_nat_embedding.
    split; [reflexivity | constructor; [unfold is_byte; lia | exact Hf]].
  - apply Nat.ltb_ge in Hlt.
    destruct ((n =? 194) || (n =? 195))%nat eqn:Hlead; [|discriminate].
    destruct r as [|c2 r']; [discriminate|].
    set (m := nat_of_ascii c2) in *.
    assert (Hm : (m < 256)%nat) by apply nat_ascii_bounded.
    destruct ((128 <=? m) && (m <? 192))%nat eqn:Hcont; [|discriminate].
    apply andb_true_iff in Hcont as [Hm1 Hm2]. apply Nat.leb_le in Hm1. apply Nat.ltb_lt in Hm2.
    apply orb_true_iff in Hlead as [Hl|Hl]; apply Nat.eqb_eq in Hl;
    (destruct (latin1_of_utf8 r') as [bs'|] eqn:Er; [|discriminate]); inv H;
    (destruct (IH (length r') ltac:(subst; simpl; lia) r' bs' eq_refl Er) as [Hu Hf]);
    cbn [utf8_of_latin1]; rewrite Hu;
    (split; [|constructor; [unfold is_byte; lia | exact Hf]]);
    replace (Z.of_nat ((n - 192) * 64 + (m - 128)) <? 128)%Z with false
      by (symmetry; apply Z.ltb_ge; lia);
    replace (Z.to_nat (Z.of_nat ((n - 192) * 64 + (m - 128)) / 64)) with (n - 192)%nat
      by (rewrite <- (Nat2Z.id (n - 192)); f_equal; dlia);
    replace (Z.to_nat (Z.of_nat ((n - 192) * 64 + (m - 128)) mod 64)) with (m - 128)%nat
      by (rewrite <- (Nat2Z.id (m - 128)); f_equal; dlia);
    replace (192 + (n - 192))%nat with n by lia; replace (128 + (m - 128))%nat with m by lia;
    unfold n, m; now rewrite !ascii_nat_embedding.
Qed.

(** C19: The headers: [btoa] of the key throws exactly when the key has a
    character above U+00FF; otherwise the Authorization header is
    ["Basic "] followed by a base64 text that decodes to the key. *)
Theorem getZapperHeaders_spec (cfg : ZapperConfig) :
  match getZapperHeaders cfg with
  | inr hs =>
      exists e bs,
        hs = [("Content-Type", "application/json"); ("Authorization", "Basic " <+> e)]%string
        /\ b64_decode (list_ascii_of_string e) = Some bs
        /\ string_of_list_ascii (utf8_of_latin1 bs) = ZAPPER_API_KEY cfg
  | inl err =>
      err = InvalidCharacterError
      /\ latin1_of_utf8 (list_ascii_of_string (ZAPPER_API_KEY cfg)) = None
  end.
Proof.
  unfold getZapperHeaders, btoa.
  destruct (latin1_of_utf8 (list_ascii_of_string (ZAPPER_API_KEY cfg))) as [bs|] eqn:E;
    [|split; reflexivity].
  destruct (latin1_of_utf8_inv _ _ E) as [Hu Hf].
  exists (string_of_list_ascii (b64_encode bs)), bs. split; [reflexivity|].
  rewrite list_ascii_of_string_of_list_ascii, decode_encode_bytes by exact Hf.
  split; [reflexivity|]. rewrite Hu. apply string_of_list_ascii_of_string.
Qed.

Example btoa_ex : (btoa "Man" = ok "TWFu" /\ btoa "Ma" = ok "TWE=" /\ btoa "M" = ok "TQ==")%string.
Proof. repeat split. Qed.

Example btoa_latin1 : btoa (utf8 [195; 169]) = ok "6Q=="%string /\ btoa (utf8 [226; 130; 172]) = throw InvalidCharacterError.
Proof. split; reflexivity. Qed.

End Base64.
