(* ===== verification/Config.v ===== *)
(** * validateZapperConfig (src/dist/index.js, lines 104-123)

    The key is read as [runtime.getSetting("ZAPPER_API_KEY") ||
    process.env.ZAPPER_API_KEY]: a JavaScript value that is a string,
    [null] (a missing setting) or [undefined] (a missing variable).  It
    is then parsed by the zod schema [z.object({ZAPPER_API_KEY:
    z.string().min(1, "ZAPPER_API_KEY is required")})], whose issues
    become the message of the thrown [Error].  zod reports a missing
    value as "Required" and [null] as "Expected string, received null";
    [min(1)] counts UTF-16 code units, and a string has at least one
    exactly when its UTF-8 encoding is non-empty. *)

From Stdlib Require Import String List Bool Arith.
From S2P Require Import Prelude JsString Base64.
Import ListNotations.
Local Open Scope zap_scope.

Module Config.

Import Base64.

Inductive JsValue : Type :=
  | JUndefined
  | JNull
  | JString (s : string).

(** [Boolean(v)] *)
Definition truthy (v : JsValue) : bool :=
  match v with
  | JString s => negb (String.eqb s EmptyString)
  | _ => false
  end.

(** [a || b] *)
Definition js_or (a b : JsValue) : JsValue := if truthy a then a else b.

(** [z.string().min(1, msg).safeParse(v)]: the issues' messages or the string. *)
Definition zod_string_min1 (msg : string) (v : JsValue) : list string + string :=
  match v with
  | JUndefined => inl ["Required"%string]
  | JNull => inl ["Expected string, received null"%string]
  | JString s => if Nat.leb 1 (String.length s) then inr s else inl [msg]
  end.

(** [zapperEnvironmentSchema.parse(config)] *)
Definition zapperEnvironmentSchema_parse (v : JsValue) : list string + ZapperConfig :=
  match zod_string_min1 "ZAPPER_API_KEY is required" v with
  | inl issues => inl issues
  | inr s => inr {| ZAPPER_API_KEY := s |}
  end.

Definition config_error_prefix : string := "Zapper Configuration Error:" <+> nl.

(** [validateZapperConfig(runtime)], given the setting and the
    environment variable. *)
Definition validateZapperConfig (setting env : JsValue) : result ZapperConfig :=
  match zapperEnvironmentSchema_parse (js_or setting env) with
  | inr config => ok config
  | inl issues => throw (Error (config_error_prefix <+> JsString.join nl issues))
  end.

(** ** Theorems *)

(** C21: A non-empty setting is used, whatever the environment holds. *)
Theorem validate_setting_first (s : string) (env : JsValue) :
  s <> EmptyString ->
  validateZapperConfig (JString s) env = ok {| ZAPPER_API_KEY := s |}.
Proof.
  intros Hs. unfold validateZapperConfig, js_or, truthy.
  apply String.eqb_neq in Hs. rewrite Hs. simpl.
  unfold zapperEnvironmentSchema_parse, zod_string_min1.
  apply String.eqb_neq in Hs. destruct s as [|c s']; [congruence | reflexivity].
Qed.

(** C22: Otherwise the environment decides: a non-empty value is the key; a
    missing, null or empty one is a configuration error with zod's
    message. *)
Theorem validate_fallback (setting env : JsValue) :
  truthy setting = false ->
  validateZapperConfig setting env =
  match env with
  | JString EmptyString => throw (Error (config_error_prefix <+> "ZAPPER_API_KEY is required"))
  | JString s => ok {| ZAPPER_API_KEY := s |}
  | JUndefined => throw (Error (config_error_prefix <+> "Required"))
  | JNull => throw (Error (config_error_prefix <+> "Expected string, received null"))
  end.
Proof.
  intros Hf. unfold validateZapperConfig, js_or. rewrite Hf.
  destruct env as [| |[|c s]]; reflexivity.
Qed.

(** C23: The configuration returned always holds a non-empty key. *)
Theorem validate_nonempty (setting env : JsValue) (cfg : ZapperConfig) :
  validateZapperConfig setting env = ok cfg -> ZAPPER_API_KEY cfg <> EmptyString.
Proof.
  unfold validateZapperConfig, zapperEnvironmentSchema_parse, zod_string_min1.
  destruct (js_or setting env) as [| |[|c s]]; simpl; try discriminate.
  intros H. inv H. discriminate.
Qed.

Lemma validate_setting_first_witness :
  validateZapperConfig (JString "key") JNull = ok {| ZAPPER_API_KEY := "key"%string |}.
Proof. apply validate_setting_first. discriminate. Defined.

Lemma validate_fallback_witness :
  validateZapperConfig (JString EmptyString) (JString EmptyString)
  = throw (Error (config_error_prefix <+> "ZAPPER_API_KEY is required"%string)).
Proof. apply (validate_fallback (JString EmptyString) (JString EmptyString)). reflexivity. Defined.

Lemma validate_nonempty_witness : ZAPPER_API_KEY {| ZAPPER_API_KEY := "k"%string |} <> EmptyString.
Proof. apply (validate_nonempty JUndefined (JString "k"%string)). reflexivity. Defined.

End Config.
