(* ===== verification/Runtime.v ===== *)
(** * The agent runtime the actions run in

    The handlers of src/dist/index.js (lines 134-233 and 280-359) talk to
    the elizaOS runtime and to the network.  This file fixes what they
    see of them:
    - [Content] and [Memory], the message records the handlers read and
      write (lines 214-223, 338-348);
    - [Runtime], a type class of the host's operations the code calls:
      [runtime.getSetting], [process.env], [generateText] (the language
      model), [fetch] of the Zapper endpoint followed by
      [response.json()], and [runtime.messageManager.createMemory].  Each
      may fail (a rejected promise), so each returns a [result];
    - [event], what a handler does that the outside can observe, in
      order: model calls, requests, memories written, callbacks invoked,
      log lines;
    - [M], the handlers' monad: a computation that appends events to the
      trace and returns or throws.  A throw keeps the events already
      emitted, as the code cannot take back a request or a memory;
    - [log] and [try_catch]: the logger calls, and [try]/[catch]. *)

From Stdlib Require Import String List.
From S2P Require Import Prelude Portfolio Farcaster Config.
Import ListNotations.
Local Open Scope zap_scope.

Module Runtime.

Import Config.

(** ** Messages *)

(** [content]: the text, the action tag, the source and, for the memory
    written by the Farcaster action, the resolved addresses. *)
Record Content := mkContent {
  text : string;
  action : option string;
  source : option string;
  c_addresses : option (list string) }.

Record Memory := mkMemory {
  userId : string; agentId : string; roomId : string; content : Content }.

(** ** Observable events *)

(** The two GraphQL requests: [Portfolio(addresses)] and
    [GetFarcasterAddresses(username)]. *)
Inductive gql_request : Type :=
  | QPortfolio (addresses : list string)
  | QFarcaster (username : string).

(** [elizaLogger.info] and [elizaLogger.error]. *)
Inductive log_level : Type := LInfo | LError.

(** The arguments of a logger call, in the order the code passes them:
    a string, or one of the objects [{ addresses }], [{ username }],
    [{ errors: data.errors }] and [{ error }], or a bare exception. *)
Inductive log_arg : Type :=
  | LogText (s : string)
  | LogAddresses (addresses : list string)
  | LogUsername (username : string)
  | LogErrors (errors : list string)
  | LogObjError (error : exn)
  | LogExn (error : exn).

Inductive event : Type :=
  | EvGenerateText (context : string)
  | EvFetch (headers : list (string * string)) (request : gql_request)
  | EvCreateMemory (m : Memory)
  | EvCallback (c : Content)
  | EvLog (level : log_level) (args : list log_arg).

(** ** The host *)

Class Runtime : Type := {
  getSetting : string -> JsValue;
  process_env : string -> JsValue;
  (** [generateText({runtime, context, modelClass: SMALL, stop: ["\n"]})] *)
  generateText : string -> result string;
  (** [fetch("https://public.zapper.xyz/graphql", ...)] then [response.json()] *)
  fetchPortfolio : list (string * string) -> list string -> result Portfolio.response;
  fetchFarcaster : list (string * string) -> string -> result Farcaster.response;
  (** [runtime.messageManager.createMemory(memory)] *)
  createMemory : Memory -> result unit
}.

(** ** The handlers' monad *)

Definition M (A : Type) : Type := list event -> result A * list event.

Definition ret {A} (a : A) : M A := fun tr => (inr a, tr).

Definition bind {A B} (m : M A) (f : A -> M B) : M B :=
  fun tr => match m tr with
            | (inr a, tr') => f a tr'
            | (inl e, tr') => (inl e, tr')
            end.

Definition raise {A} (e : exn) : M A := fun tr => (inl e, tr).

(** A value computed outside the trace: a pure result or an oracle's. *)
Definition lift {A} (r : result A) : M A := fun tr => (r, tr).

Definition emit (ev : event) : M unit := fun tr => (inr tt, tr ++ [ev]).

(** [elizaLogger.<level>(args...)] *)
Definition log (level : log_level) (args : list log_arg) : M unit := emit (EvLog level args).

(** [try { m } catch (error) { h(error) }]: the handler runs after the
    events [m] emitted before it threw. *)
Definition try_catch {A} (m : M A) (h : exn -> M A) : M A :=
  fun tr => match m tr with
            | (inl e, tr') => h e tr'
            | (inr a, tr') => (inr a, tr')
            end.

Notation "x <- c ;; k" := (bind c (fun x => k))
  (at level 61, c at next level, right associativity) : zap_scope.
Notation "c ;; k" := (bind c (fun _ => k))
  (at level 61, right associativity) : zap_scope.

(** Run two computations one after the other from trace [tr]. *)
Lemma bind_run {A B} (m : M A) (f : A -> M B) (tr : list event) :
  bind m f tr = match m tr with
                | (inr a, tr') => f a tr'
                | (inl e, tr') => (inl e, tr')
                end.
Proof. reflexivity. Qed.

Lemma bind_assoc {A B C} (m : M A) (f : A -> M B) (g : B -> M C) (tr : list event) :
  bind (bind m f) g tr = bind m (fun a => bind (f a) g) tr.
Proof. unfold bind. destruct (m tr) as [[e|a] tr']; reflexivity. Qed.

Lemma try_catch_ok {A} (m : M A) (h : exn -> M A) (tr tr' : list event) (a : A) :
  m tr = (inr a, tr') -> try_catch m h tr = (inr a, tr').
Proof. unfold try_catch. now intros ->. Qed.

Lemma try_catch_exn {A} (m : M A) (h : exn -> M A) (tr tr' : list event) (e : exn) :
  m tr = (inl e, tr') -> try_catch m h tr = h e tr'.
Proof. unfold try_catch. now intros ->. Qed.

Lemma bind_ret_l {A B} (a : A) (f : A -> M B) (tr : list event) : bind (ret a) f tr = f a tr.
Proof. reflexivity. Qed.

(** One step of a handler run: unfold the monad's operations and reduce. *)
Ltac run_step := cbv beta iota zeta delta [bind emit log try_catch lift ret raise ok throw].

(** ** Counting events

    [count is_fetch evs] is the number of requests in a trace, and so on:
    what the specification bounds per handler call. *)
Definition is_model (ev : event) : bool := match ev with EvGenerateText _ => true | _ => false end.
Definition is_fetch (ev : event) : bool := match ev with EvFetch _ _ => true | _ => false end.
Definition is_memory (ev : event) : bool := match ev with EvCreateMemory _ => true | _ => false end.
Definition is_callback (ev : event) : bool := match ev with EvCallback _ => true | _ => false end.
Definition is_error_log (ev : event) : bool := match ev with EvLog LError _ => true | _ => false end.

Definition count (p : event -> bool) (evs : list event) : nat := length (filter p evs).

Lemma count_app (p : event -> bool) (l1 l2 : list event) :
  count p (l1 ++ l2) = count p l1 + count p l2.
Proof. unfold count. now rewrite filter_app, length_app. Qed.

Lemma count_nil (p : event -> bool) : count p [] = 0.
Proof. reflexivity. Qed.

Lemma count_cons (p : event -> bool) (ev : event) (evs : list event) :
  count p (ev :: evs) = (if p ev then 1 else 0) + count p evs.
Proof. unfold count. cbn. now destruct (p ev). Qed.

#[export] Hint Rewrite count_app count_nil count_cons : zap.

(** Count the events of a trace made of known events and unknown parts. *)
Ltac count_events :=
  autorewrite with zap; cbn [is_model is_fetch is_memory is_callback is_error_log Nat.add].

(** ** Concrete hosts

    The hosts the examples run against: [example_host key answer pdata
    fdata] returns [key] for [runtime.getSetting("ZAPPER_API_KEY")], names
    the user [alice] when asked for a Farcaster username and answers
    every other prompt with [answer] (a text or a failure), answers the portfolio query with
    [pdata] and the Farcaster query with [fdata], and stores every
    memory.  [example_runtime] is the host on which everything succeeds:
    [alice] resolves to a connected and a custody address, the model
    echoes them, and the portfolio is [Portfolio.example_portfolio]. *)
Definition example_farcaster_data : Farcaster.response :=
  {| gql_data := Some {| Farcaster.farcasterProfile := Some
       {| Farcaster.username := Some "alice"%string; Farcaster.fid := None;
          Farcaster.metadata := None;
          Farcaster.connectedAddresses := Some [Some "0xabc"; None]%string;
          Farcaster.custodyAddress := Some "0xdef"%string |} |};
     gql_errors := None |}.

Definition example_portfolio_data : Portfolio.response :=
  {| gql_data := Some {| Portfolio.portfolio := Some Portfolio.example_portfolio |};
     gql_errors := None |}.

Definition example_host (key : JsValue) (answer : result string) (pdata : Portfolio.response)
    (fdata : Farcaster.response) : Runtime := {|
  getSetting := fun k => if String.eqb k "ZAPPER_API_KEY" then key else JUndefined;
  process_env := fun _ => JUndefined;
  generateText := fun c => if String.prefix "Extract the Farcaster" c
                           then ok "alice"%string else answer;
  fetchPortfolio := fun _ _ => ok pdata;
  fetchFarcaster := fun _ _ => ok fdata;
  createMemory := fun _ => ok tt |}.

Definition example_runtime : Runtime :=
  example_host (JString "test-key") (ok "0xabc, 0xdef"%string) example_portfolio_data example_farcaster_data.

End Runtime.
