(* ===== verification/Request.v ===== *)
(** * The GraphQL requests (src/dist/index.js, lines 136-182 and 282-309)

    Each handler sends one request: a POST to the Zapper endpoint with the
    headers of [getZapperHeaders] and the body
    [JSON.stringify({query, variables: {...}})], where [query] is the
    template literal of the handler.  [portfolio_query] and
    [farcaster_query] are those literals, line by line (indentation and
    text); [request_body] is the body, built with [Json.json_stringify];
    [fetch_request] the whole request.  The events [EvFetch hs r] of the
    handlers stand for [fetch_request hs r].

    [decode_request] is what the server reads from a body: the query and
    the variables.  [decode_request_body] shows it recovers the request
    exactly, for every list of addresses and every username: the text the
    model produced reaches the API as data, never as query text. *)

From Stdlib Require Import String Ascii List Bool.
From S2P Require Import Prelude Json Runtime.
Import ListNotations.
Local Open Scope string_scope.
Local Open Scope list_scope.
Local Open Scope zap_scope.

Module Request.

Import Json Runtime.

(** ** The query texts *)

Fixpoint spaces (n : nat) : string :=
  match n with O => EmptyString | S k => String " " (spaces k) end.

(** A template literal that opens at the end of a line: each of its lines
    after a newline, then the indentation of the closing backtick. *)
Definition template (ls : list (nat * string)) (closing : nat) : string :=
  fold_right (fun l acc => nl <+> spaces (fst l) <+> snd l <+> acc) (nl <+> spaces closing) ls.

(** The query of lines 136-170. *)
Definition portfolio_query : string := template [
   (16, "query Portfolio($addresses: [Address!]!) {");
   (20, "portfolio(addresses: $addresses) {");
   (24, "tokenBalances {");
   (28, "address");
   (28, "network");
   (28, "token {");
   (32, "balance");
   (32, "balanceUSD");
   (32, "baseToken {");
   (36, "name");
   (36, "symbol");
   (32, "}");
   (28, "}");
   (24, "}");
   (24, "nftBalances {");
   (28, "network");
   (28, "balanceUSD");
   (24, "}");
   (24, "totals {");
   (28, "total");
   (28, "totalWithNFT");
   (28, "totalByNetwork {");
   (32, "network");
   (32, "total");
   (28, "}");
   (28, "holdings {");
   (32, "label");
   (32, "balanceUSD");
   (32, "pct");
   (28, "}");
   (24, "}");
   (20, "}");
   (16, "}")] 12.

(** The query of lines 282-297. *)
Definition farcaster_query : string := template [
   (16, "query GetFarcasterAddresses($username: String!) {");
   (20, "farcasterProfile(username: $username) {");
   (24, "username");
   (24, "fid");
   (24, "metadata {");
   (28, "displayName");
   (28, "description");
   (28, "imageUrl");
   (28, "warpcast");
   (24, "}");
   (24, "connectedAddresses");
   (24, "custodyAddress");
   (20, "}");
   (16, "}")] 12.

(** ** The request *)

Definition request_query (r : gql_request) : string :=
  match r with QPortfolio _ => portfolio_query | QFarcaster _ => farcaster_query end.

(** [variables: {addresses}] and [variables: {username}] *)
Definition request_variables (r : gql_request) : json :=
  match r with
  | QPortfolio addresses => JObj [("addresses", JArr (map JStr addresses))]
  | QFarcaster username => JObj [("username", JStr username)]
  end.

(** [JSON.stringify({query, variables: {...}})] *)
Definition request_body (r : gql_request) : string :=
  json_stringify (JObj [("query", JStr (request_query r)); ("variables", request_variables r)]).

Record http_request := mk_http_request {
  url : string; method : string; req_headers : list (string * string); body : string }.

(** [fetch("https://public.zapper.xyz/graphql", {method: "POST", headers, body})] *)
Definition fetch_request (headers : list (string * string)) (r : gql_request) : http_request :=
  {| url := "https://public.zapper.xyz/graphql"; method := "POST";
     req_headers := headers; body := request_body r |}.

(** ** What the server reads *)

Definition strings_of (vs : list json) : option (list string) :=
  fold_right (fun v acc => match v, acc with
                           | JStr s, Some l => Some (s :: l)
                           | _, _ => None
                           end) (Some []) vs.

Definition decode_request (text : string) : option gql_request :=
  match parse_json text with
  | Some (JObj [(kq, JStr q); (kv, JObj [(kvar, value)])]) =>
      if String.eqb kq "query" && String.eqb kv "variables" then
        if String.eqb q portfolio_query && String.eqb kvar "addresses" then
          match value with
          | JArr vs => match strings_of vs with Some a => Some (QPortfolio a) | None => None end
          | _ => None
          end
        else if String.eqb q farcaster_query && String.eqb kvar "username" then
          match value with JStr u => Some (QFarcaster u) | _ => None end
        else None
      else None
  | _ => None
  end.

(** ** The server reads the request that was meant *)

Lemma strings_of_map (a : list string) : strings_of (map JStr a) = Some a.
Proof.
  unfold strings_of. induction a as [|x a IH]; [reflexivity|]. cbn [map fold_right]. now rewrite IH.
Qed.

Lemma queries_differ : String.eqb farcaster_query portfolio_query = false.
Proof. vm_compute. reflexivity. Qed.

(** C9: The body of every request decodes to that request: the query of its
    handler, and the addresses or the username exactly as given, however
    they are spelt. *)
Theorem decode_request_body (headers : list (string * string)) (r : gql_request) :
  decode_request (body (fetch_request headers r)) = Some r.
Proof.
  unfold decode_request. cbn [body fetch_request]. unfold request_body.
  rewrite json_roundtrip.
  destruct r as [a|u]; cbn - [portfolio_query farcaster_query strings_of];
    rewrite String.eqb_refl; cbn [andb].
  - rewrite strings_of_map. reflexivity.
  - rewrite queries_differ. reflexivity.
Qed.

End Request.
