(* ===== verification/PortfolioAction.v ===== *)
(** * portfolioAction (src/dist/index.js, lines 126-234)

    The ZAPPER_PORTFOLIO action: [parse_addresses] is the splitting of
    the model's answer (line 205), [getZapperAssets] the nested function
    of lines 135-195 (configuration, headers, request, error check,
    formatting) and [portfolio_handler] the handler of lines 134-233, in
    the monad of [Runtime] over a [Runtime.Runtime] host: its [try]
    block [portfolio_try] and its [catch] block [portfolio_catch], which
    logs and rethrows.  Every [elizaLogger] call is a log event; the
    callback is [cb], whether one
    was passed: the code calls it without awaiting it, so it is an event
    and cannot make the handler fail. *)

From Stdlib Require Import String Ascii List Bool Arith Lia.
From S2P Require Import Prelude JsString Portfolio Base64 Config Runtime.
Import ListNotations.
Local Open Scope string_scope.
Local Open Scope list_scope.
Local Open Scope zap_scope.

Module PortfolioAction.

Import Config Base64 Runtime.

(** The prompt of lines 197-198. *)
Definition portfolio_context (message_text : string) : string :=
  "Extract only the blockchain wallet addresses from this text, returning them as a comma-separated list with no other text or explanations. The message is:"
  <+> nl <+> "            " <+> message_text.

(** [text.split(",").map(addr => addr.trim()).filter(addr => addr.length > 0)] *)
Definition parse_addresses (s : string) : list string :=
  filter (fun a => Nat.ltb 0 (String.length a)) (map JsString.trim (JsString.split "," s)).

Definition emoji_zap : string := utf8 [226; 154; 161]%nat.

Section WithRuntime.
Context `{Runtime}.

(** [await generateText({... context ...})] *)
Definition call_generateText (context : string) : M string :=
  emit (EvGenerateText context) ;; lift (generateText context).

(** [getZapperAssets(addresses)]: the errors of the response are logged
    before the throw, and a formatting error is logged and rethrown. *)
Definition getZapperAssets (addresses : list string) : M string :=
  config <- lift (validateZapperConfig (getSetting "ZAPPER_API_KEY") (process_env "ZAPPER_API_KEY")) ;;
  headers <- lift (getZapperHeaders config) ;;
  emit (EvFetch headers (QPortfolio addresses)) ;;
  data <- lift (fetchPortfolio headers addresses) ;;
  match gql_errors data with
  | Some errs =>
      log LError [LogErrors errs; LogText "Zapper API returned errors"] ;;
      raise (Error "Failed to fetch data from Zapper API")
  | None =>
      try_catch (lift (Portfolio.formatPortfolioData data))
        (fun error => log LError [LogObjError error; LogText "Error formatting portfolio data"] ;;
                      raise error)
  end.

(** [if (_callback) _callback(content)] *)
Definition invoke_callback (cb : bool) (c : Content) : M unit :=
  if cb then emit (EvCallback c) else ret tt.

(** The memory of lines 214-223. *)
Definition response_memory (message : Memory) (assetsInfo : string) : Memory :=
  {| userId := userId message; agentId := agentId message; roomId := roomId message;
     content := {| text := emoji_zap <+> " Here is the portfolio for the provided addresses:"
                           <+> nl <+> nl <+> assetsInfo;
                   action := Some "ZAPPER_PORTFOLIO_RESPONSE";
                   source := source (content message);
                   c_addresses := None |} |}.

(** The [try] block of [portfolioAction.handler] (lines 196-228). *)
Definition portfolio_try (message : Memory) (cb : bool) : M bool :=
  extracted <- call_generateText (portfolio_context (text (content message))) ;;
  let addresses := parse_addresses extracted in
  log LInfo [LogAddresses addresses; LogText "Extracted addresses"] ;;
  match addresses with
  | [] => raise (Error "No wallet addresses found in the message")
  | _ :: _ =>
      assetsInfo <- getZapperAssets addresses ;;
      let newMemory := response_memory message assetsInfo in
      emit (EvCreateMemory newMemory) ;;
      lift (createMemory newMemory) ;;
      invoke_callback cb (content newMemory) ;;
      ret true
  end.

(** Its [catch] block (lines 229-232): log and rethrow. *)
Definition portfolio_catch (error : exn) : M bool :=
  log LError [LogText "Error in portfolioAction:"; LogExn error] ;; raise error.

(** [portfolioAction.handler(runtime, message, state, options, callback)] *)
Definition portfolio_handler (message : Memory) (cb : bool) : M bool :=
  try_catch (portfolio_try message cb) portfolio_catch.

End WithRuntime.


(** ** Address parsing *)

(** An address as the splitting leaves it: non-empty, without comma, and
    without white space at either end. *)
Definition well_formed_address (a : string) : Prop :=
  a <> EmptyString /\ JsString.has_char "," a = false /\ JsString.trim a = a.

Lemma parsed_addresses_wf (s : string) : Forall well_formed_address (parse_addresses s).
Proof.
  unfold parse_addresses. apply Forall_forall. intros a Ha.
  apply filter_In in Ha as [Hin Hlen]. apply in_map_iff in Hin as (p & <- & Hp).
  split; [intros E; rewrite E in Hlen; discriminate|]. split; [|apply JsString.trim_idem].
  apply JsString.has_char_trim.
  pose proof (JsString.split_parts_no_sep "," s) as Hs. rewrite Forall_forall in Hs. auto.
Qed.

(** C24: Every address parsed from the model's answer is well formed. *)
Theorem parse_addresses_wf (s : string) : Forall well_formed_address (parse_addresses s).
Proof. exact (parsed_addresses_wf s). Qed.

Lemma map_trim_space (xs : list string) :
  Forall (fun x => JsString.trim x = x) xs -> map JsString.trim (map (String.append " ") xs) = xs.
Proof.
  induction xs as [|x xs IH]; intros Hf; [reflexivity|].
  inversion Hf as [|? ? Hx Hxs]; subst. simpl.
  rewrite JsString.trim_space, Hx. f_equal. now apply IH.
Qed.

(** Parsing the addresses joined with [", "] (as the Farcaster action
    writes them, line 343) gives them back. *)
Theorem parse_join_addresses (xs : list string) :
  Forall well_formed_address xs -> parse_addresses (JsString.join ", " xs) = xs.
Proof.
  intros Hf. destruct xs as [|x xs]; [reflexivity|].
  unfold parse_addresses. rewrite (JsString.join_sep_cons "," " " x xs).
  assert (Hx : well_formed_address x) by (inv Hf; assumption).
  assert (Hxs : Forall well_formed_address xs) by (inv Hf; assumption).
  rewrite JsString.split_join; [|discriminate|].
  - cbn [map]. destruct Hx as (Hne & _ & Ht). rewrite Ht, map_trim_space.
    + apply filter_all. intros a Ha. apply Nat.ltb_lt.
      destruct Ha as [<-|Ha]; [destruct x; [congruence | simpl; lia]|].
      rewrite Forall_forall in Hxs. destruct (Hxs a Ha) as (Hne' & _).
      destruct a; [congruence | simpl; lia].
    + eapply Forall_impl; [|exact Hxs]. intros a (_ & _ & Ha). exact Ha.
  - constructor; [apply Hx|]. apply Forall_map.
    eapply Forall_impl; [|exact Hxs]. intros a (_ & Ha & _). exact Ha.
Qed.


(** Normalising an answer is idempotent: joining the parsed addresses
    with [", "] and parsing again gives the same list. *)
Theorem parse_addresses_idem (s : string) :
  parse_addresses (JsString.join ", " (parse_addresses s)) = parse_addresses s.
Proof. apply parse_join_addresses, parsed_addresses_wf. Qed.

(** ** The handler *)

Section HandlerProperties.
Context `{Runtime}.
Variables (message : Memory) (cb : bool) (tr : list event).

Let ctx : string := portfolio_context (text (content message)).

(** The two log lines every run that reaches them writes: the extracted
    addresses (line 206) and, for a failure, the handler's own error
    line (line 230). *)
Definition addresses_log (addrs : list string) : event :=
  EvLog LInfo [LogAddresses addrs; LogText "Extracted addresses"].

Definition failure_log (e : exn) : event :=
  EvLog LError [LogText "Error in portfolioAction:"; LogExn e].

(** The log lines of [getZapperAssets]: the response's errors (line 185)
    and a formatting error (line 192). *)
Definition upstream_log (errs : list string) : event :=
  EvLog LError [LogErrors errs; LogText "Zapper API returned errors"].

Definition format_log (e : exn) : event :=
  EvLog LError [LogObjError e; LogText "Error formatting portfolio data"].

(** The events of the successful run: the model call, the log of the
    addresses, the request, the memory, the callback when one was passed. *)
Definition success_events (hs : list (string * string)) (addrs : list string) (m : Memory) : list event :=
  [EvGenerateText ctx; addresses_log addrs; EvFetch hs (QPortfolio addrs); EvCreateMemory m]
  ++ (if cb then [EvCallback (content m)] else []).

(** A failure of the language model is the handler's failure, logged,
    before anything else happens. *)
Theorem portfolio_model_error (e : exn) :
  generateText ctx = inl e ->
  portfolio_handler message cb tr = (inl e, tr ++ [EvGenerateText ctx; failure_log e]).
Proof.
  intros Hg. unfold portfolio_handler, portfolio_try, portfolio_catch, call_generateText.
  run_step. fold ctx. rewrite Hg. now rewrite <- app_assoc.
Qed.

(** C25: No address in the answer: the handler logs the empty list, throws
    before reading the configuration or sending any request, and logs
    the error. *)
Theorem portfolio_no_addresses (s : string) :
  generateText ctx = ok s -> parse_addresses s = [] ->
  portfolio_handler message cb tr
  = (inl (Error "No wallet addresses found in the message"),
     tr ++ [EvGenerateText ctx; addresses_log [];
            failure_log (Error "No wallet addresses found in the message")]).
Proof.
  intros Hg Hp. unfold portfolio_handler, portfolio_try, portfolio_catch, call_generateText.
  run_step. fold ctx. rewrite Hg. run_step. rewrite Hp. now rewrite <- !app_assoc.
Qed.

(** A missing or empty API key fails the handler after the model call
    and before any request. *)
Theorem portfolio_config_error (s : string) (e : exn) :
  generateText ctx = ok s -> parse_addresses s <> [] ->
  validateZapperConfig (getSetting "ZAPPER_API_KEY") (process_env "ZAPPER_API_KEY") = inl e ->
  portfolio_handler message cb tr
  = (inl e, tr ++ [EvGenerateText ctx; addresses_log (parse_addresses s); failure_log e]).
Proof.
  intros Hg Hp Hc. unfold portfolio_handler, portfolio_try, portfolio_catch, call_generateText, getZapperAssets.
  run_step. fold ctx. rewrite Hg. run_step.
  destruct (parse_addresses s) as [|a r]; [congruence|]. run_step. rewrite Hc. now rewrite <- !app_assoc.
Qed.

Section AfterRequest.
Variables (s : string) (cfg : ZapperConfig) (hs : list (string * string))
          (data : Portfolio.response).
Hypothesis Hgen : generateText ctx = ok s.
Hypothesis Haddr : parse_addresses s <> [].
Hypothesis Hcfg : validateZapperConfig (getSetting "ZAPPER_API_KEY")
                    (process_env "ZAPPER_API_KEY") = ok cfg.
Hypothesis Hhdr : getZapperHeaders cfg = ok hs.
Hypothesis Hfetch : fetchPortfolio hs (parse_addresses s) = ok data.

Let sent : list event :=
  [EvGenerateText ctx; addresses_log (parse_addresses s); EvFetch hs (QPortfolio (parse_addresses s))].

Lemma run_to_response :
  portfolio_handler message cb tr =
  try_catch
    (bind (match gql_errors data with
           | Some errs =>
               log LError [LogErrors errs; LogText "Zapper API returned errors"] ;;
               raise (Error "Failed to fetch data from Zapper API")
           | None =>
               try_catch (lift (Portfolio.formatPortfolioData data))
                 (fun error => log LError [LogObjError error; LogText "Error formatting portfolio data"] ;;
                               raise error)
           end)
          (fun assetsInfo =>
             emit (EvCreateMemory (response_memory message assetsInfo)) ;;
             lift (createMemory (response_memory message assetsInfo)) ;;
             invoke_callback cb (content (response_memory message assetsInfo)) ;;
             ret true))
    portfolio_catch (tr ++ sent).
Proof.
  unfold portfolio_handler, portfolio_try, call_generateText, getZapperAssets, sent.
  unfold try_catch at 1. run_step. fold ctx. rewrite Hgen. run_step.
  destruct (parse_addresses s) as [|a r] eqn:Ep; [congruence|].
  run_step. rewrite Hcfg. run_step. rewrite Hhdr. run_step.
  rewrite Hfetch. run_step. rewrite <- !app_assoc. reflexivity.
Qed.

(** C26: A response with [errors] fails the handler with the upstream
    error, logged twice (the response's errors, then the handler's line);
    nothing is formatted and no memory is written. *)
Theorem portfolio_upstream_error (errs : list string) :
  gql_errors data = Some errs ->
  portfolio_handler message cb tr
  = (inl (Error "Failed to fetch data from Zapper API"),
     tr ++ sent ++ [upstream_log errs; failure_log (Error "Failed to fetch data from Zapper API")]).
Proof. intros He. rewrite run_to_response, He. unfold portfolio_catch. run_step. now rewrite <- !app_assoc. Qed.

(** C27: A response without [errors] and without a portfolio fails with the
    engine's [TypeError], logged by [getZapperAssets] and again by the
    handler, and writes no memory: an empty answer is not an empty report. *)
Theorem portfolio_missing_data :
  gql_errors data = None ->
  (gql_data data = None \/ exists d, gql_data data = Some d /\ Portfolio.portfolio d = None) ->
  exists prop, portfolio_handler message cb tr
    = (inl (TypeError prop), tr ++ sent ++ [format_log (TypeError prop); failure_log (TypeError prop)]).
Proof.
  intros He Hd. rewrite run_to_response, He. unfold Portfolio.formatPortfolioData.
  unfold portfolio_catch.
  destruct Hd as [Hd|(d & Hd & Hp)]; rewrite Hd; [|rewrite Hp];
    eexists; run_step; now rewrite <- !app_assoc.
Qed.

(** The run of a successful request, event by event. *)
Lemma portfolio_success_run (d : Portfolio.PortfolioData) (p : Portfolio.Portfolio) :
  gql_errors data = None -> gql_data data = Some d -> Portfolio.portfolio d = Some p ->
  createMemory (response_memory message (Portfolio.render p)) = ok tt ->
  portfolio_handler message cb tr
  = (inr true, tr ++ success_events hs (parse_addresses s) (response_memory message (Portfolio.render p))).
Proof.
  intros He Hd Hp Hm. rewrite run_to_response, He. unfold Portfolio.formatPortfolioData.
  rewrite Hd, Hp. run_step. rewrite Hm. unfold invoke_callback, success_events, sent.
  destruct cb; cbn; now rewrite <- !app_assoc.
Qed.

(** C1: The successful run: the memory holds the formatted portfolio, is
    tagged ZAPPER_PORTFOLIO_RESPONSE, is written after the request and
    before the callback, and the handler returns [true]. *)
Theorem portfolio_success (d : Portfolio.PortfolioData) (p : Portfolio.Portfolio) :
  gql_errors data = None -> gql_data data = Some d -> Portfolio.portfolio d = Some p ->
  createMemory (response_memory message (Portfolio.render p)) = ok tt ->
  portfolio_handler message cb tr
  = (inr true, tr ++ success_events hs (parse_addresses s) (response_memory message (Portfolio.render p)))
  /\ text (content (response_memory message (Portfolio.render p)))
     = emoji_zap <+> " Here is the portfolio for the provided addresses:" <+> nl <+> nl
       <+> Portfolio.render p
  /\ action (content (response_memory message (Portfolio.render p)))
     = Some "ZAPPER_PORTFOLIO_RESPONSE".
Proof.
  intros He Hd Hp Hm. split; [now apply (portfolio_success_run d p) | split; reflexivity].
Qed.
End AfterRequest.

End HandlerProperties.

(** The handler reads the incoming message's text, ids and source only:
    the addresses attached to it (by the Farcaster action) are ignored,
    and the language model is asked again. *)
Theorem portfolio_ignores_attached_addresses `{Runtime} (message : Memory) (xs : list string)
    (cb : bool) (tr : list event) :
  portfolio_handler
    {| userId := userId message; agentId := agentId message; roomId := roomId message;
       content := {| text := text (content message); action := action (content message);
                     source := source (content message); c_addresses := Some xs |} |} cb tr
  = portfolio_handler message cb tr.
Proof. reflexivity. Qed.

Example parse_addresses_spec_example :
  parse_addresses "0x1, 0x2 ," = ["0x1"; "0x2"]%string.
Proof. reflexivity. Qed.

(** ** The step sequence of the specification (section 4.5)

    [portfolio_spec message cb evs r]: a run of the handler on [message]
    may emit the events [evs] and end with [r].  There is one rule per way
    a run ends: a failure at one of the steps (a) to (g) of the
    specification, or success after step (i).  The memory is described
    by what the specification asks of it ([response_record]), not by the
    code's literal. *)

(** The record of step (g): the message's ids, the action tag, and a
    text ending with the formatted report. *)
Definition response_record (message : Memory) (report : string) (m : Memory) : Prop :=
  userId m = userId message /\ agentId m = agentId message /\ roomId m = roomId message
  /\ action (content m) = Some "ZAPPER_PORTFOLIO_RESPONSE"
  /\ exists pre, text (content m) = pre <+> report.

Section PortfolioSpec.
Context `{Runtime}.
Variables (message : Memory) (cb : bool).

Let ctx : string := portfolio_context (text (content message)).
Let config : result ZapperConfig :=
  validateZapperConfig (getSetting "ZAPPER_API_KEY") (process_env "ZAPPER_API_KEY").

(** Step (h): the callback, when one was passed. *)
Definition callback_events (c : Content) : list event := if cb then [EvCallback c] else [].

(** Section 6: a failure is logged, with the error, before it is
    rethrown; the addresses are logged once extracted. *)
Let failed (evs : list event) (e : exn) : list event := evs ++ [failure_log e].
Let extracted (s : string) : list event := [EvGenerateText ctx; addresses_log (parse_addresses s)].

Inductive portfolio_spec : list event -> result bool -> Prop :=
  | ps_model_error e :
      generateText ctx = inl e ->
      portfolio_spec (failed [EvGenerateText ctx] e) (inl e)
  | ps_no_addresses s :
      generateText ctx = inr s -> parse_addresses s = [] ->
      portfolio_spec (failed [EvGenerateText ctx; addresses_log []]
                             (Error "No wallet addresses found in the message"))
        (inl (Error "No wallet addresses found in the message"))
  | ps_config_error s e :
      generateText ctx = inr s -> parse_addresses s <> [] -> config = inl e ->
      portfolio_spec (failed (extracted s) e) (inl e)
  | ps_header_error s cfg e :
      generateText ctx = inr s -> parse_addresses s <> [] -> config = inr cfg ->
      getZapperHeaders cfg = inl e ->
      portfolio_spec (failed (extracted s) e) (inl e)
  | ps_request_error s cfg hs e :
      generateText ctx = inr s -> parse_addresses s <> [] -> config = inr cfg ->
      getZapperHeaders cfg = inr hs -> fetchPortfolio hs (parse_addresses s) = inl e ->
      portfolio_spec (failed (extracted s ++ [EvFetch hs (QPortfolio (parse_addresses s))]) e) (inl e)
  | ps_upstream_error s cfg hs data errs :
      generateText ctx = inr s -> parse_addresses s <> [] -> config = inr cfg ->
      getZapperHeaders cfg = inr hs -> fetchPortfolio hs (parse_addresses s) = inr data ->
      gql_errors data = Some errs ->
      portfolio_spec (failed (extracted s ++ [EvFetch hs (QPortfolio (parse_addresses s));
                                              upstream_log errs])
                             (Error "Failed to fetch data from Zapper API"))
        (inl (Error "Failed to fetch data from Zapper API"))
  | ps_format_error s cfg hs data e :
      generateText ctx = inr s -> parse_addresses s <> [] -> config = inr cfg ->
      getZapperHeaders cfg = inr hs -> fetchPortfolio hs (parse_addresses s) = inr data ->
      gql_errors data = None -> Portfolio.formatPortfolioData data = inl e ->
      portfolio_spec (failed (extracted s ++ [EvFetch hs (QPortfolio (parse_addresses s));
                                              format_log e]) e) (inl e)
  | ps_store_error s cfg hs data report m e :
      generateText ctx = inr s -> parse_addresses s <> [] -> config = inr cfg ->
      getZapperHeaders cfg = inr hs -> fetchPortfolio hs (parse_addresses s) = inr data ->
      gql_errors data = None -> Portfolio.formatPortfolioData data = inr report ->
      response_record message report m -> createMemory m = inl e ->
      portfolio_spec (failed (extracted s ++ [EvFetch hs (QPortfolio (parse_addresses s));
                                              EvCreateMemory m]) e) (inl e)
  | ps_success s cfg hs data report m :
      generateText ctx = inr s -> parse_addresses s <> [] -> config = inr cfg ->
      getZapperHeaders cfg = inr hs -> fetchPortfolio hs (parse_addresses s) = inr data ->
      gql_errors data = None -> Portfolio.formatPortfolioData data = inr report ->
      response_record message report m -> createMemory m = inr tt ->
      portfolio_spec (extracted s ++ [EvFetch hs (QPortfolio (parse_addresses s)); EvCreateMemory m]
                      ++ callback_events (content m)) (inr true).

End PortfolioSpec.

Lemma response_memory_record (message : Memory) (report : string) :
  response_record message report (response_memory message report).
Proof.
  repeat split.
  exists (emoji_zap <+> " Here is the portfolio for the provided addresses:" <+> nl <+> nl).
  cbn [text content response_memory]. now rewrite ?append_assoc_str.
Qed.

(** Close a leaf of the refinement proof: the events are the ones appended
    to the trace, and the rule [r] of the specification applies. *)
Ltac spec_leaf r :=
  eexists; split; [rewrite <- ?app_assoc; reflexivity | cbn [app]; eapply r; eauto].

Lemma portfolio_run_spec `{Runtime} (message : Memory) (cb : bool) (tr : list event) :
  exists evs, snd (portfolio_handler message cb tr) = tr ++ evs
    /\ portfolio_spec message cb evs (fst (portfolio_handler message cb tr)).
Proof.
  unfold portfolio_handler, portfolio_try, portfolio_catch, call_generateText, getZapperAssets.
  run_step.
  destruct (generateText _) as [e|s] eqn:Eg; run_step; [spec_leaf ps_model_error|].
  destruct (parse_addresses s) as [|a r] eqn:Ep; run_step; [spec_leaf ps_no_addresses|].
  assert (Hne : parse_addresses s <> []) by (rewrite Ep; discriminate).
  rewrite <- Ep.
  destruct (validateZapperConfig _ _) as [e|cfg] eqn:Ec; run_step; [spec_leaf ps_config_error|].
  destruct (getZapperHeaders cfg) as [e|hs] eqn:Eh; run_step; [spec_leaf ps_header_error|].
  destruct (fetchPortfolio hs _) as [e|data] eqn:Ef; run_step; [spec_leaf ps_request_error|].
  destruct (gql_errors data) as [errs|] eqn:Ee; run_step; [spec_leaf ps_upstream_error|].
  destruct (Portfolio.formatPortfolioData data) as [e|report] eqn:Er; run_step;
    [spec_leaf ps_format_error|].
  pose proof (response_memory_record message report) as Hrec.
  destruct (createMemory _) as [e|[]] eqn:Em; run_step; [spec_leaf ps_store_error|].
  unfold invoke_callback; destruct cb; run_step; spec_leaf ps_success.
Qed.

(** C3: The handler refines its specification: from any trace, on any host,
    a run appends events that the specification allows for its outcome. *)
Theorem portfolio_handler_refines `{Runtime} (message : Memory) (cb : bool) (tr : list event) :
  exists evs, snd (portfolio_handler message cb tr) = tr ++ evs
    /\ portfolio_spec message cb evs (fst (portfolio_handler message cb tr)).
Proof. exact (portfolio_run_spec message cb tr). Qed.

(** What every run the specification allows does: one model call, at
    most one request, one memory and one callback, and no callback when
    the run fails. *)
Lemma portfolio_spec_counts `{Runtime} (message : Memory) (cb : bool) (evs : list event)
    (r : result bool) :
  portfolio_spec message cb evs r ->
  count is_model evs = 1 /\ count is_fetch evs <= 1 /\ count is_memory evs <= 1
  /\ count is_callback evs <= 1 /\ (forall e, r = inl e -> count is_callback evs = 0).
Proof.
  intros Hs. inversion Hs; subst; unfold callback_events; try destruct cb;
    cbn; repeat split; auto; discriminate.
Qed.

(** A successful run makes exactly one request and writes one memory. *)
Lemma portfolio_spec_success `{Runtime} (message : Memory) (cb : bool) (evs : list event) (b : bool) :
  portfolio_spec message cb evs (inr b) -> count is_fetch evs = 1 /\ count is_memory evs = 1.
Proof. intros Hs. inversion Hs; subst; unfold callback_events; destruct cb; split; reflexivity. Qed.

(** C5: Section 5 of the specification, for the portfolio handler: a single
    model call, at most one outbound request, at most one memory written
    and one callback, and a failed run calls no callback. *)
Theorem portfolio_handler_bounds `{Runtime} (message : Memory) (cb : bool) (tr : list event) :
  exists evs, snd (portfolio_handler message cb tr) = tr ++ evs
    /\ count is_model evs = 1 /\ count is_fetch evs <= 1 /\ count is_memory evs <= 1
    /\ count is_callback evs <= 1
    /\ (forall e, fst (portfolio_handler message cb tr) = inl e -> count is_callback evs = 0).
Proof.
  destruct (portfolio_run_spec message cb tr) as (evs & Ht & Hs).
  exists evs. split; [exact Ht | exact (portfolio_spec_counts _ _ _ _ Hs)].
Qed.

(** Every failing run the specification allows ends with the handler's
    error line naming the error it fails with, and calls no callback. *)
Lemma portfolio_spec_failure `{Runtime} (message : Memory) (cb : bool) (evs : list event) (e : exn) :
  portfolio_spec message cb evs (inl e) ->
  exists pre, evs = pre ++ [failure_log e] /\ count is_callback pre = 0.
Proof.
  intros Hs. pose proof (portfolio_spec_counts _ _ _ _ Hs) as (_ & _ & _ & _ & Hc).
  specialize (Hc e eq_refl).
  inversion Hs; subst; eexists; (split; [reflexivity|]); rewrite count_app in Hc; lia.
Qed.

(** C7: Section 6 of the specification, for the portfolio handler: every
    failure, on any host and from any trace, is logged with the error
    before it is rethrown: the last event of a failing run is the line
    [Error in portfolioAction:] with the very exception the handler
    throws, and no callback was called. *)
Theorem portfolio_failure_logged `{Runtime} (message : Memory) (cb : bool) (tr : list event)
    (e : exn) :
  fst (portfolio_handler message cb tr) = inl e ->
  exists pre, snd (portfolio_handler message cb tr) = tr ++ pre ++ [failure_log e]
    /\ count is_callback pre = 0.
Proof.
  intros He. destruct (portfolio_run_spec message cb tr) as (evs & Ht & Hs). rewrite He in Hs.
  destruct (portfolio_spec_failure _ _ _ _ Hs) as (pre & -> & Hc). now exists pre.
Qed.

(** ** The handler on concrete hosts *)

Definition example_message : Memory :=
  {| userId := "user"; agentId := "agent"; roomId := "room";
     content := {| text := "What is in 0xabc, 0xdef?"; action := None;
                   source := None; c_addresses := None |} |}.

Definition example_headers : list (string * string) :=
  [("Content-Type", "application/json"); ("Authorization", "Basic dGVzdC1rZXk=")].

Definition example_config : ZapperConfig := {| ZAPPER_API_KEY := "test-key" |}.

Example parse_join_addresses_example :
  parse_addresses (JsString.join ", " ["0xabc"; "0xdef"]) = ["0xabc"; "0xdef"].
Proof.
  apply parse_join_addresses.
  repeat constructor; try discriminate; reflexivity.
Qed.

Lemma portfolio_model_error_witness :
  @portfolio_handler (example_host (JString "test-key") (inl (Error "model unavailable"))
                        example_portfolio_data example_farcaster_data) example_message true []
  = (inl (Error "model unavailable"),
     [EvGenerateText (portfolio_context (text (content example_message)));
      failure_log (Error "model unavailable")]).
Proof. apply portfolio_model_error. vm_compute. reflexivity. Defined.

Lemma portfolio_no_addresses_witness :
  @portfolio_handler (example_host (JString "test-key") (ok " , ")
                        example_portfolio_data example_farcaster_data) example_message true []
  = (inl (Error "No wallet addresses found in the message"),
     [EvGenerateText (portfolio_context (text (content example_message))); addresses_log [];
      failure_log (Error "No wallet addresses found in the message")]).
Proof. apply (portfolio_no_addresses example_message true [] " , "); vm_compute; reflexivity. Defined.

Lemma portfolio_failure_logged_witness :
  exists pre,
    snd (@portfolio_handler (example_host (JString "test-key") (ok " , ")
                               example_portfolio_data example_farcaster_data) example_message true [])
    = [] ++ pre ++ [failure_log (Error "No wallet addresses found in the message")]
    /\ count is_callback pre = 0.
Proof.
  apply (@portfolio_failure_logged (example_host (JString "test-key") (ok " , ")
                                      example_portfolio_data example_farcaster_data)).
  vm_compute. reflexivity.
Defined.

Lemma portfolio_config_error_witness :
  @portfolio_handler (example_host JUndefined (ok "0xabc, 0xdef")
                        example_portfolio_data example_farcaster_data) example_message false []
  = (inl (Error (config_error_prefix <+> "Required")),
     [EvGenerateText (portfolio_context (text (content example_message)));
      addresses_log ["0xabc"; "0xdef"]; failure_log (Error (config_error_prefix <+> "Required"))]).
Proof.
  apply (portfolio_config_error example_message false [] "0xabc, 0xdef"); vm_compute; [reflexivity | discriminate | reflexivity].
Defined.

Lemma portfolio_upstream_error_witness :
  @portfolio_handler (example_host (JString "test-key") (ok "0xabc, 0xdef")
                        {| gql_data := None; gql_errors := Some ["rate limited"] |}
                        example_farcaster_data) example_message true []
  = (inl (Error "Failed to fetch data from Zapper API"),
     [EvGenerateText (portfolio_context (text (content example_message)));
      addresses_log ["0xabc"; "0xdef"]; EvFetch example_headers (QPortfolio ["0xabc"; "0xdef"]);
      upstream_log ["rate limited"]; failure_log (Error "Failed to fetch data from Zapper API")]).
Proof.
  apply (@portfolio_upstream_error (example_host (JString "test-key") (ok "0xabc, 0xdef")
                        {| gql_data := None; gql_errors := Some ["rate limited"] |}
                        example_farcaster_data) example_message true [] "0xabc, 0xdef" example_config example_headers
           {| gql_data := None; gql_errors := Some ["rate limited"] |}
           ltac:(vm_compute; reflexivity) ltac:(vm_compute; discriminate)
           ltac:(vm_compute; reflexivity) ltac:(vm_compute; reflexivity)
           ltac:(vm_compute; reflexivity) ["rate limited"] eq_refl).
Defined.

Lemma portfolio_missing_data_witness :
  exists prop, @portfolio_handler (example_host (JString "test-key") (ok "0xabc, 0xdef")
                        {| gql_data := None; gql_errors := None |}
                        example_farcaster_data) example_message true []
  = (inl (TypeError prop),
     [EvGenerateText (portfolio_context (text (content example_message)));
      addresses_log ["0xabc"; "0xdef"]; EvFetch example_headers (QPortfolio ["0xabc"; "0xdef"]);
      format_log (TypeError prop); failure_log (TypeError prop)]).
Proof.
  apply (@portfolio_missing_data (example_host (JString "test-key") (ok "0xabc, 0xdef")
                        {| gql_data := None; gql_errors := None |}
                        example_farcaster_data) example_message true [] "0xabc, 0xdef" example_config example_headers
           {| gql_data := None; gql_errors := None |}
           ltac:(vm_compute; reflexivity) ltac:(vm_compute; discriminate)
           ltac:(vm_compute; reflexivity) ltac:(vm_compute; reflexivity)
           ltac:(vm_compute; reflexivity) eq_refl (or_introl eq_refl)).
Defined.

Lemma portfolio_success_witness :
  @portfolio_handler example_runtime example_message true []
  = (inr true, success_events example_message true example_headers ["0xabc"; "0xdef"]
                 (response_memory example_message (Portfolio.render Portfolio.example_portfolio))).
Proof.
  apply (@portfolio_success example_runtime example_message true [] "0xabc, 0xdef" example_config example_headers
           example_portfolio_data
           ltac:(vm_compute; reflexivity) ltac:(vm_compute; discriminate)
           ltac:(vm_compute; reflexivity) ltac:(vm_compute; reflexivity)
           ltac:(vm_compute; reflexivity) _ Portfolio.example_portfolio
           eq_refl eq_refl eq_refl eq_refl).
Defined.

End PortfolioAction.
