(* ===== verification/FarcasterAction.v ===== *)
(** * farcasterPortfolioAction and the plugin (src/dist/index.js, lines 272-367)

    The FARCASTER_PORTFOLIO action: [getFarcasterAddresses] is the nested
    function of lines 281-322, [farcaster_handler] the handler of lines
    280-359, made of its [try] block [farcaster_try] and its [catch]
    block [farcaster_catch], with every logger call a log event.  The handler ends by calling [runtime.processActions] on the
    memory it wrote (line 353); that runtime function is not part of this
    repository, so [processActions] is modelled from the specification
    (section 4.6 and 6): every response whose action names one of the
    plugin's actions (by name or simile) runs that action's handler on the
    message, and a failure propagates.  The handler and the dispatch call
    each other, so [processActions] takes fuel; [farcaster_fuel] shows one
    level is enough for this plugin.  The actions' [examples] (lines 9-34
    and 244-269) are data of the plugin.  The last section shows what holds of every run: a success
    has written the report. *)

From Stdlib Require Import String Ascii List Bool Arith Lia.
From S2P Require Import Prelude JsString Portfolio Farcaster Base64 Config Runtime PortfolioAction.
Import ListNotations.
Local Open Scope string_scope.
Local Open Scope list_scope.
Local Open Scope zap_scope.

Module FarcasterAction.

Import Config Base64 Runtime PortfolioAction.

(** The prompt of lines 324-325. *)
Definition farcaster_context (message_text : string) : string :=
  "Extract the Farcaster username from this text, returning it as a string with no @ symbols or other text. The message is:"
  <+> nl <+> "            " <+> message_text.

(** The memory of lines 338-348: it names the next action. *)
Definition resolved_memory (message : Memory) (addrs : list string) : Memory :=
  {| userId := userId message; agentId := agentId message; roomId := roomId message;
     content := {| text := "Fetching portfolio for addresses: " <+> JsString.join ", " addrs;
                   action := Some "ZAPPER_PORTFOLIO";
                   source := source (content message);
                   c_addresses := Some addrs |} |}.

(** ** The plugin's actions (lines 126-133, 272-279, 363-367) *)

Inductive PluginAction : Type := ZapperPortfolio | FarcasterPortfolio.

Definition action_name (a : PluginAction) : string :=
  match a with
  | ZapperPortfolio => "ZAPPER_PORTFOLIO"
  | FarcasterPortfolio => "FARCASTER_PORTFOLIO"
  end.

Definition action_similes (a : PluginAction) : list string :=
  match a with
  | ZapperPortfolio => ["GET_PORTFOLIO"]
  | FarcasterPortfolio => ["GET_FARCASTER_PORTFOLIO"]
  end.

(** [description] *)
Definition action_description (a : PluginAction) : string :=
  match a with
  | ZapperPortfolio => "Get the portfolio from given address or addresses"
  | FarcasterPortfolio => "Get the portfolio for one or more Farcaster usernames"
  end.

(** [validate: async (runtime, message) => true] *)
Definition action_validate (a : PluginAction) (message : Memory) : bool := true.

(** The example dialogues of lines 9-34 and 244-269: a user message,
    then the agent's reply naming the action. *)
Record ExampleMessage := mkExampleMessage {
  ex_user : string; ex_text : string; ex_action : option string }.

Definition examples_default : list (list ExampleMessage) :=
  [[{| ex_user := "{{user1}}";
       ex_text := "Show me the holdings for 0x187c7b0393ebe86378128f2653d0930e33218899";
       ex_action := None |};
    {| ex_user := "{{user2}}"; ex_text := EmptyString; ex_action := Some "ZAPPER_PORTFOLIO" |}];
   [{| ex_user := "{{user1}}";
       ex_text := "Check these wallets: 0xd8da6bf26964af9d7eed9e03e53415d37aa96045, 0xadd746be46ff36f10c81d6e3ba282537f4c68077";
       ex_action := None |};
    {| ex_user := "{{user2}}"; ex_text := EmptyString; ex_action := Some "ZAPPER_PORTFOLIO" |}]].

Definition examples_default2 : list (list ExampleMessage) :=
  [[{| ex_user := "{{user1}}";
       ex_text := "Show me the holdings for Farcaster users @vitalik.eth and @jessepollak";
       ex_action := None |};
    {| ex_user := "{{user2}}"; ex_text := EmptyString; ex_action := Some "FARCASTER_PORTFOLIO" |}];
   [{| ex_user := "{{user1}}"; ex_text := "What's the portfolio for @dwr.eth?"; ex_action := None |};
    {| ex_user := "{{user2}}"; ex_text := EmptyString; ex_action := Some "FARCASTER_PORTFOLIO" |}]].

(** [examples] of each action. *)
Definition action_examples (a : PluginAction) : list (list ExampleMessage) :=
  match a with ZapperPortfolio => examples_default | FarcasterPortfolio => examples_default2 end.

(** [zapperPlugin]: its name, its description and its actions. *)
Definition zapperPlugin_name : string := "zapper".

Definition zapperPlugin_description : string :=
  "A plugin for integrating the Zapper API with your application.".

Definition zapperPlugin_actions : list PluginAction := [ZapperPortfolio; FarcasterPortfolio].

(** The runtime's lookup of an action by name or simile. *)
Definition find_action (name : string) : option PluginAction :=
  find (fun a => String.eqb (action_name a) name || existsb (String.eqb name) (action_similes a))
       zapperPlugin_actions.

Section WithRuntime.
Context `{Runtime}.

(** [getFarcasterAddresses(username)]: the errors of the response are
    logged before the throw; the formatting is wrapped in a [try] whose
    [catch] logs and rethrows. *)
Definition getFarcasterAddresses (username : string) : M Farcaster.FarcasterAddresses :=
  config <- lift (validateZapperConfig (getSetting "ZAPPER_API_KEY") (process_env "ZAPPER_API_KEY")) ;;
  headers <- lift (getZapperHeaders config) ;;
  emit (EvFetch headers (QFarcaster username)) ;;
  data <- lift (fetchFarcaster headers username) ;;
  match gql_errors data with
  | Some errs =>
      log LError [LogErrors errs; LogText "Zapper API returned errors"] ;;
      raise (Error "Failed to fetch Farcaster addresses")
  | None =>
      try_catch (ret (Farcaster.formatFarcasterData data))
        (fun error => log LError [LogObjError error; LogText "Error formatting portfolio data"] ;;
                      raise error)
  end.

(** The [try] block of [farcasterPortfolioAction.handler] (lines
    323-354), given the runtime's [processActions]. *)
Definition farcaster_try (processActions : Memory -> list Memory -> bool -> M unit)
    (message : Memory) (cb : bool) : M bool :=
  usernameText <- call_generateText (farcaster_context (text (content message))) ;;
  let username := usernameText in
  log LInfo [LogUsername username; LogText "Extracted Farcaster username"] ;;
  formatted <- getFarcasterAddresses username ;;
  let addrs := Farcaster.addresses formatted in
  match addrs with
  | [] => raise (Error "No addresses found for these Farcaster accounts")
  | _ :: _ =>
      let newMemory := resolved_memory message addrs in
      emit (EvCreateMemory newMemory) ;;
      lift (createMemory newMemory) ;;
      invoke_callback cb (content newMemory) ;;
      processActions newMemory [newMemory] cb ;;
      ret true
  end.

(** Its [catch] block (lines 355-358): log and rethrow. *)
Definition farcaster_catch (error : exn) : M bool :=
  log LError [LogText "Error in farcasterPortfolio:"; LogExn error] ;; raise error.

(** [farcasterPortfolioAction.handler] *)
Definition farcaster_handler (processActions : Memory -> list Memory -> bool -> M unit)
    (message : Memory) (cb : bool) : M bool :=
  try_catch (farcaster_try processActions message cb) farcaster_catch.

Fixpoint iter_M {A : Type} (f : A -> M unit) (l : list A) : M unit :=
  match l with
  | [] => ret tt
  | x :: r => f x ;; iter_M f r
  end.

(** [runtime.processActions(message, responses, state, callback)] *)
Fixpoint processActions (fuel : nat) (message : Memory) (responses : list Memory) (cb : bool)
    : M unit :=
  match fuel with
  | O => ret tt
  | S f =>
      iter_M (fun response =>
        match action (content response) with
        | None => ret tt
        | Some name =>
            match find_action name with
            | None => ret tt
            | Some ZapperPortfolio => portfolio_handler message cb ;; ret tt
            | Some FarcasterPortfolio => farcaster_handler (processActions f) message cb ;; ret tt
            end
        end) responses
  end.

End WithRuntime.

(** ** The dispatch of the memory the handler writes *)

Lemma find_action_zapper : find_action "ZAPPER_PORTFOLIO" = Some ZapperPortfolio.
Proof. reflexivity. Qed.

(** The memory the Farcaster handler writes names ZAPPER_PORTFOLIO, so with
    any fuel left the dispatch runs the portfolio handler on it, once. *)
Lemma dispatch_resolved `{Runtime} (f : nat) (m message : Memory) (addrs : list string)
    (cb : bool) (tr : list event) :
  processActions (S f) m [resolved_memory message addrs] cb tr
  = bind (portfolio_handler m cb) (fun _ => ret tt) tr.
Proof.
  cbn [processActions iter_M resolved_memory action content].
  rewrite find_action_zapper, bind_assoc. unfold bind.
  destruct (portfolio_handler m cb tr) as [[e|b] tr']; reflexivity.
Qed.

(** The log lines of the Farcaster handler: the username (line 333) and
    its own error line (line 356). *)
Definition username_log (u : string) : event :=
  EvLog LInfo [LogUsername u; LogText "Extracted Farcaster username"].

Definition farcaster_failure_log (e : exn) : event :=
  EvLog LError [LogText "Error in farcasterPortfolio:"; LogExn e].

Section HandlerProperties.
Context `{Runtime}.
Variables (P : Memory -> list Memory -> bool -> M unit) (message : Memory) (cb : bool)
          (tr : list event).

Let fctx : string := farcaster_context (text (content message)).

(** The handler depends on the runtime's [processActions] only through
    its run on the memory the handler writes. *)
Lemma farcaster_handler_ext (P' : Memory -> list Memory -> bool -> M unit) :
  (forall addrs tr', P (resolved_memory message addrs) [resolved_memory message addrs] cb tr'
                     = P' (resolved_memory message addrs) [resolved_memory message addrs] cb tr') ->
  farcaster_handler P message cb tr = farcaster_handler P' message cb tr.
Proof.
  intros E. unfold farcaster_handler, try_catch.
  assert (Ht : farcaster_try P message cb tr = farcaster_try P' message cb tr) by
    (unfold farcaster_try, call_generateText; run_step;
     destruct (generateText _) as [e|u]; run_step; [reflexivity|];
     destruct (getFarcasterAddresses u _) as [[e|f] tr2]; run_step; [reflexivity|];
     destruct (Farcaster.addresses f) as [|a r]; run_step; [reflexivity|];
     destruct (createMemory _) as [e|[]]; [reflexivity|];
     unfold invoke_callback; destruct cb; run_step; rewrite E; reflexivity).
  now rewrite Ht.
Qed.

(** A failure of the language model is the handler's failure, logged,
    before any request. *)
Theorem farcaster_model_error (e : exn) :
  generateText fctx = inl e ->
  farcaster_handler P message cb tr = (inl e, tr ++ [EvGenerateText fctx; farcaster_failure_log e]).
Proof.
  intros Hg. unfold farcaster_handler, farcaster_try, farcaster_catch, call_generateText.
  run_step. fold fctx. rewrite Hg. now rewrite <- app_assoc.
Qed.

(** A missing or empty API key fails the handler before the Farcaster
    request; the username is logged, not checked. *)
Theorem farcaster_config_error (u : string) (e : exn) :
  generateText fctx = ok u ->
  validateZapperConfig (getSetting "ZAPPER_API_KEY") (process_env "ZAPPER_API_KEY") = inl e ->
  farcaster_handler P message cb tr
  = (inl e, tr ++ [EvGenerateText fctx; username_log u; farcaster_failure_log e]).
Proof.
  intros Hg Hc. unfold farcaster_handler, farcaster_try, farcaster_catch, call_generateText,
    getFarcasterAddresses.
  run_step. fold fctx. rewrite Hg. run_step. rewrite Hc. now rewrite <- !app_assoc.
Qed.

Section AfterRequest.
Variables (u : string) (cfg : ZapperConfig) (hs : list (string * string))
          (data : Farcaster.response).
Hypothesis Hgen : generateText fctx = ok u.
Hypothesis Hcfg : validateZapperConfig (getSetting "ZAPPER_API_KEY")
                    (process_env "ZAPPER_API_KEY") = ok cfg.
Hypothesis Hhdr : getZapperHeaders cfg = ok hs.
Hypothesis Hfetch : fetchFarcaster hs u = ok data.

Let sent : list event := [EvGenerateText fctx; username_log u; EvFetch hs (QFarcaster u)].

(** The run up to the Farcaster response: one model call, the log of the
    username, then the request for the username exactly as the model
    wrote it.  [formatFarcasterData] cannot throw, so its [catch] block
    never runs. *)
Lemma run_to_farcaster_response :
  farcaster_handler P message cb tr =
  try_catch
    (bind (match gql_errors data with
           | Some errs =>
               log LError [LogErrors errs; LogText "Zapper API returned errors"] ;;
               raise (Error "Failed to fetch Farcaster addresses")
           | None => ret (Farcaster.formatFarcasterData data)
           end)
          (fun formatted => match Farcaster.addresses formatted with
             | [] => raise (Error "No addresses found for these Farcaster accounts")
             | _ :: _ =>
                 emit (EvCreateMemory (resolved_memory message (Farcaster.addresses formatted))) ;;
                 lift (createMemory (resolved_memory message (Farcaster.addresses formatted))) ;;
                 invoke_callback cb (content (resolved_memory message (Farcaster.addresses formatted))) ;;
                 P (resolved_memory message (Farcaster.addresses formatted))
                   [resolved_memory message (Farcaster.addresses formatted)] cb ;;
                 ret true
             end))
    farcaster_catch (tr ++ sent).
Proof.
  unfold farcaster_handler, farcaster_try, call_generateText, getFarcasterAddresses, sent.
  unfold try_catch at 1. run_step. fold fctx. rewrite Hgen. run_step. rewrite Hcfg. run_step.
  rewrite Hhdr. run_step. rewrite Hfetch. run_step. rewrite <- !app_assoc.
  destruct (gql_errors data); reflexivity.
Qed.

(** A response with [errors] fails the handler, logged twice (the
    response's errors, then the handler's line); no memory is written. *)
Theorem farcaster_upstream_error (errs : list string) :
  gql_errors data = Some errs ->
  farcaster_handler P message cb tr
  = (inl (Error "Failed to fetch Farcaster addresses"),
     tr ++ sent ++ [upstream_log errs; farcaster_failure_log (Error "Failed to fetch Farcaster addresses")]).
Proof.
  intros He. rewrite run_to_farcaster_response, He. unfold farcaster_catch. run_step.
  now rewrite <- !app_assoc.
Qed.

(** C29: A profile with no truthy address (or no profile at all) fails the
    handler, logged; no memory is written. *)
Theorem farcaster_no_addresses :
  gql_errors data = None -> Farcaster.addresses (Farcaster.formatFarcasterData data) = [] ->
  farcaster_handler P message cb tr
  = (inl (Error "No addresses found for these Farcaster accounts"),
     tr ++ sent ++ [farcaster_failure_log (Error "No addresses found for these Farcaster accounts")]).
Proof.
  intros He Ha. rewrite run_to_farcaster_response, He. unfold farcaster_catch. run_step.
  rewrite Ha. run_step. now rewrite <- !app_assoc.
Qed.

End AfterRequest.

End HandlerProperties.

(** C28: One level of [processActions] is enough: the memory the handler writes
    runs the portfolio handler, which dispatches nothing, so every fuel
    [S f] gives the same run as fuel 1. *)
Theorem farcaster_fuel `{Runtime} (f : nat) (message : Memory) (cb : bool) (tr : list event) :
  farcaster_handler (processActions (S f)) message cb tr
  = farcaster_handler (processActions 1) message cb tr.
Proof. apply farcaster_handler_ext. intros addrs tr'. now rewrite !dispatch_resolved. Qed.

Section EndToEnd.
Context `{Runtime}.
Variables (message : Memory) (cb : bool) (tr : list event).
Variables (u : string) (cfg : ZapperConfig) (hs : list (string * string))
          (fdata : Farcaster.response) (addrs : list string)
          (pdata : Portfolio.response) (d : Portfolio.PortfolioData) (p : Portfolio.Portfolio).

Let fctx : string := farcaster_context (text (content message)).
Let m1 : Memory := resolved_memory message addrs.

Hypothesis Hgen : generateText fctx = ok u.
Hypothesis Hcfg : validateZapperConfig (getSetting "ZAPPER_API_KEY")
                    (process_env "ZAPPER_API_KEY") = ok cfg.
Hypothesis Hhdr : getZapperHeaders cfg = ok hs.
Hypothesis Hfetch : fetchFarcaster hs u = ok fdata.
Hypothesis Hferr : gql_errors fdata = None.
Hypothesis Haddrs : Farcaster.addresses (Farcaster.formatFarcasterData fdata) = addrs.
Hypothesis Hne : addrs <> [].
Hypothesis Hwf : Forall well_formed_address addrs.
Hypothesis Hm1 : createMemory m1 = ok tt.
(** The model, asked for the addresses of the memory's text, answers
    with the addresses as that text lists them. *)
Hypothesis Hecho : generateText (portfolio_context (text (content m1)))
                   = ok (JsString.join ", " addrs).
Hypothesis Hpfetch : fetchPortfolio hs addrs = ok pdata.
Hypothesis Hperr : gql_errors pdata = None.
Hypothesis Hpdata : gql_data pdata = Some d.
Hypothesis Hport : Portfolio.portfolio d = Some p.
Hypothesis Hm2 : createMemory (response_memory m1 (Portfolio.render p)) = ok tt.

End EndToEnd.

(** ** The step sequence of the specification (section 4.6)

    [farcaster_spec message cb evs r]: one rule per way a run of the
    Farcaster handler ends.  The last rule is the re-entry: after the
    memory and the callback, the dispatched portfolio run is any run its
    own specification [portfolio_spec] allows on the memory written, and
    its failure is the handler's. *)

(** The record written before the re-entry: the message's ids, the next
    action ZAPPER_PORTFOLIO and the resolved addresses attached. *)
Definition next_action_record (message : Memory) (addrs : list string) (m : Memory) : Prop :=
  userId m = userId message /\ agentId m = agentId message /\ roomId m = roomId message
  /\ action (content m) = Some "ZAPPER_PORTFOLIO" /\ c_addresses (content m) = Some addrs.

Section FarcasterSpec.
Context `{Runtime}.
Variables (message : Memory) (cb : bool).

Let fctx : string := farcaster_context (text (content message)).
Let config : result ZapperConfig :=
  validateZapperConfig (getSetting "ZAPPER_API_KEY") (process_env "ZAPPER_API_KEY").

(** Section 6: a failure, the portfolio run's included, is logged with the
    error before it is rethrown; the username is logged once extracted. *)
Let failed (evs : list event) (e : exn) : list event := evs ++ [farcaster_failure_log e].
Let named (u : string) : list event := [EvGenerateText fctx; username_log u].

Inductive farcaster_spec : list event -> result bool -> Prop :=
  | fs_model_error e :
      generateText fctx = inl e ->
      farcaster_spec (failed [EvGenerateText fctx] e) (inl e)
  | fs_config_error u e :
      generateText fctx = inr u -> config = inl e ->
      farcaster_spec (failed (named u) e) (inl e)
  | fs_header_error u cfg e :
      generateText fctx = inr u -> config = inr cfg -> getZapperHeaders cfg = inl e ->
      farcaster_spec (failed (named u) e) (inl e)
  | fs_request_error u cfg hs e :
      generateText fctx = inr u -> config = inr cfg -> getZapperHeaders cfg = inr hs ->
      fetchFarcaster hs u = inl e ->
      farcaster_spec (failed (named u ++ [EvFetch hs (QFarcaster u)]) e) (inl e)
  | fs_upstream_error u cfg hs data errs :
      generateText fctx = inr u -> config = inr cfg -> getZapperHeaders cfg = inr hs ->
      fetchFarcaster hs u = inr data -> gql_errors data = Some errs ->
      farcaster_spec (failed (named u ++ [EvFetch hs (QFarcaster u); upstream_log errs])
                             (Error "Failed to fetch Farcaster addresses"))
        (inl (Error "Failed to fetch Farcaster addresses"))
  | fs_no_addresses u cfg hs data :
      generateText fctx = inr u -> config = inr cfg -> getZapperHeaders cfg = inr hs ->
      fetchFarcaster hs u = inr data -> gql_errors data = None ->
      Farcaster.addresses (Farcaster.formatFarcasterData data) = [] ->
      farcaster_spec (failed (named u ++ [EvFetch hs (QFarcaster u)])
                             (Error "No addresses found for these Farcaster accounts"))
        (inl (Error "No addresses found for these Farcaster accounts"))
  | fs_store_error u cfg hs data m e :
      generateText fctx = inr u -> config = inr cfg -> getZapperHeaders cfg = inr hs ->
      fetchFarcaster hs u = inr data -> gql_errors data = None ->
      Farcaster.addresses (Farcaster.formatFarcasterData data) <> [] ->
      next_action_record message (Farcaster.addresses (Farcaster.formatFarcasterData data)) m ->
      createMemory m = inl e ->
      farcaster_spec (failed (named u ++ [EvFetch hs (QFarcaster u); EvCreateMemory m]) e) (inl e)
  | fs_dispatched u cfg hs data m evs r :
      generateText fctx = inr u -> config = inr cfg -> getZapperHeaders cfg = inr hs ->
      fetchFarcaster hs u = inr data -> gql_errors data = None ->
      Farcaster.addresses (Farcaster.formatFarcasterData data) <> [] ->
      next_action_record message (Farcaster.addresses (Farcaster.formatFarcasterData data)) m ->
      createMemory m = inr tt ->
      portfolio_spec m cb evs r ->
      farcaster_spec (named u ++ [EvFetch hs (QFarcaster u); EvCreateMemory m]
                      ++ callback_events cb (content m) ++ evs
                      ++ match r with inl e => [farcaster_failure_log e] | inr _ => [] end)
        (match r with inl e => inl e | inr _ => inr true end).

End FarcasterSpec.

Lemma resolved_memory_record (message : Memory) (addrs : list string) :
  next_action_record message addrs (resolved_memory message addrs).
Proof. repeat split. Qed.

Lemma farcaster_run_spec `{Runtime} (f : nat) (message : Memory) (cb : bool) (tr : list event) :
  exists evs, snd (farcaster_handler (processActions (S f)) message cb tr) = tr ++ evs
    /\ farcaster_spec message cb evs (fst (farcaster_handler (processActions (S f)) message cb tr)).
Proof.
  unfold farcaster_handler, farcaster_try, farcaster_catch, call_generateText, getFarcasterAddresses.
  run_step.
  destruct (generateText _) as [e|u] eqn:Eg; run_step; [spec_leaf fs_model_error|].
  destruct (validateZapperConfig _ _) as [e|cfg] eqn:Ec; run_step; [spec_leaf fs_config_error|].
  destruct (getZapperHeaders cfg) as [e|hs] eqn:Eh; run_step; [spec_leaf fs_header_error|].
  destruct (fetchFarcaster hs u) as [e|data] eqn:Ef; run_step; [spec_leaf fs_request_error|].
  destruct (gql_errors data) as [errs|] eqn:Ee; run_step; [spec_leaf fs_upstream_error|].
  destruct (Farcaster.addresses (Farcaster.formatFarcasterData data)) as [|a r] eqn:Ea; run_step;
    [spec_leaf fs_no_addresses|].
  assert (Hne : Farcaster.addresses (Farcaster.formatFarcasterData data) <> [])
    by (rewrite Ea; discriminate).
  rewrite <- Ea. set (m := resolved_memory message _).
  pose proof (resolved_memory_record message (Farcaster.addresses (Farcaster.formatFarcasterData data))) as Hrec.
  destruct (createMemory m) as [e|[]] eqn:Em; run_step; [spec_leaf fs_store_error|].
  unfold invoke_callback. destruct cb; run_step; unfold m; rewrite dispatch_resolved; fold m;
    unfold bind;
    match goal with |- context [portfolio_handler m ?c ?t] =>
      destruct (portfolio_run_spec m c t) as (evs & Ht & Hs);
      destruct (portfolio_handler m c t) as [[e|b] tr'']
    end; cbn [fst snd] in Ht, Hs |- *; subst; run_step.
  all: eexists; split; [rewrite <- ?app_assoc; reflexivity|].
  all: cbn [fst app];
    first [ exact (fs_dispatched _ _ _ _ _ _ m evs (inl e) Eg Ec Eh Ef Ee Hne Hrec Em Hs)
          | rewrite <- (app_nil_r evs);
            exact (fs_dispatched _ _ _ _ _ _ m evs (inr b) Eg Ec Eh Ef Ee Hne Hrec Em Hs) ].
Qed.
(** C4: The handler, with the runtime's dispatch, refines its specification:
    from any trace, on any host, with any fuel left, a run appends events
    that [farcaster_spec] allows for its outcome. *)
Theorem farcaster_handler_refines `{Runtime} (f : nat) (message : Memory) (cb : bool)
    (tr : list event) :
  exists evs, snd (farcaster_handler (processActions (S f)) message cb tr) = tr ++ evs
    /\ farcaster_spec message cb evs (fst (farcaster_handler (processActions (S f)) message cb tr)).
Proof. exact (farcaster_run_spec f message cb tr). Qed.

Lemma farcaster_spec_counts `{Runtime} (message : Memory) (cb : bool) (evs : list event)
    (r : result bool) :
  farcaster_spec message cb evs r ->
  count is_model evs <= 2 /\ count is_fetch evs <= 2 /\ count is_memory evs <= 2
  /\ count is_callback evs <= 2
  /\ (r = inr true -> count is_model evs = 2 /\ count is_fetch evs = 2 /\ count is_memory evs = 2).
Proof.
  intros Hs. inversion Hs as [| | | | | | |u cfg hs data m evs' r' Hg Hc Hh Hf He Hne Hrec Hm Hp];
    subst; [cbn; repeat split; auto; discriminate .. |].
  destruct (portfolio_spec_counts _ _ _ _ Hp) as (Cm & Cf & Cs & Cc & _).
  unfold callback_events, username_log, farcaster_failure_log.
  destruct r' as [e|b], cb; count_events.
  all: repeat split; try lia; try discriminate.
  all: destruct (portfolio_spec_success _ _ _ _ Hp); lia.
Qed.

(** C6: Section 5 of the specification, for the Farcaster handler run by
    the runtime: the re-entrant portfolio run is part of the call, so a
    run makes at most two model calls, two requests, two memories and
    two callbacks, and a successful run makes exactly two model calls,
    two requests and writes two memories. *)
Theorem farcaster_handler_bounds `{Runtime} (f : nat) (message : Memory) (cb : bool)
    (tr : list event) :
  exists evs, snd (farcaster_handler (processActions (S f)) message cb tr) = tr ++ evs
    /\ count is_model evs <= 2 /\ count is_fetch evs <= 2 /\ count is_memory evs <= 2
    /\ count is_callback evs <= 2
    /\ (fst (farcaster_handler (processActions (S f)) message cb tr) = inr true ->
        count is_model evs = 2 /\ count is_fetch evs = 2 /\ count is_memory evs = 2).
Proof.
  destruct (farcaster_run_spec f message cb tr) as (evs & Ht & Hs).
  exists evs. split; [exact Ht | exact (farcaster_spec_counts _ _ _ _ Hs)].
Qed.

(** Every failing run the specification allows ends with the Farcaster
    handler's error line naming the error it fails with; when the failure
    is the dispatched portfolio run's (the run made its second model
    call), the portfolio handler's error line comes just before it. *)
Lemma farcaster_spec_failure `{Runtime} (message : Memory) (cb : bool) (evs : list event) (e : exn) :
  farcaster_spec message cb evs (inl e) ->
  exists pre, evs = pre ++ [farcaster_failure_log e]
    /\ (count is_model pre = 2 -> exists pre', pre = pre' ++ [failure_log e]).
Proof.
  intros Hs.
  inversion Hs as [| | | | | | |u cfg hs data m evs' r Hg Hc Hh Hf He Hne Hrec Hm Hp Heq Hr]; subst;
    try (eexists; split; [reflexivity | intros Hn; cbn in Hn; discriminate]).
  destruct r as [e'|b]; [|discriminate]. injection Hr as <-.
  destruct (portfolio_spec_failure _ _ _ _ Hp) as (pre0 & -> & _).
  match goal with
  | |- exists pre, ?a ++ ?b ++ ?c ++ (?d ++ [?x]) ++ [?y] = _ /\ _ =>
      exists ((a ++ b ++ c) ++ d ++ [x]); split;
      [now rewrite <- !app_assoc | intros _; exists ((a ++ b ++ c) ++ d); now rewrite <- !app_assoc]
  end.
Qed.

(** C8: Section 6 of the specification, for the Farcaster handler run by
    the runtime: every failure is logged with the error before it is
    rethrown, the last event being the line [Error in farcasterPortfolio:]
    with the very exception thrown; a failure of the re-entered portfolio
    run is logged by both handlers, one line after the other. *)
Theorem farcaster_failure_logged `{Runtime} (f : nat) (message : Memory) (cb : bool)
    (tr : list event) (e : exn) :
  fst (farcaster_handler (processActions (S f)) message cb tr) = inl e ->
  exists pre, snd (farcaster_handler (processActions (S f)) message cb tr)
              = tr ++ pre ++ [farcaster_failure_log e]
    /\ (count is_model pre = 2 -> exists pre', pre = pre' ++ [failure_log e]).
Proof.
  intros He. destruct (farcaster_run_spec f message cb tr) as (evs & Ht & Hs). rewrite He in Hs.
  destruct (farcaster_spec_failure _ _ _ _ Hs) as (pre & -> & Hp). now exists pre.
Qed.

(** ** Every successful Farcaster run writes the report *)

(** C10: When the Farcaster handler succeeds, the dispatched portfolio run has
    written the report: a memory of the original message's user and
    room, tagged ZAPPER_PORTFOLIO_RESPONSE, is among the events. *)
Theorem farcaster_success_writes_report `{Runtime} (f : nat) (message : Memory) (cb : bool)
    (tr : list event) :
  fst (farcaster_handler (processActions (S f)) message cb tr) = inr true ->
  exists m, In (EvCreateMemory m) (snd (farcaster_handler (processActions (S f)) message cb tr))
    /\ action (content m) = Some "ZAPPER_PORTFOLIO_RESPONSE"
    /\ userId m = userId message /\ roomId m = roomId message.
Proof.
  intros Hr. destruct (farcaster_run_spec f message cb tr) as (evs & Ht & Hs).
  rewrite Ht. rewrite Hr in Hs.
  inversion Hs as [| | | | | | |u cfg hs data m1 evs' r' Hg Hc Hh Hf He Hne Hrec Hm Hp Heq Hres];
    subst.
  destruct r' as [e|b]; [discriminate|].
  inversion Hp as [| | | | | | | |s cfg' hs' data' report m2 Hg' Hne' Hc' Hh' Hf' He' Hfmt Hrec2 Hm2];
    subst.
  destruct Hrec as (Hu1 & _ & Hr1 & _). destruct Hrec2 as (Hu2 & _ & Hr2 & Ha2 & _).
  exists m2. split; [|split; [exact Ha2 | split; congruence]].
  rewrite ?in_app_iff. cbn [In]. intuition auto.
Qed.

(** ** The handler on concrete hosts *)

Definition example_farcaster_message : Memory :=
  {| userId := "user"; agentId := "agent"; roomId := "room";
     content := {| text := "Show me the portfolio of @alice"; action := None;
                   source := None; c_addresses := None |} |}.

Ltac solve_concrete :=
  first [ vm_compute; reflexivity | vm_compute; discriminate
        | repeat constructor; first [discriminate | reflexivity] ].

(** A host whose language model is unavailable. *)
Definition failing_model_host : Runtime := {|
  getSetting := fun _ => JString "test-key";
  process_env := fun _ => JUndefined;
  generateText := fun _ => throw (Error "model unavailable");
  fetchPortfolio := fun _ _ => ok example_portfolio_data;
  fetchFarcaster := fun _ _ => ok example_farcaster_data;
  createMemory := fun _ => ok tt |}.

Lemma farcaster_model_error_witness :
  @farcaster_handler failing_model_host (@processActions failing_model_host 1)
    example_farcaster_message true []
  = (inl (Error "model unavailable"),
     [EvGenerateText (farcaster_context (text (content example_farcaster_message)));
      farcaster_failure_log (Error "model unavailable")]).
Proof. apply farcaster_model_error. reflexivity. Defined.

Lemma farcaster_config_error_witness :
  @farcaster_handler (example_host JNull (ok "0xabc") example_portfolio_data example_farcaster_data)
    (@processActions (example_host JNull (ok "0xabc") example_portfolio_data example_farcaster_data) 1)
    example_farcaster_message true []
  = (inl (Error (config_error_prefix <+> "Required")),
     [EvGenerateText (farcaster_context (text (content example_farcaster_message)));
      username_log "alice"; farcaster_failure_log (Error (config_error_prefix <+> "Required"))]).
Proof.
  apply (@farcaster_config_error
           (example_host JNull (ok "0xabc") example_portfolio_data example_farcaster_data)
           _ example_farcaster_message true [] "alice"); solve_concrete.
Defined.

Lemma farcaster_upstream_error_witness :
  @farcaster_handler (example_host (JString "test-key") (ok "0xabc") example_portfolio_data
                        {| gql_data := None; gql_errors := Some ["not found"] |})
    (@processActions example_runtime 1) example_farcaster_message false []
  = (inl (Error "Failed to fetch Farcaster addresses"),
     [EvGenerateText (farcaster_context (text (content example_farcaster_message)));
      username_log "alice"; EvFetch example_headers (QFarcaster "alice");
      upstream_log ["not found"]; farcaster_failure_log (Error "Failed to fetch Farcaster addresses")]).
Proof.
  apply (@farcaster_upstream_error
           (example_host (JString "test-key") (ok "0xabc") example_portfolio_data
              {| gql_data := None; gql_errors := Some ["not found"] |})
           _ example_farcaster_message _ [] "alice" example_config example_headers
           {| gql_data := None; gql_errors := Some ["not found"] |}
           ltac:(solve_concrete) ltac:(solve_concrete) ltac:(solve_concrete) ltac:(solve_concrete)
           ["not found"] eq_refl).
Defined.

Lemma farcaster_no_addresses_witness :
  @farcaster_handler (example_host (JString "test-key") (ok "0xabc") example_portfolio_data
                        {| gql_data := Some {| Farcaster.farcasterProfile := None |};
                           gql_errors := None |})
    (@processActions example_runtime 1) example_farcaster_message true []
  = (inl (Error "No addresses found for these Farcaster accounts"),
     [EvGenerateText (farcaster_context (text (content example_farcaster_message)));
      username_log "alice"; EvFetch example_headers (QFarcaster "alice");
      farcaster_failure_log (Error "No addresses found for these Farcaster accounts")]).
Proof.
  apply (@farcaster_no_addresses
           (example_host (JString "test-key") (ok "0xabc") example_portfolio_data
              {| gql_data := Some {| Farcaster.farcasterProfile := None |}; gql_errors := None |})
           _ example_farcaster_message _ [] "alice" example_config example_headers
           {| gql_data := Some {| Farcaster.farcasterProfile := None |}; gql_errors := None |});
    solve_concrete.
Defined.


(** A host on which the Farcaster lookup succeeds and the portfolio
    request then returns errors. *)
Definition portfolio_outage_host : Runtime :=
  example_host (JString "test-key") (ok "0xabc, 0xdef")
    {| gql_data := None; gql_errors := Some ["rate limited"] |} example_farcaster_data.

Lemma farcaster_failure_logged_witness :
  exists pre,
    snd (@farcaster_handler portfolio_outage_host (@processActions portfolio_outage_host 1)
           example_farcaster_message true [])
    = [] ++ pre ++ [farcaster_failure_log (Error "Failed to fetch data from Zapper API")]
    /\ (count is_model pre = 2 ->
        exists pre', pre = pre' ++ [failure_log (Error "Failed to fetch data from Zapper API")]).
Proof. apply (@farcaster_failure_logged portfolio_outage_host 0). vm_compute. reflexivity. Defined.

Lemma farcaster_success_writes_report_witness :
  exists m, In (EvCreateMemory m)
              (snd (@farcaster_handler example_runtime (@processActions example_runtime 1)
                      example_farcaster_message true []))
    /\ action (content m) = Some "ZAPPER_PORTFOLIO_RESPONSE"
    /\ userId m = userId example_farcaster_message /\ roomId m = roomId example_farcaster_message.
Proof. apply (@farcaster_success_writes_report example_runtime 0). vm_compute. reflexivity. Defined.

End FarcasterAction.
